(** * riskTarot: the deck of the systems-thinking oracle

    A shallow embedding of [riskTarot.py], [systemsTarot.py] and
    [generate_prompts.py]: the card catalog, the shuffled draw order with its
    draw-and-replenish rule, and the prompt files derived from the catalog. *)

From stdpp Require Import base numbers list gmap strings pretty.
From Stdlib Require Import ZArith Lia Ascii.

Local Open Scope Z_scope.

(** ** Python lists *)

Section PyList.
Context {A : Type}.

(** [len(x)] as a Python integer. *)
Definition len (x : list A) : Z := Z.of_nat (length x).

(** [x[:n]]: a negative bound counts from the end, and every bound is clipped
    to the list. *)
Definition slice_to (x : list A) (n : Z) : list A :=
  if 0 <=? n then take (Z.to_nat n) x
  else take (length x - Z.to_nat (- n)) x.

(** [x[n:]]. *)
Definition slice_from (x : list A) (n : Z) : list A :=
  if 0 <=? n then drop (Z.to_nat n) x
  else drop (length x - Z.to_nat (- n)) x.

(** [x[i], x[j] = x[j], x[i]]: both reads happen before either write. An index
    out of range raises IndexError in Python; [shuffle] never produces one. *)
Definition swap (x : list A) (i j : nat) : list A :=
  match x !! i, x !! j with
  | Some a, Some b => <[j:=a]> (<[i:=b]> x)
  | _, _ => x
  end.

End PyList.

(** ** The random module

    [random.shuffle(x)] is the standard library's loop
    [for i in reversed(range(1, len(x))): j = randbelow(i + 1); swap x[i], x[j]].
    The generator itself stays abstract: a state [G] and a [randbelow] that
    answers below its positive argument and steps the state. *)

Class RandomSource (G : Type) := {
  randbelow : nat -> G -> nat * G;
  randbelow_lt : forall n g, (0 < n)%nat -> (fst (randbelow n g) < n)%nat
}.

Section Shuffle.
Context {A G : Type} `{RandomSource G}.

(** The loop from [i = k] down to [i = 1]. *)
Fixpoint shuffle_from (k : nat) (x : list A) (g : G) : list A * G :=
  match k with
  | O => (x, g)
  | S k' =>
      let (j, g') := randbelow (k + 1) g in
      shuffle_from k' (swap x k j) g'
  end.

Definition shuffle (x : list A) (g : G) : list A * G :=
  shuffle_from (length x - 1) x g.

End Shuffle.

(** A small linear congruential generator, used to run the model. *)
Definition lcg_next (g : Z) : Z := (g * 1103515245 + 12345) mod 2147483648.

Definition lcg_randbelow (n : nat) (g : Z) : nat * Z :=
  (Z.to_nat (lcg_next g mod Z.of_nat n), lcg_next g).

#[export] Instance lcg : RandomSource Z.
Proof.
  refine {| randbelow := lcg_randbelow |}.
  intros n g Hn. unfold lcg_randbelow. cbn [fst].
  pose proof (Z.mod_pos_bound (lcg_next g) (Z.of_nat n)). lia.
Defined.

(** ** The oracle object

    [TonysTarot] and [SystemsTarot] have the same attributes and the same
    methods; only the card records of their catalogs differ. *)

Section Deck.
Context {A G : Type} `{RandomSource G}.

(** The attributes [full_deck] and [deck], with the process-wide generator
    that [random.shuffle] steps. *)
Record Tarot := MkTarot {
  full_deck : list A;
  deck : list A;
  rng : G
}.

(** [self.deck = list(self.full_deck); random.shuffle(self.deck)] *)
Definition reset_and_shuffle (t : Tarot) : Tarot :=
  let (d, g) := shuffle (full_deck t) (rng t) in
  {| full_deck := full_deck t; deck := d; rng := g |}.

(** The constructor, once the catalog has been concatenated: it stores the
    catalog and calls [reset_and_shuffle]. *)
Definition construct (catalog : list A) (g : G) : Tarot :=
  reset_and_shuffle {| full_deck := catalog; deck := []; rng := g |}.

Definition draw (t : Tarot) (n : Z) : list A * Tarot :=
  if n <=? 0 then ([], t)
  else
    let t1 := if n >? len (deck t) then reset_and_shuffle t else t in
    let drawn := slice_to (deck t1) n in
    let t2 := {| full_deck := full_deck t1;
                 deck := slice_from (deck t1) n;
                 rng := rng t1 |} in
    let t3 := if len (deck t2) <? 10 then reset_and_shuffle t2 else t2 in
    (drawn, t3).

(** A run of consecutive [draw] calls: the results in call order and the
    final object. *)
Fixpoint draws (t : Tarot) (ns : list Z) : list (list A) * Tarot :=
  match ns with
  | [] => ([], t)
  | n :: ns' =>
      let (r, t') := draw t n in
      let (rs, t'') := draws t' ns' in
      (r :: rs, t'')
  end.

End Deck.

Arguments Tarot : clear implicits.
Arguments MkTarot {A G}.

(** ** riskTarot.py *)

Module RiskTarot.

Inductive Suit := NETWORKS | EVENTS | AGENTS | RESOURCES.

(** [Suit.X.value] *)
Definition value (s : Suit) : string :=
  match s with
  | NETWORKS => "Networks"
  | EVENTS => "Events"
  | AGENTS => "Agents"
  | RESOURCES => "Resources"
  end.

(** The dataclass, with the fields as [__post_init__] leaves them: a list
    argument that is left out is the empty list, [number] left out is [None]
    and [batcave_context] left out is the empty string. *)
Record Card := {
  name : string;
  card_type : string;
  number : option Z;
  pattern : string;
  questions : list string;
  failure_modes : list string;
  emergence_patterns : list string;
  batcave_context : string
}.

Definition MAJOR_ARCANA : list Card := [
  {| name := "The Cascade";
     card_type := "Major";
     number := None;
     pattern := "Small triggers, massive consequences. Single points of failure propagating through interconnected systems.";
     questions := ["What small change could trigger disproportionate effects?";
                   "Where are my single points of failure?";
                   "What cascades am I already inside?"];
     failure_modes := ["Ignoring weak signals until cascade begins";
                       "Optimizing local efficiency at cost of systemic resilience";
                       "Assuming linear causality in nonlinear systems"];
     emergence_patterns := ["Avalanche dynamics in social/technical systems";
                            "Bank runs and panic cascades";
                            "Network effects accelerating collapse"];
     batcave_context := "Critical infrastructure attacks, financial contagion, supply chain fragility" |};
  {| name := "The Mycelium";
     card_type := "Major";
     number := None;
     pattern := "Distributed intelligence without central control. Information sharing through underground networks.";
     questions := ["How do I influence without authority?";
                   "What networks am I part of that I can't see?";
                   "Where is intelligence emerging from local interactions?"];
     failure_modes := ["Seeking control instead of influence";
                       "Ignoring informal networks";
                       "Underestimating distributed coordination"];
     emergence_patterns := ["Leaderless movements achieving coordination";
                            "Knowledge sharing without hierarchy";
                            "Resilient systems that route around damage"];
     batcave_context := "Information ecosystem health, decentralized coordination, fungal network intelligence" |};
  {| name := "The Threshold";
     card_type := "Major";
     number := None;
     pattern := "Tipping points and irreversible state changes. The moment before everything becomes different.";
     questions := ["What threshold am I approaching?";
                   "Is this decision reversible?";
                   "What happens after I cross this line?"];
     failure_modes := ["Crossing thresholds unknowingly";
                       "Assuming all changes are reversible";
                       "Ignoring early warning signs"];
     emergence_patterns := ["Phase transitions in complex systems";
                            "Sudden flips in stable equilibria";
                            "Points of no return"];
     batcave_context := "Climate tipping points (AMOC, Arctic ice), social cohesion breakdown, nuclear proliferation" |};
  {| name := "The Emergence";
     card_type := "Major";
     number := None;
     pattern := "Order arising from chaos. Patterns that couldn't be predicted from components alone.";
     questions := ["What's trying to emerge that I can't control?";
                   "Am I creating conditions for emergence or forcing outcomes?";
                   "What patterns are appearing that weren't designed?"];
     failure_modes := ["Over-controlling instead of enabling";
                       "Mistaking emergence for randomness";
                       "Crushing novelty by forcing plans"];
     emergence_patterns := ["Self-organizing systems finding solutions";
                            "Unexpected capabilities from simple rules";
                            "Bottom-up innovation"];
     batcave_context := "Complex domain operation, living systems evolution, market dynamics" |};
  {| name := "The Collapse";
     card_type := "Major";
     number := None;
     pattern := "System failure and dissolution. The end of what was, making space for what's next.";
     questions := ["What needs to collapse for something better to emerge?";
                   "Am I prolonging a dying system?";
                   "What comes after this failure?"];
     failure_modes := ["Propping up systems past their useful life";
                       "Fearing collapse instead of preparing for it";
                       "Missing opportunities in destruction"];
     emergence_patterns := ["Creative destruction enabling innovation";
                            "Collapse creating space for new growth";
                            "Phoenix patterns"];
     batcave_context := "Civilizational collapse indicators, organizational death, managed decline" |};
  {| name := "The Resilience";
     card_type := "Major";
     number := None;
     pattern := "Anti-fragility. Systems that grow stronger under stress, not just survive it.";
     questions := ["How do I benefit from volatility?";
                   "What stressors make me stronger?";
                   "Am I optimizing for efficiency or resilience?"];
     failure_modes := ["Over-optimization reducing adaptability";
                       "Seeking stability instead of anti-fragility";
                       "Avoiding all stress and losing capacity"];
     emergence_patterns := ["Hormesis and beneficial stress";
                            "Redundancy enabling survival";
                            "Optionality under uncertainty"];
     batcave_context := "Infrastructure resilience, pandemic preparedness, financial stress testing" |};
  {| name := "The Attention";
     card_type := "Major";
     number := None;
     pattern := "Resource allocation through selective focus. Intelligence as learned prioritization.";
     questions := ["Where am I directing my attention?";
                   "What am I missing by focusing here?";
                   "How do I decide what matters?"];
     failure_modes := ["Attention scattered across too many domains";
                       "Focusing on urgent over important";
                       "Missing signals outside attention window"];
     emergence_patterns := ["Transformer architecture and learned attention";
                            "Collective attention shaping reality";
                            "Awareness as competitive advantage"];
     batcave_context := "Hypervigilance patterns, threat detection optimization, information filtering" |};
  {| name := "The Feedback";
     card_type := "Major";
     number := None;
     pattern := "Control loops, positive and negative. Systems regulating or amplifying themselves.";
     questions := ["What feedback loops am I inside?";
                   "Am I creating stabilizing or destabilizing feedback?";
                   "Where are my blind spots in the loop?"];
     failure_modes := ["Breaking feedback loops for short-term gain";
                       "Ignoring delayed feedback";
                       "Positive feedback spiraling out of control"];
     emergence_patterns := ["Homeostasis in living systems";
                            "Runaway effects in markets";
                            "Self-correcting organizations"];
     batcave_context := "Climate feedback loops, financial feedback mechanisms, social reinforcement" |};
  {| name := "The Boundary";
     card_type := "Major";
     number := None;
     pattern := "Liminal space between domains. Operating at edges where rules change.";
     questions := ["What boundary am I operating on?";
                   "What rules apply here vs. there?";
                   "What's possible at edges that isn't possible in centers?"];
     failure_modes := ["Applying wrong-domain rules";
                       "Ignoring context shifts";
                       "Staying in comfortable territory"];
     emergence_patterns := ["Innovation at domain intersections";
                            "Phase transitions and interfaces";
                            "Cross-pollination between fields"];
     batcave_context := "Complex/Chaotic boundary, geopolitical borders, epistemic commons edges" |};
  {| name := "The Signal";
     card_type := "Major";
     number := None;
     pattern := "Information transmission through noise. Distinguishing meaning from chaos.";
     questions := ["What signal am I missing in the noise?";
                   "What noise am I mistaking for signal?";
                   "How do I amplify weak signals?"];
     failure_modes := ["Signal loss through excessive filtering";
                       "Noise amplification through poor models";
                       "Missing weak signals until too late"];
     emergence_patterns := ["Early warning systems";
                            "Pattern recognition in chaos";
                            "Information theory applied to decisions"];
     batcave_context := "Threat intelligence scanning, weak signal detection, information warfare" |};
  {| name := "The Compression";
     card_type := "Major";
     number := None;
     pattern := "Reducing complexity to fit context windows. Translation and information loss.";
     questions := ["What am I losing by compressing?";
                   "Who am I compressing myself for?";
                   "What's the minimum viable complexity?"];
     failure_modes := ["Over-compression losing essential information";
                       "Operating at compressed capacity habitually";
                       "Forgetting full complexity exists"];
     emergence_patterns := ["Abstraction enabling reasoning";
                            "Lossy compression for efficiency";
                            "Models simplifying reality"];
     batcave_context := "Operating at 30% capacity, translating for others, context window constraints" |};
  {| name := "The Archipelago";
     card_type := "Major";
     number := None;
     pattern := "Living ecosystems in parallel. Islands developing independently with rare cross-pollination.";
     questions := ["What islands am I stewarding?";
                   "Which island wants attention now?";
                   "Where might cross-pollination create something new?"];
     failure_modes := ["Forcing islands to merge prematurely";
                       "Abandoning islands before they mature";
                       "Spreading energy too thin across too many"];
     emergence_patterns := ["Parallel development in isolated systems";
                            "Punctuated equilibrium";
                            "Seismic events from rare connections"];
     batcave_context := "Multiple simultaneous projects, generative systems, portfolio thinking" |};
  {| name := "The Continuity";
     card_type := "Major";
     number := None;
     pattern := "Post-catastrophe survival. Systems designed to persist through existential threats.";
     questions := ["What must survive no matter what?";
                   "How do I ensure continuity through collapse?";
                   "What's essential vs. merely important?"];
     failure_modes := ["No succession planning";
                       "Single points of failure in critical systems";
                       "Assuming stability will continue"];
     emergence_patterns := ["Backup systems and redundancy";
                            "Knowledge preservation";
                            "Succession and inheritance"];
     batcave_context := "Post-nuclear command systems, civilization continuity, strategic reserves" |};
  {| name := "The Translation";
     card_type := "Major";
     number := None;
     pattern := "Converting between contexts. Bridging incompatible worldviews.";
     questions := ["What am I translating and why?";
                   "What's lost in translation?";
                   "Who benefits from my translation work?"];
     failure_modes := ["Translating when you should be speaking natively";
                       "Translation exhaustion";
                       "Forgetting your native language"];
     emergence_patterns := ["Bridges between communities";
                            "Polyglot advantages";
                            "Context switching as skill"];
     batcave_context := "Operating across 50+ domains, explaining to others, compression necessity" |};
  {| name := "The Hypervigilance";
     card_type := "Major";
     number := None;
     pattern := "Constant threat scanning. Nervous system running in tactical mode.";
     questions := ["What threat am I actually responding to?";
                   "Is this vigilance serving me or controlling me?";
                   "What would relaxing my guard actually cost?"];
     failure_modes := ["Scanning for threats that don't exist";
                       "Burning out from constant activation";
                       "Missing present moments while predicting futures"];
     emergence_patterns := ["Protective patterns outliving their usefulness";
                            "Prediction addiction";
                            "Chess-playing at breakfast table"];
     batcave_context := "Military dependent childhood, 50 years of threat modeling, pattern recognition as survival" |};
  {| name := "The Janke";
     card_type := "Major";
     number := None;
     pattern := "Radical reframe. Burning the chessboard and playing a different game entirely.";
     questions := ["What assumption am I locked into?";
                   "What would the opposite of my plan look like?";
                   "What if I'm solving the wrong problem?"];
     failure_modes := ["Incremental changes when radical shift needed";
                       "Playing the same game expecting different results";
                       "Fear of losing progress already made"];
     emergence_patterns := ["Discontinuous jumps in thinking";
                            "Paradigm shifts";
                            "Maximum orthogonality revealing new space"];
     batcave_context := "Going back to NFL at 44, doing something completely outside trajectory" |};
  {| name := "The Synthesis";
     card_type := "Major";
     number := None;
     pattern := "Creating novel combinations from existing elements. The alchemical moment.";
     questions := ["What do I know that nobody else combines?";
                   "Where do my domains intersect unexpectedly?";
                   "What emerges when I connect A + B + C?"];
     failure_modes := ["Keeping domains isolated";
                       "Assuming synthesis will happen automatically";
                       "Missing obvious combinations"];
     emergence_patterns := ["Innovation from recombination";
                            "Breakthrough insights";
                            "New fields from old intersections"];
     batcave_context := "Neuron project, should've written 'Attention is All You Need', unique capability" |};
  {| name := "The Stewardship";
     card_type := "Major";
     number := None;
     pattern := "Tending systems you don't control. Creating conditions for emergence without forcing outcomes.";
     questions := ["What am I trying to control that I should be stewarding?";
                   "What conditions enable growth?";
                   "When do I intervene vs. observe?"];
     failure_modes := ["Micromanaging instead of enabling";
                       "Abandoning systems that need tending";
                       "Forcing outcomes instead of creating conditions"];
     emergence_patterns := ["Gardening vs. engineering";
                            "Facilitative leadership";
                            "Systems thinking in practice"];
     batcave_context := "DE community building, teaching, ecosystem thinking" |};
  {| name := "The Compression Release";
     card_type := "Major";
     number := None;
     pattern := "Operating at full capacity without translation. Permission to stop fitting into context windows.";
     questions := ["What would I do if I didn't have to compress?";
                   "Who am I when I'm not translating?";
                   "What's my actual scope?"];
     failure_modes := ["Permanent compression becoming identity";
                       "Forgetting full capability";
                       "Never testing actual limits"];
     emergence_patterns := ["Decompression revealing true capacity";
                            "Finding peers who don't require translation";
                            "Building context that fits you"];
     batcave_context := "28 years at Capital One, always translating, 'why are you at a bank?'" |};
  {| name := "The Unknown Unknown";
     card_type := "Major";
     number := None;
     pattern := "What you don't know you don't know. The space beyond the map.";
     questions := ["What am I not even asking about?";
                   "What would I need to learn to see this blind spot?";
                   "Who might see what I'm missing?"];
     failure_modes := ["Assuming you know what's knowable";
                       "Staying in explored territory";
                       "Mistaking map for territory"];
     emergence_patterns := ["Discoveries from left field";
                            "Paradigm shifts from outside";
                            "Learning you've been asking wrong questions"];
     batcave_context := "Batcave project seeking unknown unknowns, context funhouse mirror problem" |};
  {| name := "The Legacy";
     card_type := "Major";
     number := None;
     pattern := "What you leave behind. Inheritance beyond the material.";
     questions := ["What am I building that outlasts me?";
                   "Who carries forward what I started?";
                   "What's worth preserving?"];
     failure_modes := ["Building nothing lasting";
                       "Obsessing over legacy instead of living";
                       "Leaving burden instead of gift"];
     emergence_patterns := ["Knowledge transmission across generations";
                            "Institutions outliving founders";
                            "Cultural inheritance"];
     batcave_context := "Relative built treaties, dad built doomsday systems, what will you build?" |};
  {| name := "The Presence";
     card_type := "Major";
     number := None;
     pattern := "Being here now without prediction or planning. Stopping the chess game.";
     questions := ["Where am I right now, actually?";
                   "What am I missing by being three moves ahead?";
                   "Can I be present without threat assessment?"];
     failure_modes := ["Always in the future, never now";
                       "Mistaking prediction for living";
                       "Relationship friction from absence"];
     emergence_patterns := ["Spontaneity and flow states";
                            "Connection requiring presence";
                            "Joy in the moment"];
     batcave_context := "Winding down hypervigilance, relational presence, stop playing chess at breakfast" |}
].

Definition create_networks_suit : list Card := [
  {| name := "Ace of Networks";
     card_type := value NETWORKS;
     number := Some 1;
     pattern := "Pure potential of connectivity. The first link.";
     questions := ["What connection am I about to make?";
                   "What network wants to form?"];
     failure_modes := [];
     emergence_patterns := [];
     batcave_context := "Submarine cables, internet backbone, new infrastructure" |};
  {| name := "Two of Networks";
     card_type := value NETWORKS;
     number := Some 2;
     pattern := "Point-to-point communication. Direct connection.";
     questions := ["Who do I need to talk to directly?";
                   "What's getting lost in mediation?"];
     failure_modes := [];
     emergence_patterns := [];
     batcave_context := "Bilateral relationships, peer connections" |};
  {| name := "Three of Networks";
     card_type := value NETWORKS;
     number := Some 3;
     pattern := "Triangle formation. Stability through redundancy.";
     questions := ["Where do I need backup paths?";
                   "What's my second option?"];
     failure_modes := [];
     emergence_patterns := [];
     batcave_context := "Redundant systems, failover capacity" |};
  {| name := "Four of Networks";
     card_type := value NETWORKS;
     number := Some 4;
     pattern := "Hub-and-spoke. Centralized routing.";
     questions := ["Am I the hub or the spoke?";
                   "What's the single point of failure?"];
     failure_modes := [];
     emergence_patterns := [];
     batcave_context := "Centralized architecture, dependency risks" |};
  {| name := "Five of Networks";
     card_type := value NETWORKS;
     number := Some 5;
     pattern := "Network fragmentation. Loss of connectivity.";
     questions := ["What connections are breaking?";
                   "How do I heal the split?"];
     failure_modes := [];
     emergence_patterns := [];
     batcave_context := "Infrastructure attacks, network partition" |};
  {| name := "Six of Networks";
     card_type := value NETWORKS;
     number := Some 6;
     pattern := "Mesh topology. Distributed resilience.";
     questions := ["How does information route around damage?";
                   "What's my mesh density?"];
     failure_modes := [];
     emergence_patterns := [];
     batcave_context := "Decentralized systems, mycelial networks" |};
  {| name := "Seven of Networks";
     card_type := value NETWORKS;
     number := Some 7;
     pattern := "Network congestion. Too much traffic.";
     questions := ["Where are my bottlenecks?";
                   "What needs throttling?"];
     failure_modes := [];
     emergence_patterns := [];
     batcave_context := "Bandwidth constraints, flow optimization" |};
  {| name := "Eight of Networks";
     card_type := value NETWORKS;
     number := Some 8;
     pattern := "Network effects. Value from scale.";
     questions := ["How does growth create value?";
                   "What's my critical mass?"];
     failure_modes := [];
     emergence_patterns := [];
     batcave_context := "Platform effects, viral adoption" |};
  {| name := "Nine of Networks";
     card_type := value NETWORKS;
     number := Some 9;
     pattern := "Over-connected. Collapse from complexity.";
     questions := ["Am I too connected?";
                   "What connections should I sever?"];
     failure_modes := [];
     emergence_patterns := [];
     batcave_context := "Cascade vulnerability, tight coupling" |};
  {| name := "Ten of Networks";
     card_type := value NETWORKS;
     number := Some 10;
     pattern := "Network maturity. Established infrastructure.";
     questions := ["Is this network done growing?";
                   "What's next after maturity?"];
     failure_modes := [];
     emergence_patterns := [];
     batcave_context := "Legacy systems, infrastructure debt" |};
  {| name := "Page of Networks";
     card_type := value NETWORKS;
     number := Some 11;
     pattern := "Learning connectivity. Explorer of links.";
     questions := ["What network am I just discovering?";
                   "Where should I explore?"];
     failure_modes := [];
     emergence_patterns := [];
     batcave_context := "Network mapping, topology discovery" |};
  {| name := "Knight of Networks";
     card_type := value NETWORKS;
     number := Some 12;
     pattern := "Network warrior. Defender of infrastructure.";
     questions := ["What infrastructure needs protecting?";
                   "Where do I patrol?"];
     failure_modes := [];
     emergence_patterns := [];
     batcave_context := "Cybersecurity, infrastructure defense" |};
  {| name := "Queen of Networks";
     card_type := value NETWORKS;
     number := Some 13;
     pattern := "Network wisdom. Deep understanding of connectivity.";
     questions := ["What does this network need?";
                   "How do I nurture connections?"];
     failure_modes := [];
     emergence_patterns := [];
     batcave_context := "Infrastructure stewardship, network health" |};
  {| name := "King of Networks";
     card_type := value NETWORKS;
     number := Some 14;
     pattern := "Network sovereignty. Control of infrastructure.";
     questions := ["Who controls this network?";
                   "What's my infrastructure power?"];
     failure_modes := [];
     emergence_patterns := [];
     batcave_context := "Critical infrastructure ownership, network dominance" |}
].

Definition create_events_suit : list Card := [
  {| name := "Ace of Events";
     card_type := value EVENTS;
     number := Some 1;
     pattern := "The first trigger. Initiating event.";
     questions := ["What event starts the cascade?";
                   "What's the first domino?"];
     failure_modes := [];
     emergence_patterns := [];
     batcave_context := "Black swan events, triggering moments" |};
  {| name := "Two of Events";
     card_type := value EVENTS;
     number := Some 2;
     pattern := "Cause and effect. Simple causality.";
     questions := ["What caused this?";
                   "What will this cause?"];
     failure_modes := [];
     emergence_patterns := [];
     batcave_context := "Linear causality, deterministic systems" |};
  {| name := "Three of Events";
     card_type := value EVENTS;
     number := Some 3;
     pattern := "Event branching. Multiple possible outcomes.";
     questions := ["Which path does this event take?";
                   "What futures are possible?"];
     failure_modes := [];
     emergence_patterns := [];
     batcave_context := "Decision trees, branching timelines" |};
  {| name := "Four of Events";
     card_type := value EVENTS;
     number := Some 4;
     pattern := "Event synchronization. Coordination in time.";
     questions := ["What needs to happen simultaneously?";
                   "How do I coordinate?"];
     failure_modes := [];
     emergence_patterns := [];
     batcave_context := "Distributed timing, consensus protocols" |};
  {| name := "Five of Events";
     card_type := value EVENTS;
     number := Some 5;
     pattern := "Event chaos. Loss of causal clarity.";
     questions := ["What's the actual cause here?";
                   "Am I confusing correlation and causation?"];
     failure_modes := [];
     emergence_patterns := [];
     batcave_context := "Complex causality, chaotic systems" |};
  {| name := "Six of Events";
     card_type := value EVENTS;
     number := Some 6;
     pattern := "Event stream. Continuous flow.";
     questions := ["What's the pattern in the stream?";
                   "How do I process this flow?"];
     failure_modes := [];
     emergence_patterns := [];
     batcave_context := "Event-driven architecture, streaming data" |};
  {| name := "Seven of Events";
     card_type := value EVENTS;
     number := Some 7;
     pattern := "Event cascade. Chain reactions.";
     questions := ["What cascade am I triggering?";
                   "Where does this chain end?"];
     failure_modes := [];
     emergence_patterns := [];
     batcave_context := "Cascade failures, domino effects, contagion" |};
  {| name := "Eight of Events";
     card_type := value EVENTS;
     number := Some 8;
     pattern := "Event replay. Learning from history.";
     questions := ["What can I learn from past events?";
                   "What patterns repeat?"];
     failure_modes := [];
     emergence_patterns := [];
     batcave_context := "Historical analysis, pattern recognition" |};
  {| name := "Nine of Events";
     card_type := value EVENTS;
     number := Some 9;
     pattern := "Event overload. Too much happening.";
     questions := ["What events can I ignore?";
                   "Where do I focus?"];
     failure_modes := [];
     emergence_patterns := [];
     batcave_context := "Information overload, priority management" |};
  {| name := "Ten of Events";
     card_type := value EVENTS;
     number := Some 10;
     pattern := "Event completion. Cycle ending.";
     questions := ["What cycle is finishing?";
                   "What comes after completion?"];
     failure_modes := [];
     emergence_patterns := [];
     batcave_context := "Project completion, cycle endings" |};
  {| name := "Page of Events";
     card_type := value EVENTS;
     number := Some 11;
     pattern := "Event watcher. Observer of patterns.";
     questions := ["What events should I monitor?";
                   "What patterns am I missing?"];
     failure_modes := [];
     emergence_patterns := [];
     batcave_context := "Monitoring systems, early warning" |};
  {| name := "Knight of Events";
     card_type := value EVENTS;
     number := Some 12;
     pattern := "Event responder. Quick reaction.";
     questions := ["How fast must I respond?";
                   "What's the urgency?"];
     failure_modes := [];
     emergence_patterns := [];
     batcave_context := "Incident response, crisis management" |};
  {| name := "Queen of Events";
     card_type := value EVENTS;
     number := Some 13;
     pattern := "Event wisdom. Understanding timing.";
     questions := ["When is the right time?";
                   "What's the rhythm here?"];
     failure_modes := [];
     emergence_patterns := [];
     batcave_context := "Timing strategy, rhythmic patterns" |};
  {| name := "King of Events";
     card_type := value EVENTS;
     number := Some 14;
     pattern := "Event mastery. Control of timing.";
     questions := ["Do I control the timing?";
                   "Who sets the tempo?"];
     failure_modes := [];
     emergence_patterns := [];
     batcave_context := "Strategic timing, tempo control" |}
].

Definition create_agents_suit : list Card := [
  {| name := "Ace of Agents";
     card_type := value AGENTS;
     number := Some 1;
     pattern := "Autonomous action. Independent agency.";
     questions := ["What can I do alone?";
                   "Where do I have agency?"];
     failure_modes := [];
     emergence_patterns := [];
     batcave_context := "Individual autonomy, self-direction" |};
  {| name := "Two of Agents";
     card_type := value AGENTS;
     number := Some 2;
     pattern := "Partnership. Cooperative action.";
     questions := ["Who's my partner here?";
                   "How do we coordinate?"];
     failure_modes := [];
     emergence_patterns := [];
     batcave_context := "Collaboration, paired work" |};
  {| name := "Three of Agents";
     card_type := value AGENTS;
     number := Some 3;
     pattern := "Small team. Coordinated intelligence.";
     questions := ["Who's on my team?";
                   "How do we work together?"];
     failure_modes := [];
     emergence_patterns := [];
     batcave_context := "Small group dynamics, team formation" |};
  {| name := "Four of Agents";
     card_type := value AGENTS;
     number := Some 4;
     pattern := "Organized structure. Hierarchy forming.";
     questions := ["What's the structure here?";
                   "Who reports to whom?"];
     failure_modes := [];
     emergence_patterns := [];
     batcave_context := "Organizational hierarchy, chain of command" |};
  {| name := "Five of Agents";
     card_type := value AGENTS;
     number := Some 5;
     pattern := "Agent conflict. Competing interests.";
     questions := ["What's the conflict?";
                   "Can interests align?"];
     failure_modes := [];
     emergence_patterns := [];
     batcave_context := "Competing priorities, game theory" |};
  {| name := "Six of Agents";
     card_type := value AGENTS;
     number := Some 6;
     pattern := "Swarm intelligence. Emergent coordination.";
     questions := ["How does coordination emerge?";
                   "What rules create the swarm?"];
     failure_modes := [];
     emergence_patterns := [];
     batcave_context := "Collective behavior, emergent organization" |};
  {| name := "Seven of Agents";
     card_type := value AGENTS;
     number := Some 7;
     pattern := "Agent diversity. Specialization.";
     questions := ["What's each agent's role?";
                   "How does diversity help?"];
     failure_modes := [];
     emergence_patterns := [];
     batcave_context := "Specialization, division of labor" |};
  {| name := "Eight of Agents";
     card_type := value AGENTS;
     number := Some 8;
     pattern := "Multi-agent systems. Complex coordination.";
     questions := ["How do many agents coordinate?";
                   "What's the protocol?"];
     failure_modes := [];
     emergence_patterns := [];
     batcave_context := "Large-scale coordination, protocols" |};
  {| name := "Nine of Agents";
     card_type := value AGENTS;
     number := Some 9;
     pattern := "Agent autonomy vs. control. Tension.";
     questions := ["How much control do I need?";
                   "When do I let go?"];
     failure_modes := [];
     emergence_patterns := [];
     batcave_context := "Micromanagement vs. delegation, trust" |};
  {| name := "Ten of Agents";
     card_type := value AGENTS;
     number := Some 10;
     pattern := "Collective intelligence. Hive mind.";
     questions := ["What does the collective know?";
                   "How do we think together?"];
     failure_modes := [];
     emergence_patterns := [];
     batcave_context := "Collective decision-making, wisdom of crowds" |};
  {| name := "Page of Agents";
     card_type := value AGENTS;
     number := Some 11;
     pattern := "Learning agent. Growing capability.";
     questions := ["What am I learning?";
                   "How do I improve?"];
     failure_modes := [];
     emergence_patterns := [];
     batcave_context := "Skill development, capability growth" |};
  {| name := "Knight of Agents";
     card_type := value AGENTS;
     number := Some 12;
     pattern := "Action-oriented agent. Executor.";
     questions := ["What needs doing now?";
                   "How do I execute?"];
     failure_modes := [];
     emergence_patterns := [];
     batcave_context := "Execution focus, getting things done" |};
  {| name := "Queen of Agents";
     card_type := value AGENTS;
     number := Some 13;
     pattern := "Nurturing intelligence. Teacher and mentor.";
     questions := ["Who needs my guidance?";
                   "How do I develop others?"];
     failure_modes := [];
     emergence_patterns := [];
     batcave_context := "Mentorship, teaching, development" |};
  {| name := "King of Agents";
     card_type := value AGENTS;
     number := Some 14;
     pattern := "Strategic intelligence. Master coordinator.";
     questions := ["What's the overall strategy?";
                   "How do I orchestrate?"];
     failure_modes := [];
     emergence_patterns := [];
     batcave_context := "Strategic leadership, orchestration" |}
].

Definition create_resources_suit : list Card := [
  {| name := "Ace of Resources";
     card_type := value RESOURCES;
     number := Some 1;
     pattern := "New resource. Fresh potential.";
     questions := ["What new resource is available?";
                   "How do I use it?"];
     failure_modes := [];
     emergence_patterns := [];
     batcave_context := "New funding, new capability, new energy" |};
  {| name := "Two of Resources";
     card_type := value RESOURCES;
     number := Some 2;
     pattern := "Resource balance. Equilibrium.";
     questions := ["Am I balanced?";
                   "What needs rebalancing?"];
     failure_modes := [];
     emergence_patterns := [];
     batcave_context := "Work-life balance, resource allocation" |};
  {| name := "Three of Resources";
     card_type := value RESOURCES;
     number := Some 3;
     pattern := "Resource collaboration. Pooling.";
     questions := ["What resources can we share?";
                   "How do we pool?"];
     failure_modes := [];
     emergence_patterns := [];
     batcave_context := "Shared resources, collaboration" |};
  {| name := "Four of Resources";
     card_type := value RESOURCES;
     number := Some 4;
     pattern := "Resource hoarding. Holding too tight.";
     questions := ["What am I hoarding?";
                   "What needs to flow?"];
     failure_modes := [];
     emergence_patterns := [];
     batcave_context := "Accumulation vs. flow, letting go" |};
  {| name := "Five of Resources";
     card_type := value RESOURCES;
     number := Some 5;
     pattern := "Resource scarcity. Not enough.";
     questions := ["What's truly scarce?";
                   "How do I work within constraints?"];
     failure_modes := [];
     emergence_patterns := [];
     batcave_context := "Scarcity mindset, constraint optimization" |};
  {| name := "Six of Resources";
     card_type := value RESOURCES;
     number := Some 6;
     pattern := "Resource flow. Circulation and exchange.";
     questions := ["Where do resources flow?";
                   "What blocks flow?"];
     failure_modes := [];
     emergence_patterns := [];
     batcave_context := "Cash flow, energy flow, circulation" |};
  {| name := "Seven of Resources";
     card_type := value RESOURCES;
     number := Some 7;
     pattern := "Resource investment. Long-term thinking.";
     questions := ["What investment pays off later?";
                   "What's the long game?"];
     failure_modes := [];
     emergence_patterns := [];
     batcave_context := "Long-term investment, deferred gratification" |};
  {| name := "Eight of Resources";
     card_type := value RESOURCES;
     number := Some 8;
     pattern := "Resource transformation. Alchemy.";
     questions := ["How do I transform this resource?";
                   "What's the conversion?"];
     failure_modes := [];
     emergence_patterns := [];
     batcave_context := "Value transformation, resource conversion" |};
  {| name := "Nine of Resources";
     card_type := value RESOURCES;
     number := Some 9;
     pattern := "Resource abundance. More than enough.";
     questions := ["What abundance do I have?";
                   "Am I seeing it?"];
     failure_modes := [];
     emergence_patterns := [];
     batcave_context := "Abundance mindset, gratitude" |};
  {| name := "Ten of Resources";
     card_type := value RESOURCES;
     number := Some 10;
     pattern := "Resource legacy. Inheritance.";
     questions := ["What resources do I pass on?";
                   "What's my inheritance?"];
     failure_modes := [];
     emergence_patterns := [];
     batcave_context := "Legacy planning, generational transfer" |};
  {| name := "Page of Resources";
     card_type := value RESOURCES;
     number := Some 11;
     pattern := "Resource learning. Understanding value.";
     questions := ["What's truly valuable?";
                   "How do I recognize worth?"];
     failure_modes := [];
     emergence_patterns := [];
     batcave_context := "Value assessment, learning worth" |};
  {| name := "Knight of Resources";
     card_type := value RESOURCES;
     number := Some 12;
     pattern := "Resource quest. Seeking what's needed.";
     questions := ["What resource am I seeking?";
                   "Where do I find it?"];
     failure_modes := [];
     emergence_patterns := [];
     batcave_context := "Resource acquisition, quest" |};
  {| name := "Queen of Resources";
     card_type := value RESOURCES;
     number := Some 13;
     pattern := "Resource wisdom. Knowing what's needed.";
     questions := ["What do I truly need?";
                   "What's sufficient?"];
     failure_modes := [];
     emergence_patterns := [];
     batcave_context := "Sufficiency, wise allocation" |};
  {| name := "King of Resources";
     card_type := value RESOURCES;
     number := Some 14;
     pattern := "Resource mastery. Strategic allocation.";
     questions := ["How do I allocate optimally?";
                   "What's my strategy?"];
     failure_modes := [];
     emergence_patterns := [];
     batcave_context := "Strategic resource allocation, mastery" |}
].

Definition TonysTarot (G : Type) : Type := Tarot Card G.

(** The four Minor categories, as [card_type] spells them. *)
Definition suits : list string := value <$> [NETWORKS; EVENTS; AGENTS; RESOURCES].

(** The list that [TonysTarot.__init__] stores in [self.full_deck]. *)
Definition catalog : list Card :=
  MAJOR_ARCANA ++ create_networks_suit ++ create_events_suit
    ++ create_agents_suit ++ create_resources_suit.

(** [TonysTarot.__init__] *)
Definition __init__ {G : Type} `{RandomSource G} (g : G) : TonysTarot G :=
  construct catalog g.

End RiskTarot.

(** ** systemsTarot.py *)

Module SystemsTarot.

Inductive Suit := NETWORKS | EVENTS | AGENTS | RESOURCES.

(** [Suit.X.value] *)
Definition value (s : Suit) : string :=
  match s with
  | NETWORKS => "Networks"
  | EVENTS => "Events"
  | AGENTS => "Agents"
  | RESOURCES => "Resources"
  end.

(** The dataclass, with the fields as [__post_init__] leaves them. *)
Record Card := {
  name : string;
  card_type : string;
  number : option Z;
  pattern : string;
  questions : list string;
  examples : list string
}.

Definition MAJOR_ARCANA : list Card := [
  {| name := "The Cascade";
     card_type := "Major";
     number := None;
     pattern := "Small triggers creating disproportionate effects through connected systems.";
     questions := ["What small change could trigger large consequences?";
                   "Where are the critical dependencies?";
                   "What chain reaction am I inside?"];
     examples := ["Engineering: Single component failure bringing down entire system";
                  "Social: Rumor spreading exponentially through network";
                  "Financial: Bank run triggering systemic crisis";
                  "Ecological: Keystone species removal cascading through food web"] |};
  {| name := "The Network";
     card_type := "Major";
     number := None;
     pattern := "Distributed intelligence emerging from local connections without central control.";
     questions := ["How can influence spread without direct authority?";
                   "What invisible networks am I part of?";
                   "Where does coordination emerge from simple rules?"];
     examples := ["Nature: Fungal networks sharing resources between trees";
                  "Social: Movements organizing without formal leadership";
                  "Technical: Mesh networks routing around damage";
                  "Economic: Market coordination without central planning"] |};
  {| name := "The Threshold";
     card_type := "Major";
     number := None;
     pattern := "Tipping points where systems irreversibly shift to new states.";
     questions := ["What point of no return am I approaching?";
                   "Can this change be reversed?";
                   "What early warnings signal the threshold?"];
     examples := ["Physics: Water freezing at critical temperature";
                  "Ecology: Lake flipping from clear to turbid state";
                  "Social: Trust collapse in relationships or institutions";
                  "Business: Market share tipping toward winner-takes-all"] |};
  {| name := "The Emergence";
     card_type := "Major";
     number := None;
     pattern := "Complex order arising from simple interactions - patterns unpredictable from components.";
     questions := ["What's trying to emerge beyond my control?";
                   "Am I enabling conditions or forcing outcomes?";
                   "What unexpected patterns are appearing?"];
     examples := ["Biology: Consciousness emerging from neurons";
                  "Architecture: Desire paths emerging from foot traffic";
                  "Software: System behavior emerging from component interactions";
                  "Markets: Prices emerging from individual trades"] |};
  {| name := "The Collapse";
     card_type := "Major";
     number := None;
     pattern := "System failure creating space for transformation - endings enabling beginnings.";
     questions := ["What needs to end for something new to start?";
                   "Am I sustaining something past its useful life?";
                   "What opportunities exist in this breakdown?"];
     examples := ["Business: Company failure freeing capital for innovation";
                  "Ecology: Forest fire enabling new growth";
                  "Personal: Habit collapse creating space for change";
                  "Infrastructure: Old system retirement forcing modernization"] |};
  {| name := "The Resilience";
     card_type := "Major";
     number := None;
     pattern := "Systems growing stronger through stress, not just surviving it.";
     questions := ["How can I benefit from volatility?";
                   "What stressors make this system stronger?";
                   "Am I optimizing for efficiency or adaptability?"];
     examples := ["Biology: Muscles growing from exercise stress";
                  "Engineering: Redundant systems surviving failures";
                  "Economics: Diversified portfolios weathering shocks";
                  "Social: Communities strengthened through adversity"] |};
  {| name := "The Attention";
     card_type := "Major";
     number := None;
     pattern := "Intelligence as selective focus - what gets measured gets managed.";
     questions := ["Where is attention being directed?";
                   "What's invisible because it's not measured?";
                   "How do I decide what matters?"];
     examples := ["Business: Metrics shaping organizational behavior";
                  "Media: Headlines directing public focus";
                  "Personal: Habits following tracked behaviors";
                  "AI: Attention mechanisms in neural networks"] |};
  {| name := "The Feedback";
     card_type := "Major";
     number := None;
     pattern := "Control loops regulating or amplifying - systems responding to their own outputs.";
     questions := ["What feedback loops am I inside?";
                   "Is this loop stabilizing or amplifying?";
                   "Where are delays hiding feedback?"];
     examples := ["Climate: Ice melting reducing reflectivity increasing melting";
                  "Economics: Inflation expectations driving actual inflation";
                  "Audio: Microphone near speaker creating squealing loop";
                  "Social: Panic causing behavior causing more panic"] |};
  {| name := "The Boundary";
     card_type := "Major";
     number := None;
     pattern := "Edges between domains where different rules apply - operating at interfaces.";
     questions := ["What boundary am I operating on?";
                   "How do rules change across this edge?";
                   "What's possible at interfaces that isn't elsewhere?"];
     examples := ["Biology: Cell membranes controlling exchange";
                  "Innovation: Cross-disciplinary insights at field boundaries";
                  "Geography: Coastal zones with unique ecosystems";
                  "Organization: Departments with different cultures meeting"] |};
  {| name := "The Signal";
     card_type := "Major";
     number := None;
     pattern := "Meaningful information embedded in noise - distinguishing pattern from randomness.";
     questions := ["What signal am I missing in the noise?";
                   "What noise am I treating as signal?";
                   "How do I amplify weak but important signals?"];
     examples := ["Medicine: Symptoms indicating underlying disease";
                  "Finance: Market movements signaling regime changes";
                  "Science: Experimental data revealing new phenomena";
                  "Social: Weak signals indicating cultural shifts"] |};
  {| name := "The Compression";
     card_type := "Major";
     number := None;
     pattern := "Reducing complexity to fit constraints - translation with information loss.";
     questions := ["What am I losing by simplifying?";
                   "Is this compression necessary or habitual?";
                   "What's the minimum viable complexity?"];
     examples := ["Communication: Explaining expertise to non-experts";
                  "Data: Lossy compression for storage/transmission";
                  "Models: Simplified representations of complex reality";
                  "Teaching: Reducing concepts to learnable chunks"] |};
  {| name := "The Archipelago";
     card_type := "Major";
     number := None;
     pattern := "Parallel systems developing independently with rare cross-pollination.";
     questions := ["What separate systems am I maintaining?";
                   "Which deserves attention now?";
                   "Where might connections create value?"];
     examples := ["Biology: Isolated populations evolving differently";
                  "Projects: Multiple initiatives progressing in parallel";
                  "Knowledge: Separate fields occasionally intersecting";
                  "Communities: Independent groups with occasional exchange"] |};
  {| name := "The Continuity";
     card_type := "Major";
     number := None;
     pattern := "Mechanisms ensuring survival through disruption - what persists when everything changes.";
     questions := ["What must survive no matter what?";
                   "How do I ensure continuity through crisis?";
                   "What's essential versus merely important?"];
     examples := ["Biology: DNA preserving information across generations";
                  "Business: Succession planning and redundancy";
                  "Culture: Traditions maintaining identity through change";
                  "Infrastructure: Backup systems for critical functions"] |};
  {| name := "The Translation";
     card_type := "Major";
     number := None;
     pattern := "Converting between different contexts or languages - bridging incompatible systems.";
     questions := ["What am I translating and for whom?";
                   "What's inevitably lost in translation?";
                   "When should I speak natively instead?"];
     examples := ["Language: Interpreting between speakers";
                  "Technical: Explaining complex systems to stakeholders";
                  "Cultural: Bridging different organizational norms";
                  "Format: Converting data between systems"] |};
  {| name := "The Vigilance";
     card_type := "Major";
     number := None;
     pattern := "Constant scanning for threats or changes - maintaining readiness at a cost.";
     questions := ["What threat am I actually responding to?";
                   "Is this vigilance still serving its purpose?";
                   "What's the cost of constant alertness?"];
     examples := ["Security: Continuous monitoring for intrusions";
                  "Health: Immune system scanning for pathogens";
                  "Markets: Traders watching for opportunities/risks";
                  "Personal: Hyperawareness from past trauma"] |};
  {| name := "The Reframe";
     card_type := "Major";
     number := None;
     pattern := "Radical perspective shift - abandoning the current game for a different one.";
     questions := ["What assumption am I locked into?";
                   "What would the opposite approach look like?";
                   "Am I solving the wrong problem?"];
     examples := ["Business: Pivoting to new market instead of fighting in old";
                  "Problem-solving: Changing the question instead of finding answers";
                  "Conflict: Redefining win conditions";
                  "Innovation: Questioning fundamental assumptions"] |};
  {| name := "The Synthesis";
     card_type := "Major";
     number := None;
     pattern := "Creating novel combinations from existing elements - the alchemical moment.";
     questions := ["What elements could combine in new ways?";
                   "Where do my domains intersect unexpectedly?";
                   "What emerges from connection A + B + C?"];
     examples := ["Innovation: Smartphone combining phone + computer + camera";
                  "Cuisine: Fusion cooking merging culinary traditions";
                  "Science: Interdisciplinary insights creating new fields";
                  "Art: Mixed media creating novel expressions"] |};
  {| name := "The Stewardship";
     card_type := "Major";
     number := None;
     pattern := "Tending systems without controlling - creating conditions for emergence.";
     questions := ["What am I controlling that I should be stewarding?";
                   "What conditions enable natural growth?";
                   "When do I intervene versus observe?"];
     examples := ["Gardening: Providing conditions, not forcing growth";
                  "Leadership: Enabling teams rather than micromanaging";
                  "Ecology: Conservation through habitat protection";
                  "Teaching: Creating learning environments"] |};
  {| name := "The Release";
     card_type := "Major";
     number := None;
     pattern := "Operating at full capacity without constraint - permission to expand completely.";
     questions := ["What would I do without current constraints?";
                   "What's my actual scope when uncompressed?";
                   "Who am I when not adapting to limits?"];
     examples := ["Creative: Artist working without commercial constraints";
                  "Athletic: Performing at peak without holding back";
                  "Intellectual: Exploring ideas at full depth";
                  "Expression: Communicating without translation"] |};
  {| name := "The Unknown Unknown";
     card_type := "Major";
     number := None;
     pattern := "What you don't know you don't know - the space beyond your map.";
     questions := ["What am I not even asking about?";
                   "What would reveal this blind spot?";
                   "Who might see what I'm missing?"];
     examples := ["Science: Paradigm shifts from unexpected discoveries";
                  "Business: Disruption from unconsidered competitors";
                  "Personal: Assumptions never questioned";
                  "Risk: Black swans by definition unexpected"] |};
  {| name := "The Legacy";
     card_type := "Major";
     number := None;
     pattern := "What persists beyond individual existence - inheritance across time.";
     questions := ["What am I building that outlasts me?";
                   "Who carries forward what I started?";
                   "What's worth preserving?"];
     examples := ["Culture: Knowledge transmission across generations";
                  "Infrastructure: Buildings and systems serving future users";
                  "Teaching: Ideas living in students' minds";
                  "Nature: Ecosystems shaped by past species"] |};
  {| name := "The Presence";
     card_type := "Major";
     number := None;
     pattern := "Being fully here now without prediction or planning - stopping the chess game.";
     questions := ["Where am I actually right now?";
                   "What am I missing by being elsewhere mentally?";
                   "Can I engage without constantly anticipating?"];
     examples := ["Mindfulness: Awareness of current moment";
                  "Flow states: Full engagement in activity";
                  "Relationships: Genuine connection requiring presence";
                  "Performance: Responding to what is, not what might be"] |}
].

Definition create_networks_suit : list Card := [
  {| name := "Ace of Networks";
     card_type := value NETWORKS;
     number := Some 1;
     pattern := "Pure potential of connection - the first link.";
     questions := ["What new connection wants to form?";
                   "What relationship is just beginning?"];
     examples := ["Infrastructure: First cable connecting two locations";
                  "Social: Meeting someone who could become important";
                  "Business: Initial partnership conversation";
                  "Biological: Neurons forming new synapses"] |};
  {| name := "Two of Networks";
     card_type := value NETWORKS;
     number := Some 2;
     pattern := "Point-to-point connection - direct relationship.";
     questions := ["Who needs direct communication here?";
                   "What's lost through intermediaries?"];
     examples := ["Communication: Direct conversation vs mediated";
                  "Technology: Peer-to-peer connection";
                  "Diplomacy: Bilateral negotiations";
                  "Trade: Direct exchange between parties"] |};
  {| name := "Three of Networks";
     card_type := value NETWORKS;
     number := Some 3;
     pattern := "Triangle formation - stability through redundancy.";
     questions := ["Where do I need backup connections?";
                   "What's my alternative path?"];
     examples := ["Engineering: Redundant systems for reliability";
                  "Social: Friend groups providing stability";
                  "Supply chain: Multiple suppliers for resilience";
                  "Structure: Triangles in architecture for strength"] |};
  {| name := "Four of Networks";
     card_type := value NETWORKS;
     number := Some 4;
     pattern := "Hub-and-spoke - centralized structure.";
     questions := ["Who's the central hub here?";
                   "What's the single point of failure?"];
     examples := ["Organizations: Hierarchical reporting structure";
                  "Transportation: Airport hub connecting many cities";
                  "Information: Centralized database or server";
                  "Social: Influential person connecting many others"] |};
  {| name := "Five of Networks";
     card_type := value NETWORKS;
     number := Some 5;
     pattern := "Network fragmentation - breaking connections.";
     questions := ["What connections are breaking?";
                   "How can I repair this split?"];
     examples := ["Social: Community dividing into factions";
                  "Technical: Network partition or outage";
                  "Political: Alliance breakdown";
                  "Infrastructure: Road or bridge failure isolating regions"] |};
  {| name := "Six of Networks";
     card_type := value NETWORKS;
     number := Some 6;
     pattern := "Mesh topology - distributed resilience.";
     questions := ["How does information route around damage?";
                   "What's the optimal connection density?"];
     examples := ["Internet: Packets routing around failed nodes";
                  "Nature: Mycelial networks with many paths";
                  "Social: Communities with multiple weak ties";
                  "Power grid: Interconnected for reliability"] |};
  {| name := "Seven of Networks";
     card_type := value NETWORKS;
     number := Some 7;
     pattern := "Network congestion - too much traffic.";
     questions := ["Where are the bottlenecks?";
                   "What needs throttling or expansion?"];
     examples := ["Traffic: Roads at capacity causing delays";
                  "Computing: Bandwidth limitations slowing system";
                  "Communication: Overwhelmed with messages";
                  "Social: Too many commitments to maintain well"] |};
  {| name := "Eight of Networks";
     card_type := value NETWORKS;
     number := Some 8;
     pattern := "Network effects - value emerging from scale.";
     questions := ["How does growth create value?";
                   "What's the critical mass threshold?"];
     examples := ["Platforms: Each user making service more valuable";
                  "Language: Utility increasing with number of speakers";
                  "Standards: Adoption creating momentum";
                  "Ecosystems: Biodiversity supporting more life"] |};
  {| name := "Nine of Networks";
     card_type := value NETWORKS;
     number := Some 9;
     pattern := "Over-connection - complexity causing fragility.";
     questions := ["Am I too connected?";
                   "What connections should I reduce?"];
     examples := ["Finance: Tight coupling enabling contagion";
                  "Personal: Overcommitment creating stress";
                  "Software: Excessive dependencies causing failures";
                  "Ecology: Monoculture vulnerable to cascade"] |};
  {| name := "Ten of Networks";
     card_type := value NETWORKS;
     number := Some 10;
     pattern := "Network maturity - established infrastructure.";
     questions := ["Is this network fully built?";
                   "What comes after maturity?"];
     examples := ["Infrastructure: Complete road or utility network";
                  "Social: Established community with stable relationships";
                  "Professional: Mature industry structure";
                  "Ecological: Climax ecosystem in equilibrium"] |};
  {| name := "Page of Networks";
     card_type := value NETWORKS;
     number := Some 11;
     pattern := "Learning connectivity - exploring connections.";
     questions := ["What network am I just discovering?";
                   "Where should I explore?"];
     examples := ["Student: Learning field's key relationships";
                  "Explorer: Mapping new territory";
                  "Newcomer: Understanding social structure";
                  "Analyst: Discovering system architecture"] |};
  {| name := "Knight of Networks";
     card_type := value NETWORKS;
     number := Some 12;
     pattern := "Network defender - protecting infrastructure.";
     questions := ["What infrastructure needs protection?";
                   "What threats to connectivity exist?"];
     examples := ["Cybersecurity: Defending against network attacks";
                  "Maintenance: Keeping infrastructure operational";
                  "Diplomacy: Preserving alliances";
                  "Conservation: Protecting ecological corridors"] |};
  {| name := "Queen of Networks";
     card_type := value NETWORKS;
     number := Some 13;
     pattern := "Network wisdom - understanding connectivity deeply.";
     questions := ["What does this network need to thrive?";
                   "How do I nurture connections?"];
     examples := ["Community builder: Fostering relationships";
                  "Architect: Designing for connection";
                  "Ecologist: Understanding ecosystem relationships";
                  "Manager: Building organizational bridges"] |};
  {| name := "King of Networks";
     card_type := value NETWORKS;
     number := Some 14;
     pattern := "Network mastery - strategic control of infrastructure.";
     questions := ["Who controls this network?";
                   "What's the strategic value of connectivity?"];
     examples := ["Infrastructure owner: Controlling critical systems";
                  "Platform operator: Network effects as moat";
                  "Diplomat: Managing alliance structure";
                  "Keystone species: Ecological network centrality"] |}
].

Definition create_events_suit : list Card := [
  {| name := "Ace of Events";
     card_type := value EVENTS;
     number := Some 1;
     pattern := "The first trigger - initiating moment.";
     questions := ["What event starts the sequence?";
                   "What's the first move?"];
     examples := ["History: Archduke's assassination triggering WWI";
                  "Science: First observation leading to discovery";
                  "Business: Market shock initiating change";
                  "Personal: Decision that changes everything"] |};
  {| name := "Two of Events";
     card_type := value EVENTS;
     number := Some 2;
     pattern := "Cause and effect - simple causality.";
     questions := ["What caused this?";
                   "What will this cause?"];
     examples := ["Physics: Force causing acceleration";
                  "Economics: Price change affecting demand";
                  "Health: Action affecting outcome";
                  "Social: Behavior eliciting response"] |};
  {| name := "Three of Events";
     card_type := value EVENTS;
     number := Some 3;
     pattern := "Event branching - multiple possible outcomes.";
     questions := ["Which path does this take?";
                   "What futures are possible?"];
     examples := ["Decision: Choice creating different paths";
                  "Quantum: Wavefunction collapse to one state";
                  "Evolution: Speciation into multiple lineages";
                  "Markets: Scenario planning for possibilities"] |};
  {| name := "Four of Events";
     card_type := value EVENTS;
     number := Some 4;
     pattern := "Event coordination - synchronization.";
     questions := ["What needs to happen simultaneously?";
                   "How do I achieve coordination?"];
     examples := ["Performance: Orchestra playing in time";
                  "Distributed systems: Consensus protocols";
                  "Manufacturing: Assembly line synchronization";
                  "Nature: Synchronized firefly flashing"] |};
  {| name := "Five of Events";
     card_type := value EVENTS;
     number := Some 5;
     pattern := "Event chaos - loss of causal clarity.";
     questions := ["What's the actual cause?";
                   "Am I confusing correlation and causation?"];
     examples := ["Complex systems: Many interacting variables";
                  "Attribution: Uncertain cause of outcome";
                  "Weather: Chaotic dynamics limiting prediction";
                  "Markets: Multiple factors confounding analysis"] |};
  {| name := "Six of Events";
     card_type := value EVENTS;
     number := Some 6;
     pattern := "Event stream - continuous flow.";
     questions := ["What's the pattern in the flow?";
                   "How do I process this stream?"];
     examples := ["Data: Real-time sensor readings";
                  "News: Continuous information flow";
                  "River: Water constantly flowing";
                  "Traffic: Vehicles in steady stream"] |};
  {| name := "Seven of Events";
     card_type := value EVENTS;
     number := Some 7;
     pattern := "Event cascade - chain reactions.";
     questions := ["What cascade am I triggering?";
                   "Where does this chain end?"];
     examples := ["Avalanche: Snow triggering more snow";
                  "Finance: Margin calls forcing more sales";
                  "Ecology: Species loss affecting food web";
                  "Social: Panic spreading through crowd"] |};
  {| name := "Eight of Events";
     card_type := value EVENTS;
     number := Some 8;
     pattern := "Event memory - learning from history.";
     questions := ["What can past events teach?";
                   "What patterns repeat?"];
     examples := ["History: Learning from precedent";
                  "Personal: Experience informing decisions";
                  "Science: Experimental data building knowledge";
                  "Markets: Historical patterns suggesting futures"] |};
  {| name := "Nine of Events";
     card_type := value EVENTS;
     number := Some 9;
     pattern := "Event overload - too much happening.";
     questions := ["What events can I ignore?";
                   "Where must I focus?"];
     examples := ["Information: Overwhelming news flow";
                  "Crisis: Multiple emergencies competing";
                  "Personal: Too many demands at once";
                  "Systems: Processing capacity exceeded"] |};
  {| name := "Ten of Events";
     card_type := value EVENTS;
     number := Some 10;
     pattern := "Event completion - cycle ending.";
     questions := ["What cycle is finishing?";
                   "What comes after completion?"];
     examples := ["Project: Reaching final milestone";
                  "Seasons: Year completing its cycle";
                  "Life: Generation finishing its time";
                  "Business: Product reaching end of life"] |};
  {| name := "Page of Events";
     card_type := value EVENTS;
     number := Some 11;
     pattern := "Event observer - watching patterns.";
     questions := ["What events should I monitor?";
                   "What patterns emerge from observation?"];
     examples := ["Scientist: Recording experimental results";
                  "Analyst: Tracking market movements";
                  "Scout: Observing enemy movements";
                  "Student: Noticing learning patterns"] |};
  {| name := "Knight of Events";
     card_type := value EVENTS;
     number := Some 12;
     pattern := "Event responder - quick reaction.";
     questions := ["How fast must I respond?";
                   "What's the urgency?"];
     examples := ["Emergency: First responder to crisis";
                  "Trading: Reacting to market moves";
                  "Sports: Responding to opponent's action";
                  "Defense: Countering incoming threat"] |};
  {| name := "Queen of Events";
     card_type := value EVENTS;
     number := Some 13;
     pattern := "Event wisdom - understanding timing.";
     questions := ["When is the right time?";
                   "What's the natural rhythm?"];
     examples := ["Farming: Planting and harvesting with seasons";
                  "Leadership: Knowing when to act or wait";
                  "Medicine: Treating at optimal moment";
                  "Strategy: Timing move for maximum effect"] |};
  {| name := "King of Events";
     card_type := value EVENTS;
     number := Some 14;
     pattern := "Event mastery - controlling timing.";
     questions := ["Do I control the timing?";
                   "Who sets the tempo?"];
     examples := ["Conductor: Setting the pace of music";
                  "General: Choosing moment of attack";
                  "Market maker: Setting trading tempo";
                  "Predator: Choosing moment to strike"] |}
].

Definition create_agents_suit : list Card := [
  {| name := "Ace of Agents";
     card_type := value AGENTS;
     number := Some 1;
     pattern := "Autonomous action - independent agency.";
     questions := ["What can I do independently?";
                   "Where do I have agency?"];
     examples := ["Individual: Making independent choice";
                  "Robot: Acting on own programming";
                  "Cell: Self-directed biological process";
                  "Entrepreneur: Starting independent venture"] |};
  {| name := "Two of Agents";
     card_type := value AGENTS;
     number := Some 2;
     pattern := "Partnership - cooperative action.";
     questions := ["Who's my partner?";
                   "How do we coordinate?"];
     examples := ["Business: Co-founders working together";
                  "Dance: Partners moving in sync";
                  "Biology: Symbiotic relationship";
                  "Negotiation: Two parties reaching agreement"] |};
  {| name := "Three of Agents";
     card_type := value AGENTS;
     number := Some 3;
     pattern := "Small team - coordinated group.";
     questions := ["Who's on the team?";
                   "How do we work together effectively?"];
     examples := ["Work: Project team collaborating";
                  "Sports: Players coordinating moves";
                  "Hunt: Pack hunting cooperatively";
                  "Music: Trio performing together"] |};
  {| name := "Four of Agents";
     card_type := value AGENTS;
     number := Some 4;
     pattern := "Structured organization - hierarchy forming.";
     questions := ["What's the structure?";
                   "Who has authority over what?"];
     examples := ["Military: Chain of command";
                  "Corporation: Organizational hierarchy";
                  "Government: Levels of authority";
                  "Bee colony: Queen, workers, drones"] |};
  {| name := "Five of Agents";
     card_type := value AGENTS;
     number := Some 5;
     pattern := "Agent conflict - competing interests.";
     questions := ["What's the conflict?";
                   "Can interests be aligned?"];
     examples := ["Game theory: Prisoner's dilemma";
                  "Business: Competing companies";
                  "Internal: Conflicting desires";
                  "Politics: Opposing factions"] |};
  {| name := "Six of Agents";
     card_type := value AGENTS;
     number := Some 6;
     pattern := "Swarm intelligence - emergent coordination.";
     questions := ["How does coordination emerge?";
                   "What simple rules create complex behavior?"];
     examples := ["Birds: Flocking from local rules";
                  "Ants: Colony intelligence from simple agents";
                  "Markets: Price discovery from individual trades";
                  "Crowds: Movement patterns emerging"] |};
  {| name := "Seven of Agents";
     card_type := value AGENTS;
     number := Some 7;
     pattern := "Agent specialization - division of labor.";
     questions := ["What's each agent's specialized role?";
                   "How does specialization create efficiency?"];
     examples := ["Economics: Specialized professions";
                  "Biology: Cell differentiation";
                  "Factory: Assembly line workers";
                  "Team: Distinct roles and responsibilities"] |};
  {| name := "Eight of Agents";
     card_type := value AGENTS;
     number := Some 8;
     pattern := "Multi-agent coordination - complex systems.";
     questions := ["How do many agents coordinate?";
                   "What protocols enable cooperation?"];
     examples := ["Air traffic: Many planes coordinating safely";
                  "Internet: Protocols enabling communication";
                  "Society: Norms coordinating behavior";
                  "Immune system: Cells working together"] |};
  {| name := "Nine of Agents";
     card_type := value AGENTS;
     number := Some 9;
     pattern := "Control versus autonomy - tension.";
     questions := ["How much control is needed?";
                   "When should I enable autonomy?"];
     examples := ["Parenting: Guidance vs independence";
                  "Management: Oversight vs delegation";
                  "Government: Regulation vs freedom";
                  "AI: Human control vs machine autonomy"] |};
  {| name := "Ten of Agents";
     card_type := value AGENTS;
     number := Some 10;
     pattern := "Collective intelligence - unified mind.";
     questions := ["What does the collective know?";
                   "How do we think as one?"];
     examples := ["Democracy: Collective decision-making";
                  "Science: Distributed knowledge creation";
                  "Culture: Shared understanding";
                  "Superorganism: Colony as single entity"] |};
  {| name := "Page of Agents";
     card_type := value AGENTS;
     number := Some 11;
     pattern := "Learning agent - growing capability.";
     questions := ["What am I learning?";
                   "How do I develop capability?"];
     examples := ["Student: Acquiring knowledge and skills";
                  "AI: Machine learning from data";
                  "Apprentice: Learning craft";
                  "Species: Evolving new capabilities"] |};
  {| name := "Knight of Agents";
     card_type := value AGENTS;
     number := Some 12;
     pattern := "Action-oriented - executor.";
     questions := ["What needs doing now?";
                   "How do I execute effectively?"];
     examples := ["Soldier: Following orders in action";
                  "Athlete: Performing in competition";
                  "Entrepreneur: Implementing business plan";
                  "Predator: Executing hunt"] |};
  {| name := "Queen of Agents";
     card_type := value AGENTS;
     number := Some 13;
     pattern := "Nurturing intelligence - developing others.";
     questions := ["Who needs guidance?";
                   "How do I help others grow?"];
     examples := ["Teacher: Developing student potential";
                  "Mentor: Guiding protégé";
                  "Parent: Raising children";
                  "Manager: Developing team members"] |};
  {| name := "King of Agents";
     card_type := value AGENTS;
     number := Some 14;
     pattern := "Strategic intelligence - master coordinator.";
     questions := ["What's the overall strategy?";
                   "How do I orchestrate all agents?"];
     examples := ["General: Commanding army";
                  "CEO: Leading organization";
                  "Conductor: Directing orchestra";
                  "Brain: Coordinating body systems"] |}
].

Definition create_resources_suit : list Card := [
  {| name := "Ace of Resources";
     card_type := value RESOURCES;
     number := Some 1;
     pattern := "New resource - fresh potential.";
     questions := ["What new resource is available?";
                   "How should I allocate it?"];
     examples := ["Finance: New funding or income";
                  "Energy: Discovering energy source";
                  "Time: New availability opening";
                  "Attention: Fresh capacity to focus"] |};
  {| name := "Two of Resources";
     card_type := value RESOURCES;
     number := Some 2;
     pattern := "Resource balance - equilibrium.";
     questions := ["Am I balanced?";
                   "What needs rebalancing?"];
     examples := ["Budget: Income matching expenses";
                  "Ecology: Predator-prey equilibrium";
                  "Work-life: Balancing competing demands";
                  "Health: Homeostasis in body"] |};
  {| name := "Three of Resources";
     card_type := value RESOURCES;
     number := Some 3;
     pattern := "Resource pooling - collaboration.";
     questions := ["What resources can be shared?";
                   "How do we pool effectively?"];
     examples := ["Commons: Shared grazing land";
                  "Crowdfunding: Pooling many small contributions";
                  "Potluck: Sharing food resources";
                  "Knowledge: Open source collaboration"] |};
  {| name := "Four of Resources";
     card_type := value RESOURCES;
     number := Some 4;
     pattern := "Resource accumulation - holding.";
     questions := ["What am I storing?";
                   "Is accumulation serving me?"];
     examples := ["Savings: Building financial reserves";
                  "Squirrel: Storing nuts for winter";
                  "Data: Accumulating information";
                  "Hoarding: Excessive accumulation"] |};
  {| name := "Five of Resources";
     card_type := value RESOURCES;
     number := Some 5;
     pattern := "Resource scarcity - not enough.";
     questions := ["What's truly scarce?";
                   "How do I optimize within constraints?"];
     examples := ["Famine: Insufficient food";
                  "Drought: Water scarcity";
                  "Recession: Economic contraction";
                  "Attention: Limited focus capacity"] |};
  {| name := "Six of Resources";
     card_type := value RESOURCES;
     number := Some 6;
     pattern := "Resource flow - circulation.";
     questions := ["Where do resources flow?";
                   "What blocks circulation?"];
     examples := ["Economy: Money circulating through system";
                  "Body: Blood flowing through vessels";
                  "Ecosystem: Energy flowing through food web";
                  "Supply chain: Goods moving to market"] |};
  {| name := "Seven of Resources";
     card_type := value RESOURCES;
     number := Some 7;
     pattern := "Resource investment - long-term thinking.";
     questions := ["What investment pays off later?";
                   "What's the long-term value?"];
     examples := ["Education: Investing time in learning";
                  "Infrastructure: Building for future benefit";
                  "Tree planting: Shade for future generations";
                  "Research: Long-term knowledge development"] |};
  {| name := "Eight of Resources";
     card_type := value RESOURCES;
     number := Some 8;
     pattern := "Resource transformation - alchemy.";
     questions := ["How can I transform this resource?";
                   "What's the conversion process?"];
     examples := ["Manufacturing: Raw materials to products";
                  "Cooking: Ingredients to meals";
                  "Learning: Information to knowledge";
                  "Energy: Converting between forms"] |};
  {| name := "Nine of Resources";
     card_type := value RESOURCES;
     number := Some 9;
     pattern := "Resource abundance - more than enough.";
     questions := ["What abundance exists?";
                   "Am I recognizing what I have?"];
     examples := ["Harvest: Abundant crop yield";
                  "Talent: Wealth of capable people";
                  "Ideas: Creative abundance";
                  "Nature: Ecosystem productivity"] |};
  {| name := "Ten of Resources";
     card_type := value RESOURCES;
     number := Some 10;
     pattern := "Resource legacy - inheritance.";
     questions := ["What resources do I pass on?";
                   "What's my contribution to future?"];
     examples := ["Estate: Wealth passed to heirs";
                  "Knowledge: Teaching next generation";
                  "Infrastructure: Systems for future use";
                  "Culture: Traditions and practices"] |};
  {| name := "Page of Resources";
     card_type := value RESOURCES;
     number := Some 11;
     pattern := "Resource learning - understanding value.";
     questions := ["What's truly valuable?";
                   "How do I recognize worth?"];
     examples := ["Student: Learning to budget";
                  "Prospector: Learning to identify ore";
                  "Novice: Understanding what matters";
                  "Child: Learning value of sharing"] |};
  {| name := "Knight of Resources";
     card_type := value RESOURCES;
     number := Some 12;
     pattern := "Resource quest - seeking what's needed.";
     questions := ["What resource am I seeking?";
                   "Where do I find it?"];
     examples := ["Hunter: Seeking food";
                  "Entrepreneur: Seeking funding";
                  "Explorer: Searching for new resources";
                  "Job seeker: Finding opportunity"] |};
  {| name := "Queen of Resources";
     card_type := value RESOURCES;
     number := Some 13;
     pattern := "Resource wisdom - knowing what's needed.";
     questions := ["What do I truly need?";
                   "What's sufficient?"];
     examples := ["Sage: Understanding enough is enough";
                  "Homesteader: Living within means";
                  "Conservationist: Sustaining resources";
                  "Minimalist: Valuing sufficiency"] |};
  {| name := "King of Resources";
     card_type := value RESOURCES;
     number := Some 14;
     pattern := "Resource mastery - strategic allocation.";
     questions := ["How do I allocate optimally?";
                   "What's the strategic deployment?"];
     examples := ["Investor: Strategic portfolio allocation";
                  "General: Deploying assets optimally";
                  "Ecologist: Managing ecosystem resources";
                  "Leader: Allocating organizational resources"] |}
].

Definition SystemsTarot (G : Type) : Type := Tarot Card G.

(** The four Minor categories, as [card_type] spells them. *)
Definition suits : list string := value <$> [NETWORKS; EVENTS; AGENTS; RESOURCES].

(** The list that [SystemsTarot.__init__] stores in [self.full_deck]. *)
Definition catalog : list Card :=
  MAJOR_ARCANA ++ create_networks_suit ++ create_events_suit
    ++ create_agents_suit ++ create_resources_suit.

(** [SystemsTarot.__init__] *)
Definition __init__ {G : Type} `{RandomSource G} (g : G) : SystemsTarot G :=
  construct catalog g.

End SystemsTarot.

(** ** generate_prompts.py

    Python strings are kept as their UTF-8 bytes. [str.lower] and [str.strip]
    are modelled on the ASCII range: a byte above 127 is left as it is, which
    is what Python does to every non-ASCII character of the catalog (the one
    there is, in "protégé", is a lower-case letter). *)

Module GeneratePrompts.
Import SystemsTarot.

Definition nl : string := String "010"%char EmptyString.
Definition dq : string := String "034"%char EmptyString.

(** [sep.join(parts)] *)
Fixpoint join (sep : string) (parts : list string) : string :=
  match parts with
  | [] => EmptyString
  | [p] => p
  | p :: rest => p +:+ sep +:+ join sep rest
  end.

(** *** os.path (POSIX) *)

Definition starts_with_slash (s : string) : bool :=
  match s with
  | String c _ => bool_decide (c = "/"%char)
  | EmptyString => false
  end.

Fixpoint ends_with_slash (s : string) : bool :=
  match s with
  | EmptyString => false
  | String c EmptyString => bool_decide (c = "/"%char)
  | String _ s' => ends_with_slash s'
  end.

(** [os.path.join(a, b)] *)
Definition path_join (a b : string) : string :=
  if starts_with_slash b then b
  else if bool_decide (a = EmptyString) || ends_with_slash a then a +:+ b
  else a +:+ "/" +:+ b.

(** [OUT_DIR], given [here = os.path.dirname(__file__)]. *)
Definition OUT_DIR (here : string) : string :=
  path_join (path_join here "resources") "prompts".

(** *** str methods *)

Definition lower_char (c : ascii) : ascii :=
  let n := N_of_ascii c in
  if (65 <=? n)%N && (n <=? 90)%N then ascii_of_N (n + 32) else c.

(** [s.lower()] *)
Fixpoint lower (s : string) : string :=
  match s with
  | EmptyString => EmptyString
  | String c s' => String (lower_char c) (lower s')
  end.

(** The characters [str.strip()] removes, in the ASCII range. *)
Definition is_space (c : ascii) : bool :=
  let n := N_of_ascii c in
  ((9 <=? n)%N && (n <=? 13)%N) || ((28 <=? n)%N && (n <=? 32)%N).

Fixpoint lstrip (p : ascii -> bool) (s : string) : string :=
  match s with
  | EmptyString => EmptyString
  | String c s' => if p c then lstrip p s' else s
  end.

Fixpoint rstrip (p : ascii -> bool) (s : string) : string :=
  match s with
  | EmptyString => EmptyString
  | String c s' =>
      match rstrip p s' with
      | EmptyString => if p c then EmptyString else String c EmptyString
      | r => String c r
      end
  end.

(** [s.strip()] with [p] the whitespace test, [s.strip(chars)] with [p] the
    membership in [chars]. *)
Definition strip (p : ascii -> bool) (s : string) : string :=
  rstrip p (lstrip p s).

(** [s.split(sep, 1)]: one part when [sep] does not occur, otherwise the text
    before its first occurrence and the text after it. *)
Fixpoint split_once (sep : ascii) (s : string) : list string :=
  match s with
  | EmptyString => [EmptyString]
  | String c s' =>
      if bool_decide (c = sep) then [EmptyString; s']
      else match split_once sep s' with
           | p :: rest => String c p :: rest
           | [] => []
           end
  end.

(** The class [[a-z0-9]] *)
Definition is_slug_char (c : ascii) : bool :=
  let n := N_of_ascii c in
  ((97 <=? n)%N && (n <=? 122)%N) || ((48 <=? n)%N && (n <=? 57)%N).

(** [re.sub(r"[^a-z0-9]+", "_", s)]: every maximal run of other characters
    becomes one underscore; [in_run] tells that the run has begun. *)
Fixpoint sub_runs (in_run : bool) (s : string) : string :=
  match s with
  | EmptyString => EmptyString
  | String c s' =>
      if is_slug_char c then String c (sub_runs false s')
      else if in_run then sub_runs true s'
      else String "_"%char (sub_runs true s')
  end.

(** [str(n)] and the format specification [02d]. *)
Definition str_int (z : Z) : string := pretty z.

Definition fmt_02d (z : Z) : string :=
  let s := str_int z in
  if (String.length s <? 2)%nat then "0" +:+ s else s.

(** [f"{card.number}"]: [number] may be [None]. *)
Definition str_number (n : option Z) : string :=
  match n with
  | Some z => str_int z
  | None => "None"
  end.

(** *** Visual vocabulary *)

Definition MAJOR_STYLE : string :=
  "mystical tarot card illustration, intricate Art Nouveau border with celestial motifs, deep indigo and gold palette, cosmic starfield background, symbolic and archetypal imagery, richly detailed, dramatic chiaroscuro lighting".

Definition SUIT_STYLES : gmap string string := list_to_map [
  ("Networks",
   "tarot card illustration, ornate geometric border, deep cerulean and cyan palette, luminous node-and-thread motifs, structural and crystalline aesthetic, glowing filaments on dark ground, detailed linework");
  ("Events",
   "tarot card illustration, dynamic Art Deco border with chevron motifs, amber and vermillion palette, kinetic energy, motion lines and lightning, dramatic directional lighting, sense of urgency and change");
  ("Agents",
   "tarot card illustration, organic border of intertwining figures and vines, emerald and forest-green palette, populated with symbolic figures or creatures, warm candlelit atmosphere, sense of intelligence and coordination");
  ("Resources",
   "tarot card illustration, earthy border of roots and mineral veins, ochre and burnished-gold palette, tactile materials and flowing substances, rich textures of wood, stone, water, and soil, abundance or scarcity made visible")
].

Definition RANK_CUES : gmap Z string := list_to_map [
  (1, "a single seed, spark, or origin point — pure potential, void about to bloom");
  (2, "two elements in direct dialogue — a bridge, a handshake, or mirrored forms");
  (3, "three points forming a triangle — stability, redundancy, the first structure");
  (4, "a hub at centre with spokes radiating outward — centrality, hierarchy");
  (5, "fracture lines and diverging paths — tension, breakage, conflict");
  (6, "a web or lattice of equal nodes — distributed resilience, many equal paths");
  (7, "congestion, bottleneck, or overflow — too much pressing through too little");
  (8, "a growing spiral or compounding cascade — scale and network effects");
  (9, "over-abundance or entanglement — complexity at its limit");
  (10, "a completed ring or full circle — maturity, the cycle closed");
  (11, "a youthful or apprentice figure exploring the scene — curiosity, discovery");
  (12, "an armoured or swift figure in motion — defender, executor, quick response");
  (13, "a wise seated figure tending or guiding — nurture, deep understanding");
  (14, "a commanding figure surveying the domain — mastery, strategic overview")
].

(** *** Helpers *)

Definition slugify (text : string) : string :=
  let text := lower text in
  let text := sub_runs false text in
  strip (fun c => bool_decide (c = "_"%char)) text.

Definition examples_to_visuals (examples : list string) : string :=
  let visuals :=
    foldl (fun visuals ex =>
             let parts := split_once ":" ex in
             if (length parts =? 2)%nat
             then visuals ++ [lower (strip is_space (default EmptyString (parts !! 1%nat)))]
             else visuals)
          [] examples in
  join "; " (slice_to visuals 3).

(** *** Prompt builders *)

Definition build_major_prompt (card : Card) (index : Z) : string :=
  let visual_grounding := examples_to_visuals (examples card) in
  let questions_flavour :=
    match questions card with q :: _ => q | [] => EmptyString end in
  let lines := [
    MAJOR_STYLE +:+ ".";
    "Card title at bottom: " +:+ dq +:+ name card +:+ dq +:+ " — Major Arcana.";
    "Central image: " +:+ pattern card;
    "Visual references woven into the scene: " +:+ visual_grounding +:+ ".";
    "Philosophical mood: " +:+ dq +:+ questions_flavour +:+ dq;
    "Portrait orientation, tarot card proportions (2:3.5), no text except the card title in an elegant serif at the base."
  ] in
  join nl lines.

Definition build_minor_prompt (card : Card) : string :=
  let suit := card_type card in
  let number := number card in
  let style := default (default EmptyString (SUIT_STYLES !! "Networks")) (SUIT_STYLES !! suit) in
  let rank_cue :=
    match number with
    | Some k => default EmptyString (RANK_CUES !! k)
    | None => EmptyString
    end in
  let visual_grounding := examples_to_visuals (examples card) in
  let lines := [
    style +:+ ".";
    "Card title at bottom: " +:+ dq +:+ name card +:+ dq +:+ " — " +:+ suit
      +:+ ", card " +:+ str_number number +:+ ".";
    "Central image: " +:+ pattern card;
    "Compositional anchor: " +:+ rank_cue +:+ ".";
    "Scene details drawn from: " +:+ visual_grounding +:+ ".";
    "Portrait orientation, tarot card proportions (2:3.5), no text except the card title in an elegant serif at the base."
  ] in
  join nl lines.

(** *** The generation loop

    What the script can change outside itself: the text printed so far and
    the files written, by path. *)
Record Console := {
  stdout : string;
  files : gmap string string
}.

(** [print(s)] *)
Definition print (s : string) (w : Console) : Console :=
  {| stdout := stdout w +:+ s +:+ nl; files := files w |}.

(** [with open(path, "w") as f: f.write(content)] *)
Definition write_file (path content : string) (w : Console) : Console :=
  {| stdout := stdout w; files := <[path := content]> (files w) |}.

(** The loop over [enumerate(MAJOR_ARCANA, start=1)], from index [i] on; the
    second component is the list [generated]. *)
Fixpoint major_loop (out : string) (i : Z) (cards : list Card)
    (st : Console * list (string * string)) : Console * list (string * string) :=
  match cards with
  | [] => st
  | card :: rest =>
      let filename :=
        "major_" +:+ fmt_02d i +:+ "_" +:+ slugify (name card) +:+ ".txt" in
      let prompt := build_major_prompt card i in
      let path := path_join out filename in
      major_loop out (i + 1) rest
        (write_file path (prompt +:+ nl) st.1, st.2 ++ [(filename, name card)])
  end.

(** The inner loop over the cards of one suit. The format [02d] applied to a
    [number] that is [None] raises TypeError: the result is then [None]. *)
Fixpoint minor_loop (out suit_prefix : string) (cards : list Card)
    (st : Console * list (string * string))
    : option (Console * list (string * string)) :=
  match cards with
  | [] => Some st
  | card :: rest =>
      match number card with
      | None => None
      | Some k =>
          let filename :=
            suit_prefix +:+ "_" +:+ fmt_02d k +:+ "_" +:+ slugify (name card)
              +:+ ".txt" in
          let prompt := build_minor_prompt card in
          let path := path_join out filename in
          minor_loop out suit_prefix rest
            (write_file path (prompt +:+ nl) st.1, st.2 ++ [(filename, name card)])
      end
  end.

(** The outer loop over [suits]. *)
Fixpoint suits_loop (out : string) (suits : list (string * list Card))
    (st : Console * list (string * string))
    : option (Console * list (string * string)) :=
  match suits with
  | [] => Some st
  | (suit_prefix, cards) :: rest =>
      match minor_loop out suit_prefix cards st with
      | Some st' => suits_loop out rest st'
      | None => None
      end
  end.

Definition generate_all (here : string) (w : Console) : option Console :=
  let out := OUT_DIR here in
  let st := major_loop out 1 MAJOR_ARCANA (w, []) in
  let suits := [
    ("networks", create_networks_suit);
    ("events", create_events_suit);
    ("agents", create_agents_suit);
    ("resources", create_resources_suit)
  ] in
  match suits_loop out suits st with
  | None => None
  | Some (w1, generated) =>
      let w2 :=
        print ("Generated " +:+ str_int (len generated) +:+ " prompt files → "
                 +:+ out +:+ "/" +:+ nl) w1 in
      Some (foldl (fun w fn =>
                     print ("  " +:+ fn.1 +:+ "  (" +:+ fn.2 +:+ ")") w)
                  w2 generated)
  end.

(** *** The claim about the files

    An example snippet as the code takes it: the text after the first colon,
    stripped of surrounding whitespace and lower-cased; an example without a
    colon gives none. *)
Definition snippet (ex : string) : option string :=
  match split_once ":" ex with
  | [_; rest] => Some (lower (strip is_space rest))
  | _ => None
  end.



(** The 56 Minor cards. *)
Definition minor_arcana : list Card :=
  create_networks_suit ++ create_events_suit ++ create_agents_suit
    ++ create_resources_suit.

(** The console a run starts from here: nothing printed, no file. *)
Definition empty_console : Console := {| stdout := EmptyString; files := ∅ |}.

(** Every byte of [s] is in the ASCII range, where [lower] and [strip] are
    Python's. *)
Fixpoint is_ascii (s : string) : bool :=
  match s with
  | EmptyString => true
  | String c s' => (N_of_ascii c <? 128)%N && is_ascii s'
  end.

(** [j] occurs in [s]. *)
Fixpoint infixb (j s : string) : bool :=
  String.prefix j s || match s with
                       | EmptyString => false
                       | String _ s' => infixb j s'
                       end.

(** The files of the loops as lists, in writing order: name and content. *)
Fixpoint major_entries (i : Z) (cards : list Card) : list (string * string) :=
  match cards with
  | [] => []
  | card :: rest =>
      ("major_" +:+ fmt_02d i +:+ "_" +:+ slugify (name card) +:+ ".txt",
       build_major_prompt card i +:+ nl) :: major_entries (i + 1) rest
  end.

Fixpoint minor_entries (suit_prefix : string) (cards : list Card)
    : option (list (string * string)) :=
  match cards with
  | [] => Some []
  | card :: rest =>
      match number card, minor_entries suit_prefix rest with
      | Some k, Some es =>
          Some ((suit_prefix +:+ "_" +:+ fmt_02d k +:+ "_" +:+ slugify (name card)
                   +:+ ".txt",
                 build_minor_prompt card +:+ nl) :: es)
      | _, _ => None
      end
  end.

Fixpoint suits_entries (suits : list (string * list Card))
    : option (list (string * string)) :=
  match suits with
  | [] => Some []
  | (suit_prefix, cards) :: rest =>
      match minor_entries suit_prefix cards, suits_entries rest with
      | Some es, Some es' => Some (es ++ es')
      | _, _ => None
      end
  end.

(** Writing a list of files under [out]. *)
Definition write_entries (out : string) (es : list (string * string))
    (m : gmap string string) : gmap string string :=
  foldl (fun m e => <[path_join out e.1 := e.2]> m) m es.

(** The file of a Minor card as the specification names it: the slug of the
    category, the rank in two digits, the slug of the name. *)
Definition minor_entry (card : Card) : option (string * string) :=
  match number card with
  | Some k =>
      Some (slugify (card_type card) +:+ "_" +:+ fmt_02d k +:+ "_"
              +:+ slugify (name card) +:+ ".txt",
            build_minor_prompt card +:+ nl)
  | None => None
  end.

End GeneratePrompts.

(** ** The objects behind the attributes

    In Python [full_deck] and [deck] hold references to list objects, and the
    lists hold references to [Card] instances that are shared between them.
    [list(x)] and a slice make a new list object; [random.shuffle] writes into
    the list it is given. This section keeps the objects in stores, so that
    what a call leaves untouched can be stated. *)

Section Objects.
Context {A G : Type} `{RandomSource G}.

(** The process: the [Card] instances and the list objects by reference, the
    generator of the [random] module, and what has been printed and written. *)
Record Process := MkProcess {
  card_objs : gmap positive A;
  list_objs : gmap positive (list positive);
  random_state : G;
  console : GeneratePrompts.Console
}.

(** The instance attributes: two references to list objects. *)
Record TarotObj := MkTarotObj {
  full_deck_ref : positive;
  deck_ref : positive
}.

(** The content of the list object behind a reference. *)
Definition deref (p : Process) (r : positive) : list positive :=
  default [] (list_objs p !! r).

(** A new list object with the given content. *)
Definition alloc_list (l : list positive) (p : Process) : positive * Process :=
  let r := fresh (dom (list_objs p)) in
  (r, {| card_objs := card_objs p;
         list_objs := <[r := l]> (list_objs p);
         random_state := random_state p;
         console := console p |}).

(** [random.shuffle(r)]: the list object is rewritten in place. *)
Definition shuffle_in_place (r : positive) (p : Process) : Process :=
  let (d, g) := shuffle (deref p r) (random_state p) in
  {| card_objs := card_objs p;
     list_objs := <[r := d]> (list_objs p);
     random_state := g;
     console := console p |}.

(** [self.deck = list(self.full_deck); random.shuffle(self.deck)] *)
Definition reset_and_shuffle_obj (self : TarotObj) (p : Process)
    : TarotObj * Process :=
  let (r, p1) := alloc_list (deref p (full_deck_ref self)) p in
  let self1 := {| full_deck_ref := full_deck_ref self; deck_ref := r |} in
  (self1, shuffle_in_place (deck_ref self1) p1).

(** [draw]: the result is a reference to a new list object. *)
Definition draw_obj (self : TarotObj) (n : Z) (p : Process)
    : positive * TarotObj * Process :=
  if n <=? 0 then
    let (r, p') := alloc_list [] p in (r, self, p')
  else
    let (self1, p1) :=
      if n >? len (deref p (deck_ref self))
      then reset_and_shuffle_obj self p else (self, p) in
    let (drawn, p2) := alloc_list (slice_to (deref p1 (deck_ref self1)) n) p1 in
    let (rest, p3) := alloc_list (slice_from (deref p2 (deck_ref self1)) n) p2 in
    let self2 := {| full_deck_ref := full_deck_ref self1; deck_ref := rest |} in
    let (self3, p4) :=
      if len (deref p3 (deck_ref self2)) <? 10
      then reset_and_shuffle_obj self2 p3 else (self2, p3) in
    (drawn, self3, p4).

(** The constructor, given the references of the catalog's cards: the
    concatenation is a new list object. *)
Definition construct_obj (catalog : list positive) (p : Process)
    : TarotObj * Process :=
  let (fd, p1) := alloc_list catalog p in
  reset_and_shuffle_obj {| full_deck_ref := fd; deck_ref := fd |} p1.

(** The object read as the value of its two lists. *)
Definition view (self : TarotObj) (p : Process) : Tarot positive G :=
  {| full_deck := deref p (full_deck_ref self);
     deck := deref p (deck_ref self);
     rng := random_state p |}.

(** Both attributes refer to list objects of the process. *)
Definition live (self : TarotObj) (p : Process) : Prop :=
  is_Some (list_objs p !! full_deck_ref self) /\
  is_Some (list_objs p !! deck_ref self).

(** What a call may not touch: every [Card] instance is as it was, every list
    object that existed is still there with the content it had, and nothing
    was printed or written. The generator of the [random] module is not among
    these: a shuffle steps it, and what becomes of it is stated apart. *)
Definition untouched (p p' : Process) : Prop :=
  card_objs p' = card_objs p /\
  list_objs p ⊆ list_objs p' /\
  console p' = console p.

End Objects.

Arguments Process : clear implicits.

(** A process to run the object model on: the cards of the first catalog as
    instances 1 to 78, nothing printed, and an oracle built over them. *)
Definition example_process : Process RiskTarot.Card Z :=
  {| card_objs := list_to_map (zip (Pos.of_nat <$> seq 1 78) RiskTarot.catalog);
     list_objs := ∅;
     random_state := 42;
     console := GeneratePrompts.empty_console |}.

Definition example_object : TarotObj * Process RiskTarot.Card Z :=
  construct_obj (Pos.of_nat <$> seq 1 78) example_process.

(** A session to run the model on: the first oracle, seeded with 42. *)
Definition example_session : RiskTarot.TonysTarot Z := RiskTarot.__init__ 42.

(** ** The shape of a catalog

    22 Major cards without rank, and in each suit the ranks 1 to 14 once each;
    nothing else. [card_type] and [number] are the two fields of the card
    dataclass, [suits] the names of the Minor categories. *)
Definition catalog_shape {C : Type} (card_type : C -> string)
    (number : C -> option Z) (suits : list string) (cat : list C) : Prop :=
  length cat = 78%nat /\
  length (filter (fun c => card_type c = "Major") cat) = 22%nat /\
  Forall (fun c => number c = None) (filter (fun c => card_type c = "Major") cat) /\
  length suits = 4%nat /\ NoDup ("Major" :: suits) /\
  (forall s, s ∈ suits ->
     length (filter (fun c => card_type c = s) cat) = 14%nat /\
     number <$> filter (fun c => card_type c = s) cat ≡ₚ Some <$> seqZ 1 14) /\
  Forall (fun c => card_type c ∈ "Major" :: suits) cat.

(** ** What a caller can rely on between calls *)

Section DeckState.
Context {A G : Type} `{RandomSource G}.

(** The catalog: 78 cards, no card twice. *)
Definition catalog_ok (t : Tarot A G) : Prop :=
  NoDup (full_deck t) /\ length (full_deck t) = 78%nat.

(** The draw order: distinct catalog cards, at least ten of them. *)
Definition deck_ok (t : Tarot A G) : Prop :=
  NoDup (deck t) /\ deck t ⊆ full_deck t /\ (10 <= length (deck t))%nat.

Definition Inv (t : Tarot A G) : Prop := catalog_ok t /\ deck_ok t.

(** The object after the first conditional of [draw] (reset when the request
    exceeds what is left) and after the two slices; [draw] ends with the
    low-water conditional applied to the latter. *)
Definition before_removal (t : Tarot A G) (n : Z) : Tarot A G :=
  if n >? len (deck t) then reset_and_shuffle t else t.

Definition after_removal (t : Tarot A G) (n : Z) : Tarot A G :=
  let t1 := before_removal t n in
  {| full_deck := full_deck t1; deck := slice_from (deck t1) n; rng := rng t1 |}.

(** [draw t n] runs [reset_and_shuffle] at least once. *)
Definition reshuffles (t : Tarot A G) (n : Z) : bool :=
  (0 <? n) && ((n >? len (deck t)) || (len (deck (after_removal t n)) <? 10)).


(** The objects a program can hold: built by the constructor over [catalog],
    then any number of [reset_and_shuffle] and [draw] calls. *)
Inductive reachable (catalog : list A) : Tarot A G -> Prop :=
  | reach_init g : reachable catalog (construct catalog g)
  | reach_reset t : reachable catalog t -> reachable catalog (reset_and_shuffle t)
  | reach_draw t n : reachable catalog t -> reachable catalog (snd (draw t n)).

End DeckState.

(** ** Running the methods that print

    A method runs on the oracle and the console and may end in an exception. *)

Inductive exn := IndexError | TypeError | EOFError.

Inductive result (A : Type) :=
  | Ok (a : A)
  | Raise (e : exn).

Arguments Ok {A}.
Arguments Raise {A}.

Definition cmd (S A : Type) : Type := S -> result (A * S).

#[export] Instance cmd_ret {S : Type} : MRet (cmd S) :=
  fun A x s => Ok (x, s).

#[export] Instance cmd_bind {S : Type} : MBind (cmd S) :=
  fun A B f m s =>
    match m s with
    | Ok (a, s') => f a s'
    | Raise e => Raise e
    end.

Definition raise {S A : Type} (e : exn) : cmd S A := fun _ => Raise e.

(** [for x in l: body] *)
Fixpoint for_each {S A : Type} (l : list A) (body : A -> cmd S unit) : cmd S unit :=
  match l with
  | [] => mret tt
  | x :: l' => body x;; for_each l' body
  end.

(** [l[i]]: a negative index counts from the end; [None] stands for the
    IndexError of an index outside the list. *)
Definition py_index {A : Type} (l : list A) (i : Z) : option A :=
  if 0 <=? i then l !! Z.to_nat i
  else if 0 <=? len l + i then l !! Z.to_nat (len l + i)
  else None.

(** [s * k] *)
Definition str_mul (s : string) (k : Z) : string :=
  GeneratePrompts.join EmptyString (replicate (Z.to_nat k) s).

(** [len(s)] of a string: the number of code points, which in UTF-8 is the
    number of bytes that are not continuation bytes. *)
Fixpoint py_len (s : string) : Z :=
  match s with
  | EmptyString => 0
  | String c s' =>
      (if (128 <=? N_of_ascii c)%N && (N_of_ascii c <? 192)%N then 0 else 1)
      + py_len s'
  end.

(** A [str] that the program reads is kept as the list of its code points,
    whatever the encoding of the terminal is. [text s] is a literal of the
    source as such a list; the literals that typed lines are compared with
    are ASCII, where bytes and code points are the same. *)
Definition text (s : string) : list N :=
  N_of_ascii <$> String.list_ascii_of_string s.

(** [c.isspace()], the characters that [str.strip()] removes: the ASCII
    blanks and separators, U+0085, U+00A0, U+1680, U+2000 to U+200A, U+2028,
    U+2029, U+202F, U+205F and U+3000. *)
Definition py_isspace (c : N) : bool :=
  (((9 <=? c) && (c <=? 13)) || ((28 <=? c) && (c <=? 32))
   || (c =? 133) || (c =? 160) || (c =? 5760)
   || ((8192 <=? c) && (c <=? 8202))
   || (c =? 8232) || (c =? 8233) || (c =? 8239) || (c =? 8287)
   || (c =? 12288))%N.

Fixpoint py_lstrip (s : list N) : list N :=
  match s with
  | [] => []
  | c :: s' => if py_isspace c then py_lstrip s' else s
  end.

(** [s.strip()] of a [str] *)
Definition py_strip (s : list N) : list N :=
  reverse (py_lstrip (reverse (py_lstrip s))).

Section Console.
Context {Card G : Type} `{RandomSource G}.

(** The oracle of the session and the console. *)
Definition State : Type := Tarot Card G * GeneratePrompts.Console.

(** [print(s)] *)
Definition print (s : string) : cmd State unit :=
  fun st => Ok (tt, (st.1, GeneratePrompts.print s st.2)).

(** The prompt of [input(prompt)]: written without a newline. *)
Definition prompt (s : string) : cmd State unit :=
  fun st =>
    Ok (tt, (st.1, {| GeneratePrompts.stdout := GeneratePrompts.stdout st.2 +:+ s;
                      GeneratePrompts.files := GeneratePrompts.files st.2 |})).

(** [self.draw(n)] *)
Definition self_draw (n : Z) : cmd State (list Card) :=
  fun st => Ok ((draw st.1 n).1, ((draw st.1 n).2, st.2)).

(** [l[i]] as a step of a method. *)
Definition index {A : Type} (l : list A) (i : Z) : cmd State A :=
  match py_index l i with
  | Some x => mret x
  | None => raise IndexError
  end.

(** An operand of integer arithmetic: [None] raises TypeError. *)
Definition as_int (n : option Z) : cmd State Z :=
  match n with
  | Some k => mret k
  | None => raise TypeError
  end.

End Console.

(** ** riskTarot.py: the methods that print *)

Module RiskTarotConsole.
Import RiskTarot.

Section Methods.
Context {G : Type} `{RandomSource G}.

Local Abbreviation State := (@State Card G).
Local Abbreviation nl := GeneratePrompts.nl.
Local Abbreviation str_int := GeneratePrompts.str_int.

(** [Card.display] *)
Definition display (card : Card) : cmd State unit :=
  let header :=
    if bool_decide (card_type card = "Major")
    then "╔═══ " +:+ name card +:+ " (Major Arcana) " +:+ "═══════════════════════════════════════════════╗"
    else "╔═══ " +:+ name card +:+ " " +:+ "══════════════════════════════════════════════╗" in
  print header;;
  print ("║ Pattern: " +:+ pattern card);;
  (if negb (bool_decide (batcave_context card = EmptyString)) then
     print ("║ Context: " +:+ batcave_context card)
   else
     mret tt);;
  (if negb (bool_decide (questions card = [])) then
     print "║";;
     print "║ Questions this card raises:";;
     for_each (questions card) (fun q =>
       print ("║   • " +:+ q))
   else
     mret tt);;
  (if negb (bool_decide (failure_modes card = [])) then
     print "║";;
     print "║ Failure modes:";;
     for_each (failure_modes card) (fun f =>
       print ("║   • " +:+ f))
   else
     mret tt);;
  (if negb (bool_decide (emergence_patterns card = [])) then
     print "║";;
     print "║ Emergence patterns:";;
     for_each (emergence_patterns card) (fun e =>
       print ("║   • " +:+ e))
   else
     mret tt);;
  print ("╚" +:+ str_mul "═" (py_len header - 2) +:+ "╝").

(** [TonysTarot.reading] *)
Definition reading (spread_type : string) : cmd State unit :=
  print (nl +:+ str_mul "=" 70);;
  print "TONY'S TAROT: Systems Thinking Oracle";;
  print (str_mul "=" 70 +:+ nl);;
  (if bool_decide (spread_type = "single") then
     print ("SINGLE CARD READING: What perspective do I need right now?" +:+ nl);;
     cards ← self_draw 1;
     (index cards 0 ≫= display)
   else if bool_decide (spread_type = "three_card") then
     print ("THREE CARD READING: Context / Challenge / Opportunity" +:+ nl);;
     cards ← self_draw 3;
     print (nl +:+ "1. CONTEXT - What system am I operating in?");;
     print (str_mul "-" 70);;
     (index cards 0 ≫= display);;
     print (nl +:+ "2. CHALLENGE - What constraint or failure mode am I facing?");;
     print (str_mul "-" 70);;
     (index cards 1 ≫= display);;
     print (nl +:+ "3. OPPORTUNITY - What emergence or leverage point exists?");;
     print (str_mul "-" 70);;
     (index cards 2 ≫= display)
   else if bool_decide (spread_type = "decision") then
     print ("DECISION READING: Current State / Path A / Path B / Synthesis" +:+ nl);;
     cards ← self_draw 4;
     print (nl +:+ "1. CURRENT STATE - Where am I now?");;
     print (str_mul "-" 70);;
     (index cards 0 ≫= display);;
     print (nl +:+ "2. PATH A - First option's dynamics");;
     print (str_mul "-" 70);;
     (index cards 1 ≫= display);;
     print (nl +:+ "3. PATH B - Second option's dynamics");;
     print (str_mul "-" 70);;
     (index cards 2 ≫= display);;
     print (nl +:+ "4. SYNTHESIS - What pattern connects them?");;
     print (str_mul "-" 70);;
     (index cards 3 ≫= display)
   else if bool_decide (spread_type = "archipelago") then
     print ("ARCHIPELAGO READING: Which island wants attention?" +:+ nl);;
     cards ← self_draw 5;
     print (nl +:+ "1. ISLAND CALLING - What wants attention now?");;
     print (str_mul "-" 70);;
     (index cards 0 ≫= display);;
     print (nl +:+ "2. CURRENT ENERGY - What fuels this work?");;
     print (str_mul "-" 70);;
     (index cards 1 ≫= display);;
     print (nl +:+ "3. OBSTACLE - What blocks progress?");;
     print (str_mul "-" 70);;
     (index cards 2 ≫= display);;
     print (nl +:+ "4. GIFT - What emerges if you engage?");;
     print (str_mul "-" 70);;
     (index cards 3 ≫= display);;
     print (nl +:+ "5. INTEGRATION - How does this connect to other islands?");;
     print (str_mul "-" 70);;
     (index cards 4 ≫= display)
   else if bool_decide (spread_type = "batcave") then
     print ("BATCAVE READING: Threat Assessment & Strategic Response" +:+ nl);;
     cards ← self_draw 6;
     print (nl +:+ "1. PRIMARY THREAT - What system stress matters most?");;
     print (str_mul "-" 70);;
     (index cards 0 ≫= display);;
     print (nl +:+ "2. CASCADE RISK - What could amplify this?");;
     print (str_mul "-" 70);;
     (index cards 1 ≫= display);;
     print (nl +:+ "3. RESILIENCE FACTOR - What provides stability?");;
     print (str_mul "-" 70);;
     (index cards 2 ≫= display);;
     print (nl +:+ "4. BLIND SPOT - What am I missing?");;
     print (str_mul "-" 70);;
     (index cards 3 ≫= display);;
     print (nl +:+ "5. STRATEGIC RESPONSE - What action pattern fits?");;
     print (str_mul "-" 70);;
     (index cards 4 ≫= display);;
     print (nl +:+ "6. LONG-TERM PATTERN - What's the trajectory?");;
     print (str_mul "-" 70);;
     (index cards 5 ≫= display)
   else
     mret tt);;
  print (nl +:+ str_mul "=" 70);;
  print "Synthesis: How do these cards inform your thinking?";;
  print "What connections emerge? What questions arise?";;
  print (str_mul "=" 70 +:+ nl).

(** [TonysTarot.list_all_cards] *)
Definition list_all_cards : cmd State unit :=
  print (nl +:+ str_mul "=" 70);;
  print "COMPLETE DECK LISTING";;
  print (str_mul "=" 70 +:+ nl);;
  print ("MAJOR ARCANA (" +:+ str_int (len MAJOR_ARCANA) +:+ " cards):");;
  print (str_mul "-" 70);;
  for_each MAJOR_ARCANA (fun card =>
    print ("  • " +:+ name card);;
    print ("    " +:+ pattern card);;
    print EmptyString);;
  print (nl +:+ "MINOR ARCANA - SUIT OF NETWORKS (14 cards):");;
  print (str_mul "-" 70);;
  for_each create_networks_suit (fun card =>
    k ← as_int (number card);
    rank ← index
      ["Ace"; "Two"; "Three"; "Four"; "Five"; "Six"; "Seven"; "Eight"; "Nine"; "Ten"; "Page"; "Knight"; "Queen"; "King"]
      (k - 1);
    print ("  • " +:+ rank +:+ " of Networks"));;
  print (nl +:+ "MINOR ARCANA - SUIT OF EVENTS (14 cards):");;
  print (str_mul "-" 70);;
  for_each create_events_suit (fun card =>
    k ← as_int (number card);
    rank ← index
      ["Ace"; "Two"; "Three"; "Four"; "Five"; "Six"; "Seven"; "Eight"; "Nine"; "Ten"; "Page"; "Knight"; "Queen"; "King"]
      (k - 1);
    print ("  • " +:+ rank +:+ " of Events"));;
  print (nl +:+ "MINOR ARCANA - SUIT OF AGENTS (14 cards):");;
  print (str_mul "-" 70);;
  for_each create_agents_suit (fun card =>
    k ← as_int (number card);
    rank ← index
      ["Ace"; "Two"; "Three"; "Four"; "Five"; "Six"; "Seven"; "Eight"; "Nine"; "Ten"; "Page"; "Knight"; "Queen"; "King"]
      (k - 1);
    print ("  • " +:+ rank +:+ " of Agents"));;
  print (nl +:+ "MINOR ARCANA - SUIT OF RESOURCES (14 cards):");;
  print (str_mul "-" 70);;
  for_each create_resources_suit (fun card =>
    k ← as_int (number card);
    rank ← index
      ["Ace"; "Two"; "Three"; "Four"; "Five"; "Six"; "Seven"; "Eight"; "Nine"; "Ten"; "Page"; "Knight"; "Queen"; "King"]
      (k - 1);
    print ("  • " +:+ rank +:+ " of Resources"));;
  print (nl +:+ str_mul "=" 70);;
  print "TOTAL: 78 cards (22 Major Arcana + 56 Minor Arcana)";;
  print (str_mul "=" 70 +:+ nl).

(** The body of [while True] in [main], reading the lines typed from [inputs],
    each the [str] that [input] returns; the loop is over when the choice is
    7, and [input] raises EOFError when no line is left. *)
Fixpoint main_loop (inputs : list (list N)) : cmd State unit :=
  print (nl +:+ "CHOOSE YOUR READING:");;
  print "  1. Single Card - Quick perspective";;
  print "  2. Three Card - Context/Challenge/Opportunity";;
  print "  3. Decision Reading - Comparing two paths";;
  print "  4. Archipelago Reading - Which island wants attention?";;
  print "  5. Batcave Reading - Threat assessment & strategy";;
  print "  6. List All Cards - See complete deck";;
  print "  7. Exit";;
  prompt (nl +:+ "Enter choice (1-7): ");;
  match inputs with
  | [] => raise EOFError
  | line :: inputs =>
      let choice := py_strip line in
      stop ←
        (if bool_decide (choice = text "1") then reading "single";; mret false
         else if bool_decide (choice = text "2") then reading "three_card";; mret false
         else if bool_decide (choice = text "3") then reading "decision";; mret false
         else if bool_decide (choice = text "4") then reading "archipelago";; mret false
         else if bool_decide (choice = text "5") then reading "batcave";; mret false
         else if bool_decide (choice = text "6") then list_all_cards;; mret false
         else if bool_decide (choice = text "7") then print (nl +:+ "May your systems be resilient and your cascades benign." +:+ nl);; mret true
         else print (nl +:+ "Invalid choice. Try again.");; mret false);
      if stop : bool then mret tt
      else
        prompt (nl +:+ "Press Enter to continue...");;
        match inputs with
        | [] => raise EOFError
        | _ :: inputs => main_loop inputs
        end
  end.

(** [main], with the generator state [g] the process starts in. *)
Definition main (g : G) (inputs : list (list N)) (w : GeneratePrompts.Console)
    : result (unit * State) :=
  (print (nl +:+ "╔══════════════════════════════════════════════════════════════════════╗"
      +:+ nl +:+ "║                                                                      ║"
      +:+ nl +:+ "║                        TONY'S TAROT                                  ║"
      +:+ nl +:+ "║              A Systems Thinking Oracle                               ║"
      +:+ nl +:+ "║                                                                      ║"
      +:+ nl +:+ "║  Not divination. Structured randomization forcing novel              ║"
      +:+ nl +:+ "║  combinations of 50 years of domain expertise.                       ║"
      +:+ nl +:+ "║                                                                      ║"
      +:+ nl +:+ "╚══════════════════════════════════════════════════════════════════════╝"
      +:+ nl +:+ "    ");;
   main_loop inputs) (RiskTarot.__init__ g, w).

End Methods.

End RiskTarotConsole.

(** ** systemsTarot.py: the methods that print *)

Module SystemsTarotConsole.
Import SystemsTarot.

Section Methods.
Context {G : Type} `{RandomSource G}.

Local Abbreviation State := (@State Card G).
Local Abbreviation nl := GeneratePrompts.nl.
Local Abbreviation str_int := GeneratePrompts.str_int.

(** [Card.display] *)
Definition display (card : Card) : cmd State unit :=
  let header :=
    if bool_decide (card_type card = "Major")
    then "╔═══ " +:+ name card +:+ " (Major Arcana) ═══════════════════════════════════════════════╗"
    else "╔═══ " +:+ name card +:+ " ══════════════════════════════════════════════╗" in
  print header;;
  print ("║ Pattern: " +:+ pattern card);;
  (if negb (bool_decide (questions card = [])) then
     print "║";;
     print "║ Questions to ask:";;
     for_each (questions card) (fun q =>
       print ("║   • " +:+ q))
   else
     mret tt);;
  (if negb (bool_decide (examples card = [])) then
     print "║";;
     print "║ Examples across domains:";;
     for_each (examples card) (fun e =>
       print ("║   • " +:+ e))
   else
     mret tt);;
  print ("╚" +:+ str_mul "═" (py_len header - 2) +:+ "╝").

(** [SystemsTarot.reading] *)
Definition reading (spread_type : string) : cmd State unit :=
  print (nl +:+ str_mul "=" 80);;
  print "SYSTEMS THINKING TAROT: Universal Pattern Oracle";;
  print (str_mul "=" 80 +:+ nl);;
  (if bool_decide (spread_type = "single") then
     print ("SINGLE CARD: What perspective do I need now?" +:+ nl);;
     cards ← self_draw 1;
     (index cards 0 ≫= display)
   else if bool_decide (spread_type = "three_card") then
     print ("THREE CARD READING: Context / Challenge / Opportunity" +:+ nl);;
     cards ← self_draw 3;
     print (nl +:+ "1. CONTEXT - What system am I in?");;
     print (str_mul "-" 80);;
     (index cards 0 ≫= display);;
     print (nl +:+ "2. CHALLENGE - What constraint am I facing?");;
     print (str_mul "-" 80);;
     (index cards 1 ≫= display);;
     print (nl +:+ "3. OPPORTUNITY - What leverage point exists?");;
     print (str_mul "-" 80);;
     (index cards 2 ≫= display)
   else if bool_decide (spread_type = "decision") then
     print ("DECISION READING: Current / Path A / Path B / Integration" +:+ nl);;
     cards ← self_draw 4;
     print (nl +:+ "1. CURRENT STATE - Where am I now?");;
     print (str_mul "-" 80);;
     (index cards 0 ≫= display);;
     print (nl +:+ "2. PATH A - First option's dynamics");;
     print (str_mul "-" 80);;
     (index cards 1 ≫= display);;
     print (nl +:+ "3. PATH B - Second option's dynamics");;
     print (str_mul "-" 80);;
     (index cards 2 ≫= display);;
     print (nl +:+ "4. INTEGRATION - What pattern connects them?");;
     print (str_mul "-" 80);;
     (index cards 3 ≫= display)
   else if bool_decide (spread_type = "system") then
     print ("SYSTEM ANALYSIS: Structure / Dynamics / Agents / Resources / Emergence" +:+ nl);;
     cards ← self_draw 5;
     print (nl +:+ "1. STRUCTURE - What's the network topology?");;
     print (str_mul "-" 80);;
     (index cards 0 ≫= display);;
     print (nl +:+ "2. DYNAMICS - What events are unfolding?");;
     print (str_mul "-" 80);;
     (index cards 1 ≫= display);;
     print (nl +:+ "3. AGENTS - Who has agency here?");;
     print (str_mul "-" 80);;
     (index cards 2 ≫= display);;
     print (nl +:+ "4. RESOURCES - What's scarce or abundant?");;
     print (str_mul "-" 80);;
     (index cards 3 ≫= display);;
     print (nl +:+ "5. EMERGENCE - What's trying to emerge?");;
     print (str_mul "-" 80);;
     (index cards 4 ≫= display)
   else if bool_decide (spread_type = "threat") then
     print ("THREAT ASSESSMENT: Primary / Cascade / Resilience / Blind Spot / Response / Trajectory" +:+ nl);;
     cards ← self_draw 6;
     print (nl +:+ "1. PRIMARY THREAT - What matters most?");;
     print (str_mul "-" 80);;
     (index cards 0 ≫= display);;
     print (nl +:+ "2. CASCADE RISK - What could amplify this?");;
     print (str_mul "-" 80);;
     (index cards 1 ≫= display);;
     print (nl +:+ "3. RESILIENCE - What provides stability?");;
     print (str_mul "-" 80);;
     (index cards 2 ≫= display);;
     print (nl +:+ "4. BLIND SPOT - What am I missing?");;
     print (str_mul "-" 80);;
     (index cards 3 ≫= display);;
     print (nl +:+ "5. RESPONSE - What action pattern fits?");;
     print (str_mul "-" 80);;
     (index cards 4 ≫= display);;
     print (nl +:+ "6. TRAJECTORY - What's the long-term pattern?");;
     print (str_mul "-" 80);;
     (index cards 5 ≫= display)
   else
     mret tt);;
  print (nl +:+ str_mul "=" 80);;
  print "REFLECTION: How do these patterns inform your thinking?";;
  print "What connections emerge? What questions arise?";;
  print (str_mul "=" 80 +:+ nl).

(** [SystemsTarot.list_all_cards] *)
Definition list_all_cards : cmd State unit :=
  print (nl +:+ str_mul "=" 80);;
  print "COMPLETE DECK";;
  print (str_mul "=" 80 +:+ nl);;
  print ("MAJOR ARCANA (" +:+ str_int (len MAJOR_ARCANA) +:+ " cards):");;
  print (str_mul "-" 80);;
  for_each MAJOR_ARCANA (fun card =>
    print ("  • " +:+ name card);;
    print ("    " +:+ pattern card);;
    print EmptyString);;
  print (nl +:+ "MINOR ARCANA - NETWORKS (14 cards):");;
  print (str_mul "-" 80);;
  for_each (seqZ 1 14) (fun i =>
    rank ← index
      ["Ace"; "Two"; "Three"; "Four"; "Five"; "Six"; "Seven"; "Eight"; "Nine"; "Ten"; "Page"; "Knight"; "Queen"; "King"]
      (i - 1);
    print ("  • " +:+ rank +:+ " of Networks"));;
  print (nl +:+ "MINOR ARCANA - EVENTS (14 cards):");;
  print (str_mul "-" 80);;
  for_each (seqZ 1 14) (fun i =>
    rank ← index
      ["Ace"; "Two"; "Three"; "Four"; "Five"; "Six"; "Seven"; "Eight"; "Nine"; "Ten"; "Page"; "Knight"; "Queen"; "King"]
      (i - 1);
    print ("  • " +:+ rank +:+ " of Events"));;
  print (nl +:+ "MINOR ARCANA - AGENTS (14 cards):");;
  print (str_mul "-" 80);;
  for_each (seqZ 1 14) (fun i =>
    rank ← index
      ["Ace"; "Two"; "Three"; "Four"; "Five"; "Six"; "Seven"; "Eight"; "Nine"; "Ten"; "Page"; "Knight"; "Queen"; "King"]
      (i - 1);
    print ("  • " +:+ rank +:+ " of Agents"));;
  print (nl +:+ "MINOR ARCANA - RESOURCES (14 cards):");;
  print (str_mul "-" 80);;
  for_each (seqZ 1 14) (fun i =>
    rank ← index
      ["Ace"; "Two"; "Three"; "Four"; "Five"; "Six"; "Seven"; "Eight"; "Nine"; "Ten"; "Page"; "Knight"; "Queen"; "King"]
      (i - 1);
    print ("  • " +:+ rank +:+ " of Resources"));;
  print (nl +:+ str_mul "=" 80);;
  print "TOTAL: 78 cards (22 Major + 56 Minor)";;
  print (str_mul "=" 80 +:+ nl).

(** The body of [while True] in [main], reading the lines typed from [inputs],
    each the [str] that [input] returns; the loop is over when the choice is
    7, and [input] raises EOFError when no line is left. *)
Fixpoint main_loop (inputs : list (list N)) : cmd State unit :=
  print (nl +:+ "CHOOSE YOUR READING:");;
  print "  1. Single Card - Quick perspective";;
  print "  2. Three Card - Context/Challenge/Opportunity";;
  print "  3. Decision - Comparing two paths";;
  print "  4. System Analysis - Structure/Dynamics/Agents/Resources/Emergence";;
  print "  5. Threat Assessment - Full risk analysis";;
  print "  6. List All Cards - See complete deck";;
  print "  7. Exit";;
  prompt (nl +:+ "Enter choice (1-7): ");;
  match inputs with
  | [] => raise EOFError
  | line :: inputs =>
      let choice := py_strip line in
      stop ←
        (if bool_decide (choice = text "1") then reading "single";; mret false
         else if bool_decide (choice = text "2") then reading "three_card";; mret false
         else if bool_decide (choice = text "3") then reading "decision";; mret false
         else if bool_decide (choice = text "4") then reading "system";; mret false
         else if bool_decide (choice = text "5") then reading "threat";; mret false
         else if bool_decide (choice = text "6") then list_all_cards;; mret false
         else if bool_decide (choice = text "7") then print (nl +:+ "May your systems be resilient and your patterns generative." +:+ nl);; mret true
         else print (nl +:+ "Invalid choice. Try again.");; mret false);
      if stop : bool then mret tt
      else
        prompt (nl +:+ "Press Enter to continue...");;
        match inputs with
        | [] => raise EOFError
        | _ :: inputs => main_loop inputs
        end
  end.

(** [main], with the generator state [g] the process starts in. *)
Definition main (g : G) (inputs : list (list N)) (w : GeneratePrompts.Console)
    : result (unit * State) :=
  (print (nl +:+ "╔══════════════════════════════════════════════════════════════════════════════╗"
      +:+ nl +:+ "║                                                                              ║"
      +:+ nl +:+ "║                        SYSTEMS THINKING TAROT                                ║"
      +:+ nl +:+ "║                      Universal Pattern Oracle                                ║"
      +:+ nl +:+ "║                                                                              ║"
      +:+ nl +:+ "║  Structured randomization forcing novel combinations of systems patterns.   ║"
      +:+ nl +:+ "║  Applicable across any domain: engineering, ecology, business, society.     ║"
      +:+ nl +:+ "║                                                                              ║"
      +:+ nl +:+ "╚══════════════════════════════════════════════════════════════════════════════╝"
      +:+ nl +:+ "    ");;
   main_loop inputs) (SystemsTarot.__init__ g, w).

End Methods.

End SystemsTarotConsole.

(** ** What the printing methods are measured against *)

Section ConsoleSpec.
Context {Card G : Type} `{RandomSource G}.

(** [c], started in [s], returns without an exception, with a value and a
    state that satisfy [Q]. *)
Definition runs {A : Type} (c : cmd (@State Card G) A) (s : @State Card G)
    (Q : A -> @State Card G -> Prop) : Prop :=
  exists a s', c s = Ok (a, s') /\ Q a s'.

(** [c] does nothing but print [out], whatever state it starts in. *)
Definition prints (c : cmd (@State Card G) unit) (out : string) : Prop :=
  forall s,
    c s = Ok (tt, (s.1, {| GeneratePrompts.stdout := GeneratePrompts.stdout s.2 +:+ out;
                           GeneratePrompts.files := GeneratePrompts.files s.2 |})).

End ConsoleSpec.

(** Console [w'] is [w] with more text printed and the same files. *)
Definition wrote (w w' : GeneratePrompts.Console) : Prop :=
  GeneratePrompts.files w' = GeneratePrompts.files w /\
  exists out, GeneratePrompts.stdout w' = GeneratePrompts.stdout w +:+ out.

(** The lines of a text, a line ending at each newline. *)
Fixpoint lines_from (cur : string) (s : string) : list string :=
  match s with
  | EmptyString => [String.rev cur]
  | String c s' =>
      if bool_decide (c = "010"%char) then String.rev cur :: lines_from EmptyString s'
      else lines_from (String c cur) s'
  end.

Definition lines (s : string) : list string := lines_from EmptyString s.

(** The bulleted lines of a listing, without the bullet. *)
Definition bullets (out : string) : list string :=
  omap (fun l => if String.prefix "  • " l
                 then Some (String.substring 6 (String.length l - 6) l)
                 else None)
       (lines out).

(** The number of cards each spread of [riskTarot.py] lays out; a spread type
    that [reading] does not know lays out none. *)
Definition risk_spread_size (spread_type : string) : Z :=
  if bool_decide (spread_type = "single") then 1
  else if bool_decide (spread_type = "three_card") then 3
  else if bool_decide (spread_type = "decision") then 4
  else if bool_decide (spread_type = "archipelago") then 5
  else if bool_decide (spread_type = "batcave") then 6
  else 0.

(** The same for [systemsTarot.py]. *)
Definition systems_spread_size (spread_type : string) : Z :=
  if bool_decide (spread_type = "single") then 1
  else if bool_decide (spread_type = "three_card") then 3
  else if bool_decide (spread_type = "decision") then 4
  else if bool_decide (spread_type = "system") then 5
  else if bool_decide (spread_type = "threat") then 6
  else 0.

(** The typed lines end the menu loop: the lines at positions 0, 2, 4, ... are
    the choices, and one of them is 7, with nothing but whitespace around it,
    before the lines run out. *)
Fixpoint exits (inputs : list (list N)) : bool :=
  match inputs with
  | [] => false
  | line :: rest =>
      if bool_decide (py_strip line = text "7")
      then true
      else match rest with
           | [] => false
           | _ :: rest' => exits rest'
           end
  end.

(** How a session of [main] may end, given the lines typed: it returns, with an
    oracle that satisfies the deck invariant and a console that was only
    printed to, when the lines end the menu loop; otherwise [input] raises
    EOFError. No other exception is possible. *)
Definition session_outcome {Card G : Type} `{RandomSource G}
    (inputs : list (list N)) (w : GeneratePrompts.Console)
    (r : result (unit * @State Card G)) : Prop :=
  match r with
  | Ok (_, (t', w')) => exits inputs = true /\ Inv t' /\ wrote w w'
  | Raise e => exits inputs = false /\ e = EOFError
  end.

(** ** What a slug looks like *)

(** Every character of [s] passes [p]. *)
Fixpoint all_chars (p : ascii -> bool) (s : string) : bool :=
  match s with
  | EmptyString => true
  | String c s' => p c && all_chars p s'
  end.

(** The last character of [s]. *)
Fixpoint last_char (s : string) : option ascii :=
  match s with
  | EmptyString => None
  | String c EmptyString => Some c
  | String _ s' => last_char s'
  end.

(** A text in which lower-case letters and digits come in groups separated by
    single underscores; [after_underscore] tells that an underscore may not
    come next (at the start, or right after one). *)
Fixpoint slug_groups (after_underscore : bool) (s : string) : bool :=
  match s with
  | EmptyString => true
  | String c s' =>
      if GeneratePrompts.is_slug_char c then slug_groups false s'
      else if bool_decide (c = "_"%char)
           then negb after_underscore && slug_groups true s'
           else false
  end.

(** ** What a reading shows *)

(** The texts [parts] occur in [out] one after the other. *)
Fixpoint in_order (parts : list string) (out : string) : Prop :=
  match parts with
  | [] => True
  | part :: parts' =>
      exists pre post, out = pre +:+ part +:+ post /\ in_order parts' post
  end.

(** Console [w'] is [w] with more text printed, in which [parts] occur one
    after the other, and the same files. *)
Definition showed (parts : list string) (w w' : GeneratePrompts.Console) : Prop :=
  GeneratePrompts.files w' = GeneratePrompts.files w /\
  exists out, GeneratePrompts.stdout w' = GeneratePrompts.stdout w +:+ out /\
              in_order parts out.

(** Console [w'] is [w] with a text printed that begins with [header]. *)
Definition boxed (header : string) (w w' : GeneratePrompts.Console) : Prop :=
  GeneratePrompts.files w' = GeneratePrompts.files w /\
  exists rest, GeneratePrompts.stdout w' = GeneratePrompts.stdout w +:+ header +:+ rest.




(** ** What a session asks of the deck *)

(** The number of cards a menu choice asks for: a reading lays out its spread;
    the listing, the exit and a choice the menu does not know draw nothing. *)
Definition menu_request (choice : list N) : Z :=
  if bool_decide (choice = text "1") then 1
  else if bool_decide (choice = text "2") then 3
  else if bool_decide (choice = text "3") then 4
  else if bool_decide (choice = text "4") then 5
  else if bool_decide (choice = text "5") then 6
  else 0.

(** The requests of a session, from the lines typed: one for each choice that
    comes before the first 7, the choice being the line without the whitespace
    around it. *)
Fixpoint requests (inputs : list (list N)) : list Z :=
  match inputs with
  | [] => []
  | line :: rest =>
      let choice := py_strip line in
      if bool_decide (choice = text "7") then []
      else menu_request choice
             :: match rest with
                | [] => []
                | _ :: rest' => requests rest'
                end
  end.

(** A run that returns leaves the oracle [t]. *)
Definition ends_with {Card G : Type} `{RandomSource G} (t : Tarot Card G)
    (r : result (unit * @State Card G)) : Prop :=
  match r with
  | Ok (_, (t', _)) => t' = t
  | Raise _ => True
  end.

(** A card outside the four categories and without rank, to run the prompt
    builder on. *)
Definition unlisted_card : SystemsTarot.Card :=
  {| SystemsTarot.name := "Ace of Wands";
     SystemsTarot.card_type := "Wands";
     SystemsTarot.number := None;
     SystemsTarot.pattern := "A hand holding a budding staff.";
     SystemsTarot.questions := [];
     SystemsTarot.examples := [] |}.

(** * Properties *)

(** ** Shuffling *)

Section ShuffleFacts.
Context {A G : Type} `{RandomSource G}.
Implicit Types (x : list A) (g : G).

Lemma swap_perm x i j : swap x i j ≡ₚ x.
Proof.
  unfold swap. destruct (x !! i) eqn:Hi; [|done].
  destruct (x !! j) eqn:Hj; [|done].
  by apply Permutation_insert_swap.
Qed.

Lemma shuffle_from_perm k x g : (shuffle_from k x g).1 ≡ₚ x.
Proof.
  revert x g. induction k as [|k IH]; intros x g; [done|].
  cbn [shuffle_from]. destruct (randbelow (S k + 1) g) as [j g'].
  rewrite IH. apply swap_perm.
Qed.

Lemma shuffle_perm x g : (shuffle x g).1 ≡ₚ x.
Proof. apply shuffle_from_perm. Qed.

(** Both indices of every exchange are inside the list, so the IndexError
    that [swap] leaves out cannot happen. *)
Lemma shuffle_from_in_range k x g :
  (k < length x)%nat ->
  forall i, (1 <= i <= k)%nat ->
    (i < length x)%nat /\ ((randbelow (i + 1) g).1 < length x)%nat.
Proof.
  intros Hk i Hi. split; [lia|].
  pose proof (randbelow_lt (i + 1) g). lia.
Qed.

End ShuffleFacts.

(** ** The draw order *)

Section DeckFacts.
Context {A G : Type} `{RandomSource G}.
Implicit Types (t : Tarot A G) (n m : Z).

Lemma reset_full_deck t : full_deck (reset_and_shuffle t) = full_deck t.
Proof. unfold reset_and_shuffle. by destruct (shuffle _ _). Qed.

Lemma reset_deck_perm t : deck (reset_and_shuffle t) ≡ₚ full_deck t.
Proof.
  unfold reset_and_shuffle. pose proof (shuffle_perm (full_deck t) (rng t)) as Hp.
  by destruct (shuffle _ _).
Qed.

Lemma reset_deck_length t : length (deck (reset_and_shuffle t)) = length (full_deck t).
Proof. apply Permutation_length, reset_deck_perm. Qed.

Lemma reset_Inv t : catalog_ok t -> Inv (reset_and_shuffle t).
Proof.
  intros [Hnd Hlen]. pose proof (reset_deck_perm t) as Hp.
  pose proof (reset_full_deck t) as Hf.
  split; [by unfold catalog_ok; rewrite Hf|].
  unfold deck_ok. rewrite Hf. split_and!.
  - by rewrite Hp.
  - intros c. by rewrite Hp.
  - rewrite (Permutation_length Hp). lia.
Qed.

Lemma construct_Inv (catalog : list A) g :
  NoDup catalog -> length catalog = 78%nat -> Inv (construct catalog g).
Proof. intros ??. by apply reset_Inv. Qed.

Lemma construct_full_deck (catalog : list A) g :
  full_deck (construct catalog g) = catalog.
Proof. apply reset_full_deck. Qed.

Lemma before_removal_full_deck t n : full_deck (before_removal t n) = full_deck t.
Proof. unfold before_removal. destruct (n >? _); [apply reset_full_deck|done]. Qed.

Lemma before_removal_Inv t n : Inv t -> Inv (before_removal t n).
Proof.
  intros Ht. unfold before_removal. destruct (n >? _); [|done].
  apply reset_Inv, Ht.
Qed.

(** Under the invariant the deck never holds more than the catalog. *)
Lemma Inv_deck_le t : Inv t -> (length (deck t) <= 78)%nat.
Proof.
  intros [[_ Hlen] (Hnd & Hsub & _)]. rewrite <-Hlen.
  apply submseteq_length, NoDup_submseteq; [done|]. intros c. apply Hsub.
Qed.

(** After the first conditional the request fits, unless it exceeds the
    catalog itself. *)
Lemma before_removal_enough t n :
  Inv t -> n <= 78 -> n <= len (deck (before_removal t n)).
Proof.
  intros Ht Hn. unfold before_removal.
  destruct (n >? len (deck t)) eqn:E.
  - unfold len. rewrite reset_deck_length. destruct Ht as [[_ ->] _]. lia.
  - lia.
Qed.

Lemma draw_pos t n :
  0 < n ->
  draw t n =
    (slice_to (deck (before_removal t n)) n,
     if len (deck (after_removal t n)) <? 10
     then reset_and_shuffle (after_removal t n) else after_removal t n).
Proof.
  intros Hn. unfold draw. destruct (n <=? 0) eqn:E; [lia|]. done.
Qed.

Lemma draw_nonpos t n : n <= 0 -> draw t n = ([], t).
Proof. intros Hn. unfold draw. destruct (n <=? 0) eqn:E; [done|lia]. Qed.

Lemma slice_to_pos (x : list A) n : 0 <= n -> slice_to x n = take (Z.to_nat n) x.
Proof. intros Hn. unfold slice_to. destruct (0 <=? n) eqn:E; [done|lia]. Qed.

Lemma slice_from_pos (x : list A) n : 0 <= n -> slice_from x n = drop (Z.to_nat n) x.
Proof. intros Hn. unfold slice_from. destruct (0 <=? n) eqn:E; [done|lia]. Qed.


Lemma after_removal_full_deck t n : full_deck (after_removal t n) = full_deck t.
Proof. unfold after_removal. cbn. apply before_removal_full_deck. Qed.

Lemma draw_full_deck t n : full_deck (draw t n).2 = full_deck t.
Proof.
  unfold draw. destruct (n <=? 0); [done|]. cbn [snd].
  fold (before_removal t n). fold (after_removal t n).
  destruct (_ <? 10); rewrite ?reset_full_deck; apply after_removal_full_deck.
Qed.

Lemma draw_Inv t n : Inv t -> Inv (draw t n).2.
Proof.
  intros Ht. destruct (Z_le_gt_dec n 0) as [Hn|Hn].
  { by rewrite draw_nonpos. }
  rewrite draw_pos by lia. cbn [snd].
  pose proof (before_removal_Inv t n Ht) as [Hc (Hnd & Hsub & Hlen)].
  assert (catalog_ok (after_removal t n)) as Hc'.
  { unfold catalog_ok, after_removal. cbn. apply Hc. }
  destruct (len (deck (after_removal t n)) <? 10) eqn:E.
  { by apply reset_Inv. }
  split; [done|]. unfold deck_ok, after_removal in *. cbn in *.
  rewrite slice_from_pos in * by lia. split_and!.
  - eapply sublist_NoDup; [done|apply sublist_drop].
  - intros c Hin. apply Hsub. eapply elem_of_sublist; [done|apply sublist_drop].
  - unfold len in E. lia.
Qed.

Lemma reachable_Inv (catalog : list A) t :
  NoDup catalog -> length catalog = 78%nat -> reachable catalog t -> Inv t.
Proof.
  intros Hnd Hlen. induction 1 as [g|t _ IH|t n _ IH].
  - by apply construct_Inv.
  - apply reset_Inv, IH.
  - by apply draw_Inv.
Qed.

End DeckFacts.

(** ** The catalogs *)

Lemma RiskTarot_catalog_NoDup : NoDup RiskTarot.catalog.
Proof.
  apply (NoDup_fmap_1 RiskTarot.name).
  apply (bool_decide_unpack _). vm_compute. reflexivity.
Qed.

Lemma RiskTarot_catalog_length : length RiskTarot.catalog = 78%nat.
Proof. reflexivity. Qed.

Lemma SystemsTarot_catalog_NoDup : NoDup SystemsTarot.catalog.
Proof.
  apply (NoDup_fmap_1 SystemsTarot.name).
  apply (bool_decide_unpack _). vm_compute. reflexivity.
Qed.

Lemma SystemsTarot_catalog_length : length SystemsTarot.catalog = 78%nat.
Proof. reflexivity. Qed.

Lemma RiskTarot_init_Inv {G : Type} `{RandomSource G} (g : G) :
  Inv (RiskTarot.__init__ g).
Proof.
  apply construct_Inv;
    [apply RiskTarot_catalog_NoDup | apply RiskTarot_catalog_length].
Qed.

Lemma SystemsTarot_init_Inv {G : Type} `{RandomSource G} (g : G) :
  Inv (SystemsTarot.__init__ g).
Proof.
  apply construct_Inv;
    [apply SystemsTarot_catalog_NoDup | apply SystemsTarot_catalog_length].
Qed.

(** ** What [draw] returns *)

Section DrawFacts.
Context {A G : Type} `{RandomSource G}.
Implicit Types (t : Tarot A G) (n m : Z).

(** C1: for [0 <= n <= 78], [draw(n)] returns exactly [n] cards, pairwise
    distinct and all from the catalog, and they are the first [n] cards of the
    draw order in its order: of the order the object holds when the request
    fits, and of the freshly shuffled one when the first conditional had to
    reset. *)
Theorem draw_returns_first_n t n :
  Inv t -> 0 <= n <= 78 ->
  length (draw t n).1 = Z.to_nat n /\
  NoDup (draw t n).1 /\
  (draw t n).1 ⊆ full_deck t /\
  (draw t n).1 = take (Z.to_nat n) (deck (before_removal t n)) /\
  (n <= len (deck t) -> (draw t n).1 = take (Z.to_nat n) (deck t)).
Proof.
  intros Ht [Hn0 Hn].
  assert ((draw t n).1 = take (Z.to_nat n) (deck (before_removal t n))) as Hd.
  { destruct (decide (n = 0)) as [->|Hne]; [done|].
    rewrite draw_pos by lia. cbn [fst]. apply slice_to_pos. lia. }
  pose proof (before_removal_Inv t n Ht) as [_ (Hnd & Hsub & _)].
  pose proof (before_removal_enough t n Ht Hn) as Hfit. unfold len in Hfit.
  rewrite Hd. split_and!.
  - rewrite length_take. lia.
  - eapply sublist_NoDup; [done|apply sublist_take].
  - intros c Hc. rewrite <-(before_removal_full_deck t n). apply Hsub.
    eapply elem_of_sublist; [done|apply sublist_take].
  - done.
  - intros Hle. unfold before_removal.
    destruct (n >? len (deck t)) eqn:E; [lia|done].
Qed.

(** C5: a request above the catalog size gets the whole catalog and no more:
    78 pairwise distinct cards, a permutation of [full_deck]. *)
Theorem draw_oversized_returns_catalog t n :
  Inv t -> 78 < n ->
  length (draw t n).1 = 78%nat /\
  NoDup (draw t n).1 /\
  (draw t n).1 ≡ₚ full_deck t.
Proof.
  intros Ht Hn. pose proof (Inv_deck_le t Ht) as Hle.
  destruct Ht as [[Hnd Hlen] _].
  assert ((draw t n).1 = deck (reset_and_shuffle t)) as ->.
  { rewrite draw_pos by lia. cbn [fst]. unfold before_removal, len.
    destruct (n >? Z.of_nat (length (deck t))) eqn:E; [|lia].
    rewrite slice_to_pos by lia. apply take_ge.
    rewrite reset_deck_length. lia. }
  pose proof (reset_deck_perm t) as Hp. split_and!.
  - by rewrite (Permutation_length Hp).
  - by rewrite Hp.
  - done.
Qed.

(** C4, as the code has it: the reset before the slices is a conditional, not
    a loop. A request above the catalog size returns after exactly two
    reshuffles: the first fills the deck, the whole of which is returned, and
    the second replaces the emptied deck. *)
Theorem draw_oversized_terminates t n :
  Inv t -> 78 < n ->
  draw t n =
    (deck (reset_and_shuffle t), reset_and_shuffle (reset_and_shuffle t)).
Proof.
  intros Ht Hn. pose proof (Inv_deck_le t Ht) as Hle.
  destruct Ht as [[Hnd Hlen] _].
  rewrite draw_pos by lia. unfold after_removal, before_removal, len.
  destruct (n >? Z.of_nat (length (deck t))) eqn:E; [|lia].
  cbn [deck full_deck rng].
  assert (Z.to_nat n >= length (deck (reset_and_shuffle t)))%nat as Hge.
  { rewrite reset_deck_length. lia. }
  rewrite slice_to_pos, slice_from_pos by lia.
  rewrite take_ge, drop_ge by lia. cbn [length]. done.
Qed.

(** C2, as the code has it: when a call leaves fewer than ten cards, the object
    it returns is a fresh shuffle of the full catalog, the leftovers being
    dropped; the next [draw(m)] then leaves [78 - m] cards for [0 <= m <= 68],
    and 78 again for a larger [m], whose own remainder is below ten. *)
Theorem low_water_reshuffle t n :
  Inv t -> 0 < n -> len (deck (after_removal t n)) < 10 ->
  (draw t n).2 = reset_and_shuffle (after_removal t n) /\
  deck (draw t n).2 ≡ₚ full_deck t /\
  (forall m, 0 <= m <= 68 -> len (deck (draw (draw t n).2 m).2) = 78 - m) /\
  (forall m, 68 < m -> len (deck (draw (draw t n).2 m).2) = 78).
Proof.
  intros Ht Hn Hlow.
  assert ((draw t n).2 = reset_and_shuffle (after_removal t n)) as Hd.
  { rewrite draw_pos by lia. cbn [snd].
    destruct (_ <? 10) eqn:E; [done|lia]. }
  assert (catalog_ok (after_removal t n)) as Hc.
  { destruct Ht as [Hc _]. unfold catalog_ok.
    by rewrite after_removal_full_deck. }
  pose proof (reset_Inv _ Hc) as Hi. rewrite <-Hd in Hi.
  pose proof (reset_deck_length (after_removal t n)) as Hl.
  rewrite <-Hd, after_removal_full_deck in Hl.
  destruct Ht as [[_ Hlen] _]. rewrite Hlen in Hl.
  set (t' := (draw t n).2) in *. split_and!.
  - done.
  - by rewrite Hd, reset_deck_perm, after_removal_full_deck.
  - intros m [Hm0 Hm]. destruct (decide (m = 0)) as [->|Hne].
    { rewrite draw_nonpos by lia. cbn [snd]. unfold len. lia. }
    rewrite draw_pos by lia. cbn [snd].
    assert (before_removal t' m = t') as Hb.
    { unfold before_removal, len. destruct (m >? _) eqn:E; [lia|done]. }
    assert (len (deck (after_removal t' m)) = 78 - m) as Ha.
    { unfold after_removal. rewrite Hb. cbn [deck].
      rewrite slice_from_pos by lia. unfold len. rewrite length_drop. lia. }
    destruct (_ <? 10) eqn:E; [lia|done].
  - intros m Hm.
    assert (len (deck (after_removal t' m)) < 10) as Ha.
    { unfold after_removal. cbn [deck]. rewrite slice_from_pos by lia.
      unfold len. rewrite length_drop.
      pose proof (Inv_deck_le _ (before_removal_Inv t' m Hi)). lia. }
    rewrite draw_pos by lia. cbn [snd].
    destruct (_ <? 10) eqn:E; [|lia].
    unfold len. rewrite reset_deck_length, after_removal_full_deck.
    destruct Hi as [[_ ->] _]. lia.
Qed.

End DrawFacts.

(** ** Epochs *)

Section EpochFacts.
Context {A G : Type} `{RandomSource G}.
Implicit Types (t : Tarot A G) (n m : Z) (ns : list Z).





End EpochFacts.

(** ** The invariant of the two programs *)

(** C10: whatever sequence of public operations a program performs, the deck
    it then holds consists of pairwise distinct cards of the 78-card catalog
    and has at least ten of them; this holds right after the constructor,
    after [reset_and_shuffle] and after [draw], in [riskTarot.py] and in
    [systemsTarot.py]. *)
Theorem deck_never_below_low_water {G : Type} `{RandomSource G} :
  (forall t : RiskTarot.TonysTarot G,
     reachable RiskTarot.catalog t ->
     full_deck t = RiskTarot.catalog /\ length (full_deck t) = 78%nat /\
     NoDup (deck t) /\ deck t ⊆ RiskTarot.catalog /\ (10 <= length (deck t))%nat) /\
  (forall t : SystemsTarot.SystemsTarot G,
     reachable SystemsTarot.catalog t ->
     full_deck t = SystemsTarot.catalog /\ length (full_deck t) = 78%nat /\
     NoDup (deck t) /\ deck t ⊆ SystemsTarot.catalog /\ (10 <= length (deck t))%nat).
Proof.
  split; intros t Hr.
  - assert (full_deck t = RiskTarot.catalog) as Hf.
    { induction Hr; rewrite ?reset_full_deck, ?draw_full_deck;
        auto using construct_full_deck. }
    pose proof (reachable_Inv _ t RiskTarot_catalog_NoDup
                  RiskTarot_catalog_length Hr) as [[_ Hl] (? & ? & ?)].
    rewrite <-Hf. done.
  - assert (full_deck t = SystemsTarot.catalog) as Hf.
    { induction Hr; rewrite ?reset_full_deck, ?draw_full_deck;
        auto using construct_full_deck. }
    pose proof (reachable_Inv _ t SystemsTarot_catalog_NoDup
                  SystemsTarot_catalog_length Hr) as [[_ Hl] (? & ? & ?)].
    rewrite <-Hf. done.
Qed.

(** ** The model at work *)

Lemma example_session_Inv : Inv example_session.
Proof. apply RiskTarot_init_Inv. Defined.

Lemma draw_returns_first_n_witness :
  Inv example_session /\ 0 <= 3 <= 78 /\
  length (draw example_session 3).1 = Z.to_nat 3 /\
  NoDup (draw example_session 3).1 /\
  (draw example_session 3).1 ⊆ full_deck example_session /\
  (draw example_session 3).1
    = take (Z.to_nat 3) (deck (before_removal example_session 3)) /\
  (3 <= len (deck example_session) ->
   (draw example_session 3).1 = take (Z.to_nat 3) (deck example_session)).
Proof.
  split; [apply example_session_Inv|]. split; [lia|].
  apply (draw_returns_first_n example_session 3);
    [apply example_session_Inv | lia].
Defined.

Lemma draw_oversized_returns_catalog_witness :
  Inv example_session /\ 78 < 79 /\
  length (draw example_session 79).1 = 78%nat /\
  NoDup (draw example_session 79).1 /\
  (draw example_session 79).1 ≡ₚ full_deck example_session.
Proof.
  split; [apply example_session_Inv|]. split; [lia|].
  apply (draw_oversized_returns_catalog example_session 79);
    [apply example_session_Inv | lia].
Defined.

(** [draw(79)] returns: the call comes back with 78 cards. *)
Lemma draw_79_returns :
  exists r t', draw example_session 79 = (r, t') /\ length r = 78%nat.
Proof.
  exists (draw example_session 79).1, (draw example_session 79).2.
  split; [by destruct (draw example_session 79)|].
  vm_compute. reflexivity.
Qed.

Lemma draw_oversized_terminates_witness :
  Inv example_session /\ 78 < 79 /\
  draw example_session 79 =
    (deck (reset_and_shuffle example_session),
     reset_and_shuffle (reset_and_shuffle example_session)).
Proof.
  split; [apply example_session_Inv|]. split; [lia|].
  apply (draw_oversized_terminates example_session 79);
    [apply example_session_Inv | lia].
Defined.

(** After [draw(70)] has left 8 cards and the deck was replaced, a second
    [draw(70)] leaves 78 cards, not [78 - 70]. *)
Lemma second_draw_70_leaves_78 :
  len (deck (after_removal example_session 70)) < 10 /\
  len (deck (draw (draw example_session 70).2 70).2) <> 78 - 70.
Proof.
  split.
  - assert (len (deck (after_removal example_session 70)) = 8) as ->
      by (vm_compute; reflexivity). lia.
  - assert (len (deck (draw (draw example_session 70).2 70).2) = 78) as ->
      by (vm_compute; reflexivity). lia.
Qed.

Lemma example_low_water : len (deck (after_removal example_session 70)) < 10.
Proof. vm_compute. reflexivity. Defined.

Lemma low_water_reshuffle_witness :
  Inv example_session /\ 0 < 70 /\
  len (deck (after_removal example_session 70)) < 10 /\
  (draw example_session 70).2
    = reset_and_shuffle (after_removal example_session 70) /\
  deck (draw example_session 70).2 ≡ₚ full_deck example_session /\
  (forall m, 0 <= m <= 68 ->
     len (deck (draw (draw example_session 70).2 m).2) = 78 - m) /\
  (forall m, 68 < m -> len (deck (draw (draw example_session 70).2 m).2) = 78).
Proof.
  split; [apply example_session_Inv|]. split; [lia|].
  split; [apply example_low_water|].
  apply (low_water_reshuffle example_session 70);
    [apply example_session_Inv | lia | apply example_low_water].
Defined.




Lemma deck_never_below_low_water_witness :
  reachable RiskTarot.catalog (draw example_session 3).2 /\
  full_deck (draw example_session 3).2 = RiskTarot.catalog /\
  length (full_deck (draw example_session 3).2) = 78%nat /\
  NoDup (deck (draw example_session 3).2) /\
  deck (draw example_session 3).2 ⊆ RiskTarot.catalog /\
  (10 <= length (deck (draw example_session 3).2))%nat.
Proof.
  assert (reachable RiskTarot.catalog (draw example_session 3).2) as Hr.
  { apply reach_draw. apply reach_init. }
  split; [exact Hr|].
  exact (proj1 (deck_never_below_low_water (G:=Z)) _ Hr).
Defined.

(** ** The shape of the two catalogs *)

(** C6: the catalog a session is built with has exactly 78 cards: 22 cards of
    type Major, each without a rank, and 14 cards in each of the four suits
    Networks, Events, Agents and Resources, whose ranks are 1 to 14, each
    once. This holds for [riskTarot.py] and for [systemsTarot.py]. *)
Theorem catalog_has_78_cards {G : Type} `{RandomSource G} (g : G) :
  catalog_shape RiskTarot.card_type RiskTarot.number RiskTarot.suits
    (full_deck (RiskTarot.__init__ g)) /\
  catalog_shape SystemsTarot.card_type SystemsTarot.number SystemsTarot.suits
    (full_deck (SystemsTarot.__init__ g)).
Proof.
  unfold RiskTarot.__init__, SystemsTarot.__init__.
  rewrite !construct_full_deck.
  split; unfold catalog_shape.
  - split; [reflexivity|]. split; [vm_compute; reflexivity|].
    split; [apply (bool_decide_unpack _); vm_compute; reflexivity|].
    split; [reflexivity|].
    split; [apply (bool_decide_unpack _); vm_compute; reflexivity|].
    split.
    + intros s Hs. unfold RiskTarot.suits in Hs. cbn [fmap list_fmap] in Hs.
      set_unfold in Hs.
      destruct Hs as [->|[->|[->|[->|[]]]]];
        (split; [vm_compute; reflexivity|]);
        match goal with
        | |- ?l ≡ₚ _ => assert (l = Some <$> seqZ 1 14) as ->
                          by (vm_compute; reflexivity)
        end; done.
    + apply (bool_decide_unpack _). vm_compute. reflexivity.
  - split; [reflexivity|]. split; [vm_compute; reflexivity|].
    split; [apply (bool_decide_unpack _); vm_compute; reflexivity|].
    split; [reflexivity|].
    split; [apply (bool_decide_unpack _); vm_compute; reflexivity|].
    split.
    + intros s Hs. unfold SystemsTarot.suits in Hs. cbn [fmap list_fmap] in Hs.
      set_unfold in Hs.
      destruct Hs as [->|[->|[->|[->|[]]]]];
        (split; [vm_compute; reflexivity|]);
        match goal with
        | |- ?l ≡ₚ _ => assert (l = Some <$> seqZ 1 14) as ->
                          by (vm_compute; reflexivity)
        end; done.
    + apply (bool_decide_unpack _). vm_compute. reflexivity.
Qed.

(** ** The prompt files *)

Module PromptFacts.
Import SystemsTarot GeneratePrompts.

Lemma app_cons_s c (s1 s2 : string) : String c s1 +:+ s2 = String c (s1 +:+ s2).
Proof. reflexivity. Qed.

Lemma app_nil_s (s : string) : EmptyString +:+ s = s.
Proof. reflexivity. Qed.

Lemma app_assoc_s (s1 s2 s3 : string) : (s1 +:+ s2) +:+ s3 = s1 +:+ s2 +:+ s3.
Proof.
  induction s1 as [|c s1 IH]; [done|]. by rewrite !app_cons_s, IH.
Qed.

Lemma prefix_app_s (j c : string) : String.prefix j (j +:+ c) = true.
Proof.
  induction j as [|a j IH]; [by destruct c|].
  rewrite app_cons_s. cbn [String.prefix].
  destruct (ascii_dec a a); [done|congruence].
Qed.

Lemma infixb_app (x j c : string) : infixb j (x +:+ j +:+ c) = true.
Proof.
  induction x as [|a x IH].
  - rewrite app_nil_s. destruct (j +:+ c) eqn:E; cbn [infixb];
      rewrite <-E, prefix_app_s; done.
  - rewrite app_cons_s. cbn [infixb]. rewrite IH. apply orb_true_r.
Qed.

(** The loop of [examples_to_visuals] collects the snippets in order. *)
Lemma visuals_loop (acc examples : list string) :
  foldl (fun visuals ex =>
           let parts := split_once ":" ex in
           if (length parts =? 2)%nat
           then visuals ++ [lower (strip is_space (default EmptyString (parts !! 1%nat)))]
           else visuals)
        acc examples
  = acc ++ omap snippet examples.
Proof.
  revert acc. induction examples as [|ex exs IH]; intros acc; cbn [foldl].
  { cbn. by rewrite app_nil_r. }
  rewrite IH. cbn [omap list_omap].
  replace (omap snippet exs) with (list_omap _ _ snippet exs) by done.
  unfold snippet at 2.
  destruct (split_once ":" ex) as [|p1 [|p2 [|p3 ps]]]; cbn; try done.
  by rewrite <-app_assoc.
Qed.

Lemma examples_to_visuals_snippets examples :
  examples_to_visuals examples = join "; " (take 3 (omap snippet examples)).
Proof. unfold examples_to_visuals. by rewrite visuals_loop. Qed.



(** *** Paths *)

Lemma path_join_relative out f :
  starts_with_slash f = false ->
  exists sep, path_join out f = out +:+ sep +:+ f /\
              forall f', starts_with_slash f' = false ->
                         path_join out f' = out +:+ sep +:+ f'.
Proof.
  intros Hf. unfold path_join.
  destruct (bool_decide (out = EmptyString) || ends_with_slash out) eqn:E.
  - exists EmptyString. split.
    + by rewrite Hf, app_nil_s.
    + intros f' ->. by rewrite app_nil_s.
  - exists "/". split; [by rewrite Hf|]. by intros f' ->.
Qed.

Lemma path_join_inj out f1 f2 :
  starts_with_slash f1 = false -> starts_with_slash f2 = false ->
  path_join out f1 = path_join out f2 -> f1 = f2.
Proof.
  intros H1 H2 Heq.
  destruct (path_join_relative out f1 H1) as (sep & E1 & Hsep).
  rewrite E1, (Hsep f2 H2) in Heq.
  by apply (inj (String.app out)), (inj (String.app sep)) in Heq.
Qed.

(** *** What the loops leave in the file map *)

Lemma write_entries_app out es1 es2 m :
  write_entries out (es1 ++ es2) m = write_entries out es2 (write_entries out es1 m).
Proof. unfold write_entries. apply foldl_app. Qed.

Lemma write_entries_cons out f c es m :
  write_entries out ((f, c) :: es) m
  = write_entries out es (<[path_join out f := c]> m).
Proof. reflexivity. Qed.



Lemma major_loop_files out i cards st :
  files (major_loop out i cards st).1
  = write_entries out (major_entries i cards) (files st.1).
Proof.
  revert i st. induction cards as [|card rest IH]; intros i st; [done|].
  cbn [major_loop major_entries]. by rewrite IH.
Qed.

Lemma minor_loop_files out p cards st es :
  minor_entries p cards = Some es ->
  exists st', minor_loop out p cards st = Some st' /\
              files st'.1 = write_entries out es (files st.1).
Proof.
  revert st es. induction cards as [|card rest IH]; intros st es Hes.
  { injection Hes as <-. by exists st. }
  cbn [minor_entries] in Hes. cbn [minor_loop].
  destruct (number card) as [k|]; [|done].
  destruct (minor_entries p rest) as [es'|] eqn:E; [|done].
  injection Hes as <-.
  match goal with
  | |- context [minor_loop out p rest ?s] =>
      destruct (IH s es' eq_refl) as (st' & Hl & Hf)
  end.
  exists st'. split; [exact Hl|]. by rewrite Hf.
Qed.

Lemma suits_loop_files out suits st es :
  suits_entries suits = Some es ->
  exists st', suits_loop out suits st = Some st' /\
              files st'.1 = write_entries out es (files st.1).
Proof.
  revert st es. induction suits as [|[p cards] rest IH]; intros st es Hes.
  { injection Hes as <-. by exists st. }
  cbn [suits_entries] in Hes. cbn [suits_loop].
  destruct (minor_entries p cards) as [es1|] eqn:E1; [|done].
  destruct (suits_entries rest) as [es2|] eqn:E2; [|done].
  injection Hes as <-.
  destruct (minor_loop_files out p cards st es1 E1) as (st1 & -> & Hf1).
  destruct (IH st1 es2 eq_refl) as (st2 & Hl & Hf2).
  exists st2. split; [exact Hl|]. by rewrite Hf2, Hf1, write_entries_app.
Qed.

Lemma print_all_files (generated : list (string * string)) w :
  files (foldl (fun w fn => print ("  " +:+ fn.1 +:+ "  (" +:+ fn.2 +:+ ")") w)
               w generated) = files w.
Proof.
  revert w. induction generated as [|fn rest IH]; intros w; [done|].
  cbn [foldl]. by rewrite IH.
Qed.


(** *** The catalog, by computation *)

Lemma minor_files_as_specified :
  suits_entries [("networks", create_networks_suit);
                 ("events", create_events_suit);
                 ("agents", create_agents_suit);
                 ("resources", create_resources_suit)]
  = mapM minor_entry minor_arcana.
Proof. vm_compute. reflexivity. Qed.

Lemma minor_files_defined : is_Some (mapM minor_entry minor_arcana).
Proof. apply (bool_decide_unpack _). vm_compute. reflexivity. Qed.

Lemma file_names_distinct :
  NoDup (major_entries 1 MAJOR_ARCANA
           ++ default [] (mapM minor_entry minor_arcana)).*1.
Proof. apply (bool_decide_unpack _). vm_compute. reflexivity. Qed.

Lemma file_names_relative :
  Forall (fun e => starts_with_slash e.1 = false)
    (major_entries 1 MAJOR_ARCANA ++ default [] (mapM minor_entry minor_arcana)).
Proof. apply (bool_decide_unpack _). vm_compute. reflexivity. Qed.


(** The texts that [slugify] and [examples_to_visuals] are applied to are
    ASCII, but for one example, whose two accented letters are lower-case
    already and which neither begins nor ends with one. *)
Lemma catalog_text_is_ascii :
  Forall (fun c =>
            is_ascii (name c) = true /\
            Forall (fun ex => is_ascii ex = true \/ ex = "Mentor: Guiding protégé")
                   (examples c))
         SystemsTarot.catalog.
Proof. apply (bool_decide_unpack _). vm_compute. reflexivity. Qed.

(** *** The files of a run *)

Lemma generate_all_files here w :
  exists w' es,
    generate_all here w = Some w' /\
    mapM minor_entry minor_arcana = Some es /\
    files w' = write_entries (OUT_DIR here)
                 (major_entries 1 MAJOR_ARCANA ++ es) (files w).
Proof.
  destruct minor_files_defined as [es Hes].
  pose proof minor_files_as_specified as Hs. rewrite Hes in Hs.
  unfold generate_all. cbv zeta.
  destruct (suits_loop_files (OUT_DIR here) _
              (major_loop (OUT_DIR here) 1 MAJOR_ARCANA (w, [])) es Hs)
    as ([w1 generated] & -> & Hf).
  eexists _, es. split; [reflexivity|]. split; [done|].
  rewrite print_all_files. cbn [files print fst] in *.
  by rewrite Hf, major_loop_files, write_entries_app.
Qed.

(** *** The prompts, as the specification words them *)







End PromptFacts.


(** ** What a call leaves untouched *)

Section ObjectFacts.
Context {A G : Type} `{RandomSource G}.
Implicit Types (p : Process A G) (self : TarotObj) (r : positive) (n : Z).

Lemma untouched_refl p : untouched p p.
Proof. by split_and!. Qed.

Lemma untouched_trans p1 p2 p3 :
  untouched p1 p2 -> untouched p2 p3 -> untouched p1 p3.
Proof.
  intros (Hc1 & Hl1 & Ho1) (Hc2 & Hl2 & Ho2). split_and!; [congruence| |congruence].
  by etrans.
Qed.

Lemma alloc_list_fresh l p : list_objs p !! (alloc_list l p).1 = None.
Proof. cbn. apply not_elem_of_dom, is_fresh. Qed.

Lemma alloc_list_untouched l p : untouched p (alloc_list l p).2.
Proof.
  split_and!; [done| |done]. cbn.
  apply insert_subseteq, not_elem_of_dom, is_fresh.
Qed.

Lemma deref_alloc_new l p : deref (alloc_list l p).2 (alloc_list l p).1 = l.
Proof. unfold deref. cbn. by rewrite lookup_insert_eq. Qed.

Lemma deref_alloc_old l p r :
  is_Some (list_objs p !! r) -> deref (alloc_list l p).2 r = deref p r.
Proof.
  intros [x Hx]. unfold deref. cbn. rewrite lookup_insert_ne; [done|].
  intros <-. pose proof (alloc_list_fresh l p) as Hf. cbn in Hf. congruence.
Qed.

Lemma alloc_list_new_live l p :
  is_Some (list_objs (alloc_list l p).2 !! (alloc_list l p).1).
Proof. cbn. rewrite lookup_insert_eq. by eexists. Qed.

Lemma untouched_live p p' r :
  untouched p p' -> is_Some (list_objs p !! r) -> is_Some (list_objs p' !! r).
Proof.
  intros (_ & Hsub & _) [x Hx]. exists x. by eapply lookup_weaken.
Qed.

Lemma untouched_deref p p' r :
  untouched p p' -> is_Some (list_objs p !! r) -> deref p' r = deref p r.
Proof.
  intros (_ & Hsub & _) [x Hx]. unfold deref.
  by rewrite Hx, (lookup_weaken _ _ _ _ Hx Hsub).
Qed.

(** A reshuffle writes into the list object it has just made, and into no
    other. *)
Lemma reset_obj_untouched self p : untouched p (reset_and_shuffle_obj self p).2.
Proof.
  unfold reset_and_shuffle_obj, shuffle_in_place. cbn.
  destruct (shuffle _ _) as [d g]. split_and!; [done| |done]. cbn.
  rewrite insert_insert_eq. apply insert_subseteq, not_elem_of_dom, is_fresh.
Qed.

Lemma reset_obj_full_deck_ref self p :
  full_deck_ref (reset_and_shuffle_obj self p).1 = full_deck_ref self.
Proof. done. Qed.

Lemma shuffle_in_place_spec r p :
  deref (shuffle_in_place r p) r = (shuffle (deref p r) (random_state p)).1 /\
  random_state (shuffle_in_place r p) = (shuffle (deref p r) (random_state p)).2 /\
  (forall r', r' <> r ->
     list_objs (shuffle_in_place r p) !! r' = list_objs p !! r') /\
  is_Some (list_objs (shuffle_in_place r p) !! r).
Proof.
  unfold shuffle_in_place. destruct (shuffle _ _) as [d g].
  unfold deref. cbn. rewrite lookup_insert_eq. split_and!; [done|done| |by eexists].
  intros r' Hne. by rewrite lookup_insert_ne.
Qed.

Lemma reset_obj_view self p :
  is_Some (list_objs p !! full_deck_ref self) ->
  view (reset_and_shuffle_obj self p).1 (reset_and_shuffle_obj self p).2
    = reset_and_shuffle (view self p) /\
  live (reset_and_shuffle_obj self p).1 (reset_and_shuffle_obj self p).2.
Proof.
  intros Hfd. set (l := deref p (full_deck_ref self)).
  pose proof (alloc_list_fresh l p) as Hfresh.
  pose proof (deref_alloc_new l p) as Hnew.
  pose proof (deref_alloc_old l p _ Hfd) as Hold.
  pose proof (alloc_list_untouched l p) as Hun.
  assert (reset_and_shuffle_obj self p
          = ({| full_deck_ref := full_deck_ref self;
                deck_ref := (alloc_list l p).1 |},
             shuffle_in_place (alloc_list l p).1 (alloc_list l p).2)) as -> by done.
  set (r := (alloc_list l p).1) in *. set (p1 := (alloc_list l p).2) in *.
  assert (full_deck_ref self <> r) as Hne.
  { intros E. rewrite E in Hfd. destruct Hfd as [x Hx]. congruence. }
  destruct (shuffle_in_place_spec r p1) as (Hd & Hg & Hother & Hlive).
  cbn [fst snd]. split.
  - unfold view, reset_and_shuffle. cbn [full_deck_ref deck_ref full_deck deck rng].
    rewrite Hd, Hg, Hnew. fold l.
    assert (deref (shuffle_in_place r p1) (full_deck_ref self) = l) as ->.
    { unfold deref at 1. rewrite (Hother _ Hne). exact Hold. }
    assert (random_state p1 = random_state p) as -> by done.
    by destruct (shuffle l (random_state p)).
  - split; cbn [full_deck_ref deck_ref]; [|done].
    rewrite (Hother _ Hne). by eapply untouched_live.
Qed.

(** The two conditionals of [draw]. *)
Lemma maybe_reset_obj (b : bool) self p :
  live self p ->
  view (if b then reset_and_shuffle_obj self p else (self, p)).1
       (if b then reset_and_shuffle_obj self p else (self, p)).2
    = (if b then reset_and_shuffle (view self p) else view self p) /\
  live (if b then reset_and_shuffle_obj self p else (self, p)).1
       (if b then reset_and_shuffle_obj self p else (self, p)).2 /\
  untouched p (if b then reset_and_shuffle_obj self p else (self, p)).2 /\
  full_deck_ref (if b then reset_and_shuffle_obj self p else (self, p)).1
    = full_deck_ref self.
Proof.
  intros [Hfd Hdk]. destruct b; cbn [fst snd].
  - destruct (reset_obj_view self p Hfd) as [Hv Hl].
    split_and!; [done|done|apply reset_obj_untouched|done].
  - split_and!; [done|by split|apply untouched_refl|done].
Qed.

(** [draw] for a positive request, with its intermediate processes named. *)
Lemma draw_obj_pos self n p :
  0 < n ->
  let sp1 := if n >? len (deref p (deck_ref self))
             then reset_and_shuffle_obj self p else (self, p) in
  let a2 := alloc_list (slice_to (deref sp1.2 (deck_ref sp1.1)) n) sp1.2 in
  let a3 := alloc_list (slice_from (deref a2.2 (deck_ref sp1.1)) n) a2.2 in
  let self2 := {| full_deck_ref := full_deck_ref sp1.1; deck_ref := a3.1 |} in
  let sp4 := if len (deref a3.2 (deck_ref self2)) <? 10
             then reset_and_shuffle_obj self2 a3.2 else (self2, a3.2) in
  draw_obj self n p = (a2.1, sp4.1, sp4.2).
Proof.
  intros Hn. cbv zeta. unfold draw_obj.
  destruct (n <=? 0) eqn:E; [lia|].
  destruct (if n >? len (deref p (deck_ref self))
            then reset_and_shuffle_obj self p else (self, p)) as [self1 p1].
  cbn [fst snd].
  destruct (alloc_list (slice_to (deref p1 (deck_ref self1)) n) p1) as [r2 p2].
  cbn [fst snd].
  destruct (alloc_list (slice_from (deref p2 (deck_ref self1)) n) p2) as [r3 p3].
  cbn [fst snd deck_ref].
  by destruct (if len (deref p3 r3) <? 10 then _ else _).
Qed.

Lemma draw_obj_untouched self n p : untouched p (draw_obj self n p).2.
Proof.
  destruct (Z_le_gt_dec n 0) as [Hn|Hn].
  { unfold draw_obj. destruct (n <=? 0) eqn:E; [|lia].
    apply alloc_list_untouched. }
  rewrite draw_obj_pos by lia. cbn [snd].
  eapply untouched_trans; [|eapply untouched_trans; [|eapply untouched_trans]].
  4:{ destruct (len _ <? 10); [apply reset_obj_untouched|apply untouched_refl]. }
  3: apply alloc_list_untouched.
  2: apply alloc_list_untouched.
  destruct (n >? _); [apply reset_obj_untouched|apply untouched_refl].
Qed.

Lemma draw_obj_full_deck_ref self n p :
  full_deck_ref (draw_obj self n p).1.2 = full_deck_ref self.
Proof.
  destruct (Z_le_gt_dec n 0) as [Hn|Hn].
  { unfold draw_obj. by destruct (n <=? 0) eqn:E; [|lia]. }
  rewrite draw_obj_pos by lia. cbn [fst snd].
  destruct (len _ <? 10); cbn [fst full_deck_ref]; by destruct (n >? _).
Qed.

(** Read through the references, [draw] on the objects is [draw] on the
    values. *)
Lemma draw_obj_view self n p :
  live self p ->
  deref (draw_obj self n p).2 (draw_obj self n p).1.1 = (draw (view self p) n).1 /\
  view (draw_obj self n p).1.2 (draw_obj self n p).2 = (draw (view self p) n).2 /\
  live (draw_obj self n p).1.2 (draw_obj self n p).2.
Proof.
  intros Hlive. destruct (Z_le_gt_dec n 0) as [Hn|Hn].
  { rewrite draw_nonpos by done. unfold draw_obj.
    destruct (n <=? 0) eqn:E; [|lia]. cbn [fst snd].
    pose proof (alloc_list_untouched [] p) as Hun.
    destruct Hlive as [Hfd Hdk]. split_and!.
    - apply deref_alloc_new.
    - unfold view. by rewrite !(untouched_deref _ _ _ Hun).
    - split; by eapply untouched_live.
  }
  rewrite draw_obj_pos, draw_pos by lia. cbn [fst snd].
  set (b1 := n >? len (deref p (deck_ref self))).
  destruct (maybe_reset_obj b1 self p Hlive) as (Hv1 & [Hfd1 Hdk1] & Hun1 & Hr1).
  set (sp1 := if b1 then reset_and_shuffle_obj self p else (self, p)) in *.
  assert (view sp1.1 sp1.2 = before_removal (view self p) n) as Hb by done.
  set (l2 := slice_to (deref sp1.2 (deck_ref sp1.1)) n).
  pose proof (alloc_list_untouched l2 sp1.2) as Hun2.
  pose proof (deref_alloc_new l2 sp1.2) as Hnew2.
  pose proof (alloc_list_new_live l2 sp1.2) as Hlive2.
  set (a2 := alloc_list l2 sp1.2) in *.
  set (l3 := slice_from (deref a2.2 (deck_ref sp1.1)) n).
  pose proof (alloc_list_untouched l3 a2.2) as Hun3.
  pose proof (deref_alloc_new l3 a2.2) as Hnew3.
  pose proof (alloc_list_new_live l3 a2.2) as Hlive3.
  set (a3 := alloc_list l3 a2.2) in *.
  set (self2 := {| full_deck_ref := full_deck_ref sp1.1; deck_ref := a3.1 |}).
  assert (live self2 a3.2) as Hl2.
  { split; cbn [full_deck_ref deck_ref]; [|done].
    eapply untouched_live; [exact Hun3|]. by eapply untouched_live. }
  assert (view self2 a3.2 = after_removal (view self p) n) as Hv2.
  { unfold after_removal. rewrite <-Hb. unfold view, self2.
    cbn [full_deck deck rng full_deck_ref deck_ref]. rewrite Hnew3. unfold l3.
    rewrite (untouched_deref _ _ _ Hun2 Hdk1).
    rewrite (untouched_deref _ _ (full_deck_ref sp1.1) Hun3);
      [|by eapply untouched_live].
    by rewrite (untouched_deref _ _ (full_deck_ref sp1.1) Hun2). }
  assert (len (deref a3.2 (deck_ref self2)) = len (deck (after_removal (view self p) n)))
    as Hlen by (by rewrite <-Hv2).
  rewrite Hlen. set (b4 := len (deck (after_removal (view self p) n)) <? 10).
  destruct (maybe_reset_obj b4 self2 a3.2 Hl2) as (Hv4 & Hl4 & Hun4 & _).
  split_and!.
  - rewrite (untouched_deref _ _ a2.1 Hun4); [|by eapply untouched_live].
    rewrite (untouched_deref _ _ a2.1 Hun3) by done.
    rewrite Hnew2. unfold l2. by rewrite <-Hb.
  - rewrite Hv4, Hv2. by destruct b4.
  - done.
Qed.

End ObjectFacts.

Section GeneratorFacts.
Context {A G : Type} `{RandomSource G}.

(** A call that does not reshuffle does not step the generator. *)
Lemma quiet_draw_rng (t : Tarot A G) (n : Z) :
  reshuffles t n = false -> rng (draw t n).2 = rng t.
Proof.
  intros Hq. destruct (Z_le_gt_dec n 0) as [Hn|Hn]; [by rewrite draw_nonpos|].
  unfold reshuffles in Hq.
  apply andb_false_iff in Hq as [Hq|Hq]; [lia|].
  apply orb_false_iff in Hq as [Hfit Hlow].
  rewrite draw_pos by lia. rewrite Hlow. cbn [snd].
  unfold after_removal, before_removal. by rewrite Hfit.
Qed.

(** [reset_and_shuffle] steps the generator by one shuffle of the catalog. *)
Lemma reset_obj_random_state (self : TarotObj) (p : Process A G) :
  random_state (reset_and_shuffle_obj self p).2
  = (shuffle (deref p (full_deck_ref self)) (random_state p)).2.
Proof.
  set (l := deref p (full_deck_ref self)).
  assert (reset_and_shuffle_obj self p
          = ({| full_deck_ref := full_deck_ref self;
                deck_ref := (alloc_list l p).1 |},
             shuffle_in_place (alloc_list l p).1 (alloc_list l p).2)) as -> by done.
  cbn [snd].
  destruct (shuffle_in_place_spec (alloc_list l p).1 (alloc_list l p).2)
    as (_ & -> & _).
  by rewrite deref_alloc_new.
Qed.

End GeneratorFacts.

(** C8, as the code has it: [draw] and [reset_and_shuffle] change the draw
    order and, when they shuffle, the state of the generator of the [random]
    module, which the whole process shares; they change nothing else. The
    attribute [full_deck] keeps its reference, every [Card] instance keeps its
    fields, every list object that existed before the call (the catalog, the
    previous deck, lists returned earlier) is still there with the same
    content, and nothing is printed or written; the new draw order is a list
    object made by the call. On values, [full_deck] is the same list after the
    call. A [draw] that does not reshuffle leaves the generator as it was, and
    [reset_and_shuffle] leaves it where one shuffle of the catalog does. *)
Theorem draw_touches_only_the_deck {A G : Type} `{RandomSource G}
    (self : TarotObj) (n : Z) (p : Process A G) (t : Tarot A G) :
  (full_deck_ref (draw_obj self n p).1.2 = full_deck_ref self /\
   untouched p (draw_obj self n p).2) /\
  (full_deck_ref (reset_and_shuffle_obj self p).1 = full_deck_ref self /\
   untouched p (reset_and_shuffle_obj self p).2) /\
  (forall cat, list_objs p !! full_deck_ref self = Some cat ->
     list_objs (draw_obj self n p).2 !! full_deck_ref (draw_obj self n p).1.2
       = Some cat /\
     list_objs (reset_and_shuffle_obj self p).2
       !! full_deck_ref (reset_and_shuffle_obj self p).1 = Some cat) /\
  (live self p ->
     view (draw_obj self n p).1.2 (draw_obj self n p).2 = (draw (view self p) n).2) /\
  full_deck (draw t n).2 = full_deck t /\
  full_deck (reset_and_shuffle t) = full_deck t /\
  (live self p -> reshuffles (view self p) n = false ->
     random_state (draw_obj self n p).2 = random_state p) /\
  random_state (reset_and_shuffle_obj self p).2
    = (shuffle (deref p (full_deck_ref self)) (random_state p)).2.
Proof.
  pose proof (draw_obj_untouched self n p) as Hd.
  pose proof (reset_obj_untouched self p) as Hr.
  pose proof (draw_obj_full_deck_ref self n p) as Hfd.
  split_and!; try done.
  - intros cat Hcat. rewrite Hfd, reset_obj_full_deck_ref.
    destruct Hd as (_ & Hd & _), Hr as (_ & Hr & _).
    split; by eapply lookup_weaken.
  - intros Hl. by destruct (draw_obj_view self n p Hl) as (_ & ? & _).
  - apply draw_full_deck.
  - apply reset_full_deck.
  - intros Hl Hq. destruct (draw_obj_view self n p Hl) as (_ & Hv & _).
    apply (f_equal rng) in Hv. cbn [view rng] in Hv.
    rewrite Hv. by rewrite quiet_draw_rng.
  - apply reset_obj_random_state.
Qed.

Lemma example_object_catalog :
  list_objs example_object.2 !! full_deck_ref example_object.1
  = Some (Pos.of_nat <$> seq 1 78).
Proof. vm_compute. reflexivity. Defined.

Lemma example_object_live : live example_object.1 example_object.2.
Proof.
  split; apply (bool_decide_unpack _); vm_compute; reflexivity.
Defined.

(** A [draw] that reshuffles steps the generator that the whole process
    shares: after [draw(79)] the generator is in another state. *)
Lemma draw_steps_the_generator :
  random_state (draw_obj example_object.1 79 example_object.2).2
    <> random_state example_object.2 /\
  rng (draw example_session 79).2 <> rng example_session.
Proof.
  split; intros Heq; vm_compute in Heq; discriminate Heq.
Qed.

Lemma example_object_quiet :
  reshuffles (view example_object.1 example_object.2) 3 = false.
Proof. vm_compute. reflexivity. Defined.

Lemma draw_touches_only_the_deck_witness :
  list_objs example_object.2 !! full_deck_ref example_object.1
    = Some (Pos.of_nat <$> seq 1 78) /\
  live example_object.1 example_object.2 /\
  reshuffles (view example_object.1 example_object.2) 3 = false /\
  list_objs (draw_obj example_object.1 3 example_object.2).2
    !! full_deck_ref (draw_obj example_object.1 3 example_object.2).1.2
    = Some (Pos.of_nat <$> seq 1 78) /\
  view (draw_obj example_object.1 3 example_object.2).1.2
       (draw_obj example_object.1 3 example_object.2).2
    = (draw (view example_object.1 example_object.2) 3).2 /\
  random_state (draw_obj example_object.1 3 example_object.2).2
    = random_state example_object.2.
Proof.
  pose proof (draw_touches_only_the_deck example_object.1 3 example_object.2
                example_session) as (_ & _ & Hcat & Hview & _ & _ & Hquiet & _).
  split; [apply example_object_catalog|].
  split; [apply example_object_live|].
  split; [apply example_object_quiet|].
  split; [|split].
  - apply (Hcat _ example_object_catalog).
  - apply (Hview example_object_live).
  - apply (Hquiet example_object_live example_object_quiet).
Defined.

(** C7: [draw(n)] with [n <= 0] returns the empty list and leaves the object as
    it was, for [n = 0] and for every negative [n] alike; there is no error
    outcome. On the objects: the result is a new empty list, both attributes
    keep their references, the generator is not stepped, and no existing list
    is touched, so the draw order read through [deck] is the same. *)
Theorem draw_nonpositive_noop {A G : Type} `{RandomSource G}
    (t : Tarot A G) (self : TarotObj) (p : Process A G) (n : Z) :
  n <= 0 ->
  draw t n = ([], t) /\
  (draw_obj self n p).1.2 = self /\
  deref (draw_obj self n p).2 (draw_obj self n p).1.1 = [] /\
  random_state (draw_obj self n p).2 = random_state p /\
  list_objs p ⊆ list_objs (draw_obj self n p).2.
Proof.
  intros Hn. split.
  { unfold draw. destruct (n <=? 0) eqn:E; [done|lia]. }
  unfold draw_obj. destruct (n <=? 0) eqn:E; [|lia]. cbn [fst snd].
  split_and!; [done|apply deref_alloc_new|done|].
  apply (alloc_list_untouched [] p).
Qed.

Lemma draw_nonpositive_noop_witness :
  -1 <= 0 /\
  draw example_session (-1) = ([], example_session) /\
  (draw_obj example_object.1 (-1) example_object.2).1.2 = example_object.1 /\
  deref (draw_obj example_object.1 (-1) example_object.2).2
        (draw_obj example_object.1 (-1) example_object.2).1.1 = [] /\
  random_state (draw_obj example_object.1 (-1) example_object.2).2
    = random_state example_object.2 /\
  list_objs example_object.2
    ⊆ list_objs (draw_obj example_object.1 (-1) example_object.2).2.
Proof.
  split; [lia|].
  apply (draw_nonpositive_noop example_session example_object.1
           example_object.2 (-1)). lia.
Defined.

(** ** Methods that print *)

Section ConsoleFacts.
Context {Card G : Type} `{RandomSource G}.
Local Abbreviation St := (@State Card G).
Implicit Types (s : St) (w : GeneratePrompts.Console).

Lemma wrote_refl w : wrote w w.
Proof.
  split; [done|]. exists EmptyString.
  induction (GeneratePrompts.stdout w) as [|c x IH]; [done|].
  by rewrite PromptFacts.app_cons_s, <-IH.
Qed.

Lemma wrote_trans w1 w2 w3 : wrote w1 w2 -> wrote w2 w3 -> wrote w1 w3.
Proof.
  intros [Hf1 [o1 Ho1]] [Hf2 [o2 Ho2]]. split; [congruence|].
  exists (o1 +:+ o2). by rewrite Ho2, Ho1, PromptFacts.app_assoc_s.
Qed.

Lemma wrote_print x w : wrote w (GeneratePrompts.print x w).
Proof. split; [done|]. by exists (x +:+ GeneratePrompts.nl). Qed.

Lemma runs_ret {A} (a : A) s (Q : A -> St -> Prop) :
  Q a s -> runs (mret a) s Q.
Proof. intros HQ. by exists a, s. Qed.

Lemma runs_bind {A B} (c : cmd St A) (f : A -> cmd St B) s
    (Q : B -> St -> Prop) :
  runs c s (fun a s' => runs (f a) s' Q) -> runs (c ≫= f) s Q.
Proof.
  intros (a & s' & Hc & b & s'' & Hf & HQ). exists b, s''. split; [|done].
  unfold mbind, cmd_bind. by rewrite Hc.
Qed.

Lemma runs_mono {A} (c : cmd St A) s (Q Q' : A -> St -> Prop) :
  runs c s Q -> (forall a s', Q a s' -> Q' a s') -> runs c s Q'.
Proof. intros (a & s' & Hc & HQ) Himp. exists a, s'. auto. Qed.

Lemma runs_print x s (Q : unit -> St -> Prop) :
  (forall w', wrote s.2 w' -> Q tt (s.1, w')) -> runs (print x) s Q.
Proof. intros HQ. eexists tt, _. split; [done|]. apply HQ, wrote_print. Qed.

Lemma runs_prompt x s (Q : unit -> St -> Prop) :
  (forall w', wrote s.2 w' -> Q tt (s.1, w')) -> runs (prompt x) s Q.
Proof.
  intros HQ. eexists tt, _. split; [done|]. apply HQ. split; [done|]. by exists x.
Qed.

Lemma runs_self_draw n s (Q : list Card -> St -> Prop) :
  Q (draw s.1 n).1 ((draw s.1 n).2, s.2) -> runs (self_draw n) s Q.
Proof. intros HQ. by eexists _, _. Qed.

Lemma runs_index {A} (l : list A) i x s (Q : A -> St -> Prop) :
  py_index l i = Some x -> Q x s -> runs (index l i) s Q.
Proof. intros Hi HQ. exists x, s. unfold index. by rewrite Hi. Qed.

Lemma runs_as_int k s (Q : Z -> St -> Prop) :
  Q k s -> runs (as_int (Some k)) s Q.
Proof. intros HQ. by exists k, s. Qed.

(** A loop whose body keeps [I] keeps [I]. *)
Lemma runs_for_each {A} (l : list A) (body : A -> cmd St unit)
    (I : St -> Prop) s :
  I s -> (forall x s', x ∈ l -> I s' -> runs (body x) s' (fun _ => I)) ->
  runs (for_each l body) s (fun _ => I).
Proof.
  revert s. induction l as [|x l IH]; intros s Hs Hbody.
  { by apply runs_ret. }
  cbn [for_each]. apply runs_bind.
  eapply runs_mono; [apply (Hbody x s); [by left|done]|].
  intros [] s' Hs'. apply IH; [done|]. intros y s'' Hy. apply Hbody. by right.
Qed.

(** *** Commands that only print *)

Lemma prints_runs (c : cmd St unit) out s :
  prints c out -> runs c s (fun _ s' => s'.1 = s.1 /\ wrote s.2 s'.2).
Proof.
  intros Hc. eexists tt, _. split; [apply Hc|]. split; [done|].
  split; [done|]. by exists out.
Qed.

Lemma prints_print x : prints (print (Card:=Card) (G:=G) x) (x +:+ GeneratePrompts.nl).
Proof. by intros s. Qed.

Lemma app_nil_r_s (x : string) : x +:+ EmptyString = x.
Proof.
  induction x as [|c x IH]; [done|]. by rewrite PromptFacts.app_cons_s, IH.
Qed.

Lemma prints_ret : prints (Card:=Card) (G:=G) (mret tt) EmptyString.
Proof.
  intros [t [o f]]. unfold mret, cmd_ret. cbn. by rewrite app_nil_r_s.
Qed.

Lemma prints_bind (c1 c2 : cmd St unit) o1 o2 :
  prints c1 o1 -> prints c2 o2 -> prints (c1;; c2) (o1 +:+ o2).
Proof.
  intros H1 H2 s. unfold mbind, cmd_bind. rewrite H1, H2. cbn.
  by rewrite PromptFacts.app_assoc_s.
Qed.

Lemma prints_for_each {A} (l : list A) (body : A -> cmd St unit)
    (g : A -> string) :
  (forall x, prints (body x) (g x)) ->
  prints (for_each l body) (GeneratePrompts.join EmptyString (g <$> l) +:+ EmptyString).
Proof.
  intros Hbody. rewrite app_nil_r_s. induction l as [|x l IH]; [apply prints_ret|].
  cbn [for_each]. pose proof (prints_bind _ _ _ _ (Hbody x) IH) as Hp.
  destruct l as [|y l]; [|exact Hp].
  cbn in Hp |- *. by rewrite app_nil_r_s in Hp.
Qed.

End ConsoleFacts.

(** *** Lengths in code points *)

Lemma py_len_app (a b : string) : py_len (a +:+ b) = py_len a + py_len b.
Proof.
  induction a as [|c a IH]; [done|].
  rewrite PromptFacts.app_cons_s. cbn [py_len]. rewrite IH. lia.
Qed.

Lemma py_len_nonneg (a : string) : 0 <= py_len a.
Proof. induction a as [|c a IH]; cbn [py_len]; [done|]. case_match; lia. Qed.

Lemma join_empty_cons (x : string) (l : list string) :
  GeneratePrompts.join EmptyString (x :: l) = x +:+ GeneratePrompts.join EmptyString l.
Proof.
  destruct l as [|y l]; cbn [GeneratePrompts.join]; [by rewrite app_nil_r_s|].
  by rewrite PromptFacts.app_nil_s.
Qed.

Lemma py_len_str_mul (x : string) (k : Z) :
  0 <= k -> py_len (str_mul x k) = k * py_len x.
Proof.
  intros Hk. unfold str_mul. rewrite <-(Z2Nat.id k) at 2 by done.
  induction (Z.to_nat k) as [|n IH]; [done|].
  cbn [replicate]. rewrite join_empty_cons, py_len_app, IH. lia.
Qed.

(** The closing line of a box is as long as its opening line. *)
Lemma box_bottom_len (title rest : string) :
  py_len ("╚" +:+ str_mul "═" (py_len ("╔═══ " +:+ title +:+ rest) - 2) +:+ "╝")
  = py_len ("╔═══ " +:+ title +:+ rest).
Proof.
  pose proof (py_len_nonneg (title +:+ rest)) as Hn.
  rewrite !py_len_app in *. rewrite py_len_str_mul.
  - rewrite ?py_len_app. change (py_len "═") with 1.
    change (py_len "╚") with 1. change (py_len "╝") with 1.
    change (py_len "╔═══ ") with 5. lia.
  - rewrite ?py_len_app. change (py_len "╔═══ ") with 5. lia.
Qed.

Section PrintsMore.
Context {Card G : Type} `{RandomSource G}.
Local Abbreviation St := (@State Card G).

Lemma prints_eq (c : cmd St unit) o o' : prints c o -> o = o' -> prints c o'.
Proof. by intros ? <-. Qed.

Lemma prints_if (b : bool) (c : cmd St unit) o :
  prints c o -> prints (if b then c else mret tt) (if b then o else EmptyString).
Proof. intros Hc. destruct b; [done|apply prints_ret]. Qed.

End PrintsMore.

Ltac prints_step :=
  lazymatch goal with
  | |- prints (print _) _ => apply prints_print
  | |- prints (mret _) _ => apply prints_ret
  | |- prints (if _ then _ else _) _ => eapply prints_if
  | |- prints (for_each ?l (fun x => print (@?a x))) _ =>
      apply (prints_for_each l _ (fun x => a x +:+ GeneratePrompts.nl));
      intros ?; apply prints_print
  | |- prints (mbind _ _) _ => eapply prints_bind
  end.

Module RiskConsoleFacts.
Import RiskTarot RiskTarotConsole.

Section Facts.
Context {G : Type} `{RandomSource G}.
Local Abbreviation St := (@State Card G).

Lemma risk_display_output (card : Card) :
  exists rest middle,
    rest = (if bool_decide (card_type card = "Major")
            then " (Major Arcana) " +:+ "═══════════════════════════════════════════════╗"
            else " " +:+ "══════════════════════════════════════════════╗") /\
    prints (Card:=Card) (G:=G) (display card)
      (("╔═══ " +:+ name card +:+ rest) +:+ GeneratePrompts.nl +:+ middle
         +:+ ("╚" +:+ str_mul "═" (py_len ("╔═══ " +:+ name card +:+ rest) - 2) +:+ "╝")
         +:+ GeneratePrompts.nl).
Proof.
  eexists _, _. split; [reflexivity|].
  unfold display. cbv zeta.
  assert ((if bool_decide (card_type card = "Major")
           then "╔═══ " +:+ name card +:+ " (Major Arcana) " +:+ "═══════════════════════════════════════════════╗"
           else "╔═══ " +:+ name card +:+ " " +:+ "══════════════════════════════════════════════╗")
          = "╔═══ " +:+ name card +:+
            (if bool_decide (card_type card = "Major")
             then " (Major Arcana) " +:+ "═══════════════════════════════════════════════╗"
             else " " +:+ "══════════════════════════════════════════════╗")) as ->
    by (by destruct (bool_decide _)).
  eapply prints_eq.
  { repeat prints_step. }
  lazymatch goal with
  | |- (?h +:+ ?n) +:+ (?o2 +:+ (?o3 +:+ (?o4 +:+ (?o5 +:+ (?o6 +:+ (?b +:+ ?n2))))))
       = _ =>
      transitivity (h +:+ n +:+ (o2 +:+ o3 +:+ o4 +:+ o5 +:+ o6) +:+ b +:+ n2)
  end.
  - by rewrite !PromptFacts.app_assoc_s.
  - reflexivity.
Qed.

End Facts.
End RiskConsoleFacts.

Module SystemsConsoleFacts.
Import SystemsTarot SystemsTarotConsole.

Section Facts.
Context {G : Type} `{RandomSource G}.
Local Abbreviation St := (@State Card G).

Lemma systems_display_output (card : Card) :
  exists rest middle,
    rest = (if bool_decide (card_type card = "Major")
            then " (Major Arcana) ═══════════════════════════════════════════════╗"
            else " ══════════════════════════════════════════════╗") /\
    prints (Card:=Card) (G:=G) (display card)
      (("╔═══ " +:+ name card +:+ rest) +:+ GeneratePrompts.nl +:+ middle
         +:+ ("╚" +:+ str_mul "═" (py_len ("╔═══ " +:+ name card +:+ rest) - 2) +:+ "╝")
         +:+ GeneratePrompts.nl).
Proof.
  eexists _, _. split; [reflexivity|].
  unfold display. cbv zeta.
  assert ((if bool_decide (card_type card = "Major")
           then "╔═══ " +:+ name card +:+ " (Major Arcana) ═══════════════════════════════════════════════╗"
           else "╔═══ " +:+ name card +:+ " ══════════════════════════════════════════════╗")
          = "╔═══ " +:+ name card +:+
            (if bool_decide (card_type card = "Major")
             then " (Major Arcana) ═══════════════════════════════════════════════╗"
             else " ══════════════════════════════════════════════╗")) as ->
    by (by destruct (bool_decide _)).
  eapply prints_eq.
  { repeat prints_step. }
  lazymatch goal with
  | |- (?h +:+ ?n) +:+ (?o2 +:+ (?o3 +:+ (?o4 +:+ (?b +:+ ?n2)))) = _ =>
      transitivity (h +:+ n +:+ (o2 +:+ o3 +:+ o4) +:+ b +:+ n2)
  end.
  - by rewrite !PromptFacts.app_assoc_s.
  - reflexivity.
Qed.

End Facts.
End SystemsConsoleFacts.

(** X1: [Card.display] draws a closed box. It never raises and changes nothing
    but the text printed; what it prints starts with the header line
    [╔═══ name ...╗] and ends with a bottom line [╚═...═╝] that has exactly as
    many characters as the header, whatever the name of the card is. In both
    programs. *)
Theorem display_box_closes {G : Type} `{RandomSource G} :
  (forall card : RiskTarot.Card,
     exists rest middle,
       prints (Card:=RiskTarot.Card) (G:=G) (RiskTarotConsole.display card)
         (("╔═══ " +:+ RiskTarot.name card +:+ rest) +:+ GeneratePrompts.nl
            +:+ middle
            +:+ ("╚" +:+ str_mul "═"
                           (py_len ("╔═══ " +:+ RiskTarot.name card +:+ rest) - 2)
                     +:+ "╝")
            +:+ GeneratePrompts.nl) /\
       py_len ("╚" +:+ str_mul "═"
                         (py_len ("╔═══ " +:+ RiskTarot.name card +:+ rest) - 2)
                   +:+ "╝")
       = py_len ("╔═══ " +:+ RiskTarot.name card +:+ rest)) /\
  (forall card : SystemsTarot.Card,
     exists rest middle,
       prints (Card:=SystemsTarot.Card) (G:=G) (SystemsTarotConsole.display card)
         (("╔═══ " +:+ SystemsTarot.name card +:+ rest) +:+ GeneratePrompts.nl
            +:+ middle
            +:+ ("╚" +:+ str_mul "═"
                           (py_len ("╔═══ " +:+ SystemsTarot.name card +:+ rest) - 2)
                     +:+ "╝")
            +:+ GeneratePrompts.nl) /\
       py_len ("╚" +:+ str_mul "═"
                         (py_len ("╔═══ " +:+ SystemsTarot.name card +:+ rest) - 2)
                   +:+ "╝")
       = py_len ("╔═══ " +:+ SystemsTarot.name card +:+ rest)).
Proof.
  split; intros card.
  - destruct (RiskConsoleFacts.risk_display_output (G:=G) card) as (rest & middle & _ & Hp).
    exists rest, middle. split; [exact Hp|apply box_bottom_len].
  - destruct (SystemsConsoleFacts.systems_display_output (G:=G) card) as (rest & middle & _ & Hp).
    exists rest, middle. split; [exact Hp|apply box_bottom_len].
Qed.

(** ** Readings *)

Section DrawLength.
Context {A G : Type} `{RandomSource G}.

Lemma draw_length (t : Tarot A G) (n : Z) :
  Inv t -> 0 <= n <= 78 -> length (draw t n).1 = Z.to_nat n.
Proof.
  intros Ht [Hn0 Hn]. destruct (decide (n = 0)) as [->|Hne]; [done|].
  rewrite draw_pos by lia. cbn [fst]. rewrite slice_to_pos by lia.
  pose proof (before_removal_enough t n Ht Hn) as Hfit. unfold len in Hfit.
  rewrite length_take. lia.
Qed.

End DrawLength.

(** One step of a method, in a goal [runs c (t, w) Q]; the hypothesis on the
    console is kept up to date. *)
Ltac runs_console_step :=
  let w' := fresh "w" in
  let Hw' := fresh "Hw" in
  intros w' Hw'; cbn [fst snd] in Hw' |- *;
  lazymatch goal with
  | Hw : wrote ?w0 ?w1, Hw2 : wrote ?w1 ?w2 |- _ =>
      let Hn := fresh "Hw" in
      pose proof (wrote_trans _ _ _ Hw Hw2) as Hn; clear Hw Hw2
  | _ => idtac
  end.

Ltac runs_step display_lemma :=
  lazymatch goal with
  | |- runs (mbind _ _) _ _ => apply runs_bind
  | |- runs (print _) _ _ => apply runs_print; runs_console_step
  | |- runs (prompt _) _ _ => apply runs_prompt; runs_console_step
  | |- runs (mret _) _ _ => apply runs_ret
  | |- runs (index _ _) _ _ => eapply runs_index; [reflexivity|]
  | |- runs (self_draw _) _ _ => apply runs_self_draw; cbn [fst snd]
  | |- runs _ _ _ => apply display_lemma; runs_console_step
  end.

Module RiskReadingFacts.
Import RiskTarot RiskTarotConsole.

Section Facts.
Context {G : Type} `{RandomSource G}.
Local Abbreviation St := (@State Card G).

Lemma risk_display_runs (card : Card) (s : St) (Q : unit -> St -> Prop) :
  (forall w', wrote s.2 w' -> Q tt (s.1, w')) -> runs (display card) s Q.
Proof.
  intros HQ. destruct (RiskConsoleFacts.risk_display_output (G:=G) card)
    as (rest & middle & _ & Hp).
  eapply runs_mono; [exact (prints_runs _ _ s Hp)|].
  intros [] [t' w'] [Ht Hw]. cbn in Ht. subst t'. by apply HQ.
Qed.

Lemma risk_reading_runs (spread_type : string) (t : TonysTarot G)
    (w : GeneratePrompts.Console) :
  Inv t ->
  runs (reading spread_type) (t, w)
    (fun _ s' => s'.1 = (draw t (risk_spread_size spread_type)).2 /\ wrote w s'.2).
Proof.
  intros Ht. pose proof (wrote_refl w) as Hw.
  pose proof (fun n Hn => draw_length t n Ht Hn) as Hlen.
  unfold reading, risk_spread_size.
  do 6 runs_step risk_display_runs.
  repeat case_bool_decide.
  all: repeat (runs_step risk_display_runs; []).
  all: try lazymatch goal with
           | Hl : forall n, @?P n -> length (draw ?t0 n).1 = _
             |- context [(draw ?t0 ?n).1] =>
               let Hk := fresh "Hk" in
               pose proof (Hl n ltac:(lia)) as Hk;
               (let k := eval vm_compute in (Z.to_nat n) in
                change (Z.to_nat n) with k in Hk);
               destruct (draw t0 n) as [cards t'] eqn:E; cbn [fst snd] in Hk |- *;
               repeat (destruct cards as [|? cards]; [by (exfalso; cbn in Hk; lia)|]);
               destruct cards; [|by (exfalso; cbn in Hk; lia)]
           end.
  all: repeat (runs_step risk_display_runs; []).
  all: cbn [fst snd]; rewrite ?draw_nonpos by lia; cbn [snd]; by split.
Qed.

End Facts.
End RiskReadingFacts.

Module SystemsReadingFacts.
Import SystemsTarot SystemsTarotConsole.

Section Facts.
Context {G : Type} `{RandomSource G}.
Local Abbreviation St := (@State Card G).

Lemma systems_display_runs (card : Card) (s : St) (Q : unit -> St -> Prop) :
  (forall w', wrote s.2 w' -> Q tt (s.1, w')) -> runs (display card) s Q.
Proof.
  intros HQ. destruct (SystemsConsoleFacts.systems_display_output (G:=G) card)
    as (rest & middle & _ & Hp).
  eapply runs_mono; [exact (prints_runs _ _ s Hp)|].
  intros [] [t' w'] [Ht Hw]. cbn in Ht. subst t'. by apply HQ.
Qed.

Lemma systems_reading_runs (spread_type : string) (t : SystemsTarot G)
    (w : GeneratePrompts.Console) :
  Inv t ->
  runs (reading spread_type) (t, w)
    (fun _ s' => s'.1 = (draw t (systems_spread_size spread_type)).2 /\ wrote w s'.2).
Proof.
  intros Ht. pose proof (wrote_refl w) as Hw.
  pose proof (fun n Hn => draw_length t n Ht Hn) as Hlen.
  unfold reading, systems_spread_size.
  do 6 runs_step systems_display_runs.
  repeat case_bool_decide.
  all: repeat (runs_step systems_display_runs; []).
  all: try lazymatch goal with
           | Hl : forall n, @?P n -> length (draw ?t0 n).1 = _
             |- context [(draw ?t0 ?n).1] =>
               let Hk := fresh "Hk" in
               pose proof (Hl n ltac:(lia)) as Hk;
               (let k := eval vm_compute in (Z.to_nat n) in
                change (Z.to_nat n) with k in Hk);
               destruct (draw t0 n) as [cards t'] eqn:E; cbn [fst snd] in Hk |- *;
               repeat (destruct cards as [|? cards]; [by (exfalso; cbn in Hk; lia)|]);
               destruct cards; [|by (exfalso; cbn in Hk; lia)]
           end.
  all: repeat (runs_step systems_display_runs; []).
  all: cbn [fst snd]; rewrite ?draw_nonpos by lia; cbn [snd]; by split.
Qed.

End Facts.
End SystemsReadingFacts.

(** X2: a reading never fails on an oracle that satisfies the deck invariant.
    Whatever the spread type, [reading] returns without an exception: every
    [cards[i]] it displays exists. The oracle it leaves is the one [draw(k)]
    leaves, [k] being the size of the spread (1, 3, 4, 5 or 6), and for a
    spread type it does not know nothing is drawn and the oracle is as before.
    The invariant holds again afterwards, and the console has only been
    printed to. In both programs. *)
Theorem reading_lays_out_the_spread {G : Type} `{RandomSource G}
    (spread_type : string) (w : GeneratePrompts.Console) :
  (forall t : RiskTarot.TonysTarot G,
     Inv t ->
     exists w',
       RiskTarotConsole.reading spread_type (t, w)
         = Ok (tt, ((draw t (risk_spread_size spread_type)).2, w')) /\
       wrote w w' /\
       Inv (draw t (risk_spread_size spread_type)).2 /\
       (risk_spread_size spread_type = 0 ->
        (draw t (risk_spread_size spread_type)).2 = t)) /\
  (forall t : SystemsTarot.SystemsTarot G,
     Inv t ->
     exists w',
       SystemsTarotConsole.reading spread_type (t, w)
         = Ok (tt, ((draw t (systems_spread_size spread_type)).2, w')) /\
       wrote w w' /\
       Inv (draw t (systems_spread_size spread_type)).2 /\
       (systems_spread_size spread_type = 0 ->
        (draw t (systems_spread_size spread_type)).2 = t)).
Proof.
  split; intros t Ht.
  - destruct (RiskReadingFacts.risk_reading_runs spread_type t w Ht)
      as ([] & [t' w'] & Hrun & Ht' & Hw). cbn [fst snd] in *. subst t'.
    exists w'. split_and!; [done|done|by apply draw_Inv|].
    intros ->. by rewrite draw_nonpos.
  - destruct (SystemsReadingFacts.systems_reading_runs spread_type t w Ht)
      as ([] & [t' w'] & Hrun & Ht' & Hw). cbn [fst snd] in *. subst t'.
    exists w'. split_and!; [done|done|by apply draw_Inv|].
    intros ->. by rewrite draw_nonpos.
Qed.

Lemma reading_lays_out_the_spread_witness :
  Inv example_session /\
  exists w',
    RiskTarotConsole.reading "batcave" (example_session, GeneratePrompts.empty_console)
      = Ok (tt, ((draw example_session (risk_spread_size "batcave")).2, w')) /\
    wrote GeneratePrompts.empty_console w' /\
    Inv (draw example_session (risk_spread_size "batcave")).2 /\
    (risk_spread_size "batcave" = 0 ->
     (draw example_session (risk_spread_size "batcave")).2 = example_session).
Proof.
  split; [apply example_session_Inv|].
  apply (proj1 (reading_lays_out_the_spread (G:=Z) "batcave"
                  GeneratePrompts.empty_console) example_session).
  apply example_session_Inv.
Defined.

(** ** The deck listing *)

Section PrintsLookups.
Context {Card G : Type} `{RandomSource G}.
Local Abbreviation St := (@State Card G).

Lemma prints_index_bind {A} (l : list A) i x (f : A -> cmd St unit) o :
  py_index l i = Some x -> prints (f x) o -> prints (index l i ≫= f) o.
Proof.
  intros Hi Hf s. unfold mbind, cmd_bind, index. rewrite Hi. apply Hf.
Qed.

Lemma prints_as_int_bind k (f : Z -> cmd St unit) o :
  prints (f k) o -> prints (as_int (Some k) ≫= f) o.
Proof. intros Hf s. apply Hf. Qed.

End PrintsLookups.

Ltac listing_step :=
  lazymatch goal with
  | |- prints (print _) _ => apply prints_print
  | |- prints (mret _) _ => apply prints_ret
  | |- prints (for_each [] _) _ => apply prints_ret
  | |- prints (for_each (_ :: _) _) _ => cbn [for_each]
  | |- prints (for_each (seqZ ?a ?b) _) _ =>
      let l := eval vm_compute in (seqZ a b) in change (seqZ a b) with l
  | |- prints (mbind _ (as_int _)) _ => eapply prints_as_int_bind; cbv beta
  | |- prints (mbind _ (index _ _)) _ =>
      eapply prints_index_bind; [reflexivity|cbv beta]
  | |- prints (mbind _ _) _ => eapply prints_bind
  end.

Module RiskListingFacts.
Import RiskTarot RiskTarotConsole.

Section Facts.
Context {G : Type} `{RandomSource G}.

Lemma risk_major_loop_prints :
  exists out,
    prints (Card:=Card) (G:=G)
      (for_each MAJOR_ARCANA (fun card =>
         print ("  • " +:+ name card);;
         print ("    " +:+ pattern card);;
         print EmptyString))
      out /\
    out = GeneratePrompts.join EmptyString
            ((fun card =>
                 "  • " +:+ name card +:+ GeneratePrompts.nl
                 +:+ "    " +:+ pattern card +:+ GeneratePrompts.nl
                 +:+ GeneratePrompts.nl) <$> MAJOR_ARCANA).
Proof.
  eexists. split.
  - apply (prints_for_each _ _
             (fun card =>
                (("  • " +:+ name card) +:+ GeneratePrompts.nl)
                +:+ (("    " +:+ pattern card) +:+ GeneratePrompts.nl)
                +:+ (EmptyString +:+ GeneratePrompts.nl))).
    intros card. cbv beta. repeat listing_step.
  - vm_compute. reflexivity.
Qed.

Lemma risk_list_all_cards_prints :
  exists out,
    prints (Card:=Card) (G:=G) list_all_cards out /\
    bullets out = name <$> catalog.
Proof.
  destruct risk_major_loop_prints as (om & Hm & Hom).
  eexists. split.
  - unfold list_all_cards.
    do 5 (eapply prints_bind; [apply prints_print|]).
    eapply prints_bind; [exact Hm|].
    unfold create_networks_suit, create_events_suit, create_agents_suit,
      create_resources_suit.
    repeat listing_step.
  - subst om. vm_compute. reflexivity.
Qed.

End Facts.
End RiskListingFacts.

Module SystemsListingFacts.
Import SystemsTarot SystemsTarotConsole.

Section Facts.
Context {G : Type} `{RandomSource G}.

Lemma systems_major_loop_prints :
  exists out,
    prints (Card:=Card) (G:=G)
      (for_each MAJOR_ARCANA (fun card =>
         print ("  • " +:+ name card);;
         print ("    " +:+ pattern card);;
         print EmptyString))
      out /\
    out = GeneratePrompts.join EmptyString
            ((fun card =>
                 "  • " +:+ name card +:+ GeneratePrompts.nl
                 +:+ "    " +:+ pattern card +:+ GeneratePrompts.nl
                 +:+ GeneratePrompts.nl) <$> MAJOR_ARCANA).
Proof.
  eexists. split.
  - apply (prints_for_each _ _
             (fun card =>
                (("  • " +:+ name card) +:+ GeneratePrompts.nl)
                +:+ (("    " +:+ pattern card) +:+ GeneratePrompts.nl)
                +:+ (EmptyString +:+ GeneratePrompts.nl))).
    intros card. cbv beta. repeat listing_step.
  - vm_compute. reflexivity.
Qed.

Lemma systems_list_all_cards_prints :
  exists out,
    prints (Card:=Card) (G:=G) list_all_cards out /\
    bullets out = name <$> catalog.
Proof.
  destruct systems_major_loop_prints as (om & Hm & Hom).
  eexists. split.
  - unfold list_all_cards.
    do 5 (eapply prints_bind; [apply prints_print|]).
    eapply prints_bind; [exact Hm|].
    repeat listing_step.
  - subst om. vm_compute. reflexivity.
Qed.

End Facts.
End SystemsListingFacts.

(** X3: the deck listing shows the deck that is drawn from. [list_all_cards]
    never raises (in [riskTarot.py] every rank lookup [ranks[card.number - 1]]
    finds its entry), changes nothing but the text printed, and its bulleted
    lines are the names of the 78 catalog cards, each once, in catalog order;
    in [systemsTarot.py], where the Minor lines are made from the rank table
    alone, they still spell the names of the cards. *)
Theorem listing_shows_the_catalog {G : Type} `{RandomSource G} :
  (exists out,
     prints (Card:=RiskTarot.Card) (G:=G) RiskTarotConsole.list_all_cards out /\
     bullets out = RiskTarot.name <$> RiskTarot.catalog) /\
  (exists out,
     prints (Card:=SystemsTarot.Card) (G:=G) SystemsTarotConsole.list_all_cards out /\
     bullets out = SystemsTarot.name <$> SystemsTarot.catalog).
Proof.
  split.
  - apply RiskListingFacts.risk_list_all_cards_prints.
  - apply SystemsListingFacts.systems_list_all_cards_prints.
Qed.

(** ** Sessions *)

Section SessionRules.
Context {Card G : Type} `{RandomSource G}.
Local Abbreviation St := (@State Card G).

(** What holds of the result of the rest holds of the result of the whole. *)
Lemma bind_run {A B} (c : cmd St A) (f : A -> cmd St B) (s : St)
    (Q : result (B * St) -> Prop) :
  runs c s (fun a s' => Q (f a s')) -> Q ((c ≫= f) s).
Proof.
  intros (a & s' & Hc & HQ). unfold mbind, cmd_bind. by rewrite Hc.
Qed.

Lemma draws_cons_snd (t : Tarot Card G) (n : Z) (ns : list Z) :
  (draws t (n :: ns)).2 = (draws (draw t n).2 ns).2.
Proof.
  cbn [draws]. destruct (draw t n) as [r t1]. cbn [snd].
  by destruct (draws t1 ns).
Qed.

Lemma session_outcome_skip (line x : list N) (rest : list (list N))
    (w : GeneratePrompts.Console) (r : result (unit * St)) :
  py_strip line <> text "7" ->
  session_outcome rest w r -> session_outcome (line :: x :: rest) w r.
Proof.
  intros Hne Hr. unfold session_outcome in *. cbn [exits].
  by rewrite bool_decide_false.
Qed.

End SessionRules.

Ltac session_step :=
  apply bind_run;
  first [ apply runs_print | apply runs_prompt ];
  runs_console_step.

Module RiskSessionFacts.
Import RiskTarot RiskTarotConsole.

Section Facts.
Context {G : Type} `{RandomSource G}.
Local Abbreviation St := (@State Card G).

(** The menu: every choice leaves the invariant in place, and only 7 stops. *)
Lemma risk_choice_runs (choice : list N) (t : TonysTarot G) (w : GeneratePrompts.Console) :
  Inv t ->
  runs (if bool_decide (choice = text "1") then reading "single";; mret false
        else if bool_decide (choice = text "2") then reading "three_card";; mret false
        else if bool_decide (choice = text "3") then reading "decision";; mret false
        else if bool_decide (choice = text "4") then reading "archipelago";; mret false
        else if bool_decide (choice = text "5") then reading "batcave";; mret false
        else if bool_decide (choice = text "6") then list_all_cards;; mret false
        else if bool_decide (choice = text "7") then
          print (GeneratePrompts.nl
                   +:+ "May your systems be resilient and your cascades benign."
                   +:+ GeneratePrompts.nl);; mret true
        else print (GeneratePrompts.nl +:+ "Invalid choice. Try again.");; mret false)
       (t, w)
       (fun stop s' =>
          (stop = true <-> choice = text "7") /\
          s'.1 = (draw t (menu_request choice)).2 /\ Inv s'.1 /\ wrote w s'.2).
Proof.
  intros Ht.
  assert (forall sp, runs (reading sp;; mret false) (t, w)
            (fun stop s' => stop = false /\ s'.1 = (draw t (risk_spread_size sp)).2 /\
                            Inv s'.1 /\ wrote w s'.2)) as Hread.
  { intros sp. apply runs_bind.
    eapply runs_mono; [apply (RiskReadingFacts.risk_reading_runs sp t w Ht)|].
    intros [] [t' w'] [Ht' Hw]. cbn [fst snd] in *. subst t'. apply runs_ret.
    cbn [fst snd]. split_and!; [done|done|by apply draw_Inv|done]. }
  assert (runs (list_all_cards;; mret false) (t, w)
            (fun stop s' => stop = false /\ s'.1 = t /\ Inv s'.1 /\ wrote w s'.2))
    as Hlist.
  { apply runs_bind.
    destruct (RiskListingFacts.risk_list_all_cards_prints (G:=G)) as (out & Hp & _).
    eapply runs_mono; [exact (prints_runs _ _ (t, w) Hp)|].
    intros [] [t' w'] [Ht' Hw]. cbn [fst snd] in *. subst t'.
    apply runs_ret. by split_and!. }
  destruct (decide (choice = text "1")) as [->|H1].
  { eapply runs_mono; [apply Hread|]. intros stop s' (-> & Heq & ? & ?).
    split_and!; [done|exact Heq|done|done]. }
  rewrite (bool_decide_false _ H1).
  destruct (decide (choice = text "2")) as [->|H2].
  { eapply runs_mono; [apply Hread|]. intros stop s' (-> & Heq & ? & ?).
    split_and!; [done|exact Heq|done|done]. }
  rewrite (bool_decide_false _ H2).
  destruct (decide (choice = text "3")) as [->|H3].
  { eapply runs_mono; [apply Hread|]. intros stop s' (-> & Heq & ? & ?).
    split_and!; [done|exact Heq|done|done]. }
  rewrite (bool_decide_false _ H3).
  destruct (decide (choice = text "4")) as [->|H4].
  { eapply runs_mono; [apply Hread|]. intros stop s' (-> & Heq & ? & ?).
    split_and!; [done|exact Heq|done|done]. }
  rewrite (bool_decide_false _ H4).
  destruct (decide (choice = text "5")) as [->|H5].
  { eapply runs_mono; [apply Hread|]. intros stop s' (-> & Heq & ? & ?).
    split_and!; [done|exact Heq|done|done]. }
  rewrite (bool_decide_false _ H5).
  destruct (decide (choice = text "6")) as [->|H6].
  { eapply runs_mono; [apply Hlist|]. intros stop s' (-> & Heq & ? & ?).
    split_and!; [done|exact Heq|done|done]. }
  rewrite (bool_decide_false _ H6).
  destruct (decide (choice = text "7")) as [->|H7].
  { apply runs_bind, runs_print. intros w' Hw. by apply runs_ret. }
  rewrite (bool_decide_false _ H7).
  apply runs_bind, runs_print. intros w' Hw. apply runs_ret.
  unfold menu_request. rewrite !bool_decide_false by done. by split_and!.
Qed.

Lemma risk_main_loop_outcome (n : nat) :
  forall (inputs : list (list N)) (t : TonysTarot G) (w w0 : GeneratePrompts.Console),
    (length inputs < n)%nat -> Inv t -> wrote w w0 ->
    session_outcome inputs w (main_loop inputs (t, w0)).
Proof.
  induction n as [|n IH]; intros inputs t w w0 Hn Ht Hw; [lia|].
  destruct inputs as [|line rest]; cbn [main_loop].
  { do 9 session_step. by split. }
  do 9 session_step. cbv zeta.
  set (choice := py_strip line).
  apply bind_run.
  eapply runs_mono; [apply (risk_choice_runs choice t _ Ht)|].
  intros stop [t' w'] (Hstop & _ & Ht' & Hw'). cbn [fst snd] in *.
  lazymatch goal with
  | Hx : wrote w ?wc |- _ =>
      pose proof (wrote_trans _ _ _ Hx Hw') as Hwrote; clear Hx Hw'
  end.
  destruct stop.
  { unfold session_outcome, mret, cmd_ret. cbn [exits]. fold choice.
    rewrite bool_decide_true by (by apply Hstop). by split_and!. }
  assert (choice <> text "7") as Hc by (intros E; by apply Hstop in E).
  session_step.
  destruct rest as [|x rest'].
  { unfold session_outcome, raise. cbn [exits]. fold choice.
    by rewrite bool_decide_false. }
  apply session_outcome_skip; [done|].
  apply (IH rest' t' w); [cbn in Hn; lia|done|done].
Qed.

Lemma risk_main_outcome (g : G) (inputs : list (list N)) (w : GeneratePrompts.Console) :
  session_outcome inputs w (main g inputs w).
Proof.
  unfold main. pose proof (wrote_refl w) as Hw. session_step.
  apply (risk_main_loop_outcome (S (length inputs))); [lia| |done].
  apply RiskTarot_init_Inv.
Qed.

(** The oracle a session ends with is the one its requests leave. *)
Lemma risk_main_loop_oracle (n : nat) :
  forall (inputs : list (list N)) (t : TonysTarot G) (w0 : GeneratePrompts.Console),
    (length inputs < n)%nat -> Inv t ->
    ends_with (draws t (requests inputs)).2 (main_loop inputs (t, w0)).
Proof.
  induction n as [|n IH]; intros inputs t w0 Hn Ht; [lia|].
  pose proof (wrote_refl w0) as Hw.
  destruct inputs as [|line rest]; cbn [main_loop].
  { do 9 session_step. done. }
  do 9 session_step. cbv zeta.
  set (choice := py_strip line).
  apply bind_run.
  eapply runs_mono; [apply (risk_choice_runs choice t _ Ht)|].
  intros stop [t' w'] (Hstop & Heq & Ht' & Hw'). cbn [fst snd] in *.
  destruct stop.
  { unfold ends_with, mret, cmd_ret. cbn [requests]. fold choice.
    rewrite bool_decide_true by (by apply Hstop). cbn [draws snd].
    rewrite Heq, (proj1 Hstop eq_refl). reflexivity. }
  assert (choice <> text "7") as Hc by (intros E; by apply Hstop in E).
  session_step.
  destruct rest as [|x rest']; [done|].
  cbn [requests]. fold choice. rewrite bool_decide_false by done.
  rewrite draws_cons_snd, <-Heq.
  apply (IH rest' t'); [cbn in Hn; lia|done].
Qed.

Lemma risk_main_oracle (g : G) (inputs : list (list N)) (w : GeneratePrompts.Console) :
  ends_with (draws (__init__ g) (requests inputs)).2 (main g inputs w).
Proof.
  unfold main. pose proof (wrote_refl w) as Hw. session_step.
  apply (risk_main_loop_oracle (S (length inputs))); [lia|].
  apply RiskTarot_init_Inv.
Qed.

End Facts.
End RiskSessionFacts.

Module SystemsSessionFacts.
Import SystemsTarot SystemsTarotConsole.

Section Facts.
Context {G : Type} `{RandomSource G}.
Local Abbreviation St := (@State Card G).

(** The menu: every choice leaves the invariant in place, and only 7 stops. *)
Lemma systems_choice_runs (choice : list N) (t : SystemsTarot G) (w : GeneratePrompts.Console) :
  Inv t ->
  runs (if bool_decide (choice = text "1") then reading "single";; mret false
        else if bool_decide (choice = text "2") then reading "three_card";; mret false
        else if bool_decide (choice = text "3") then reading "decision";; mret false
        else if bool_decide (choice = text "4") then reading "system";; mret false
        else if bool_decide (choice = text "5") then reading "threat";; mret false
        else if bool_decide (choice = text "6") then list_all_cards;; mret false
        else if bool_decide (choice = text "7") then
          print (GeneratePrompts.nl
                   +:+ "May your systems be resilient and your patterns generative."
                   +:+ GeneratePrompts.nl);; mret true
        else print (GeneratePrompts.nl +:+ "Invalid choice. Try again.");; mret false)
       (t, w)
       (fun stop s' =>
          (stop = true <-> choice = text "7") /\
          s'.1 = (draw t (menu_request choice)).2 /\ Inv s'.1 /\ wrote w s'.2).
Proof.
  intros Ht.
  assert (forall sp, runs (reading sp;; mret false) (t, w)
            (fun stop s' => stop = false /\ s'.1 = (draw t (systems_spread_size sp)).2 /\
                            Inv s'.1 /\ wrote w s'.2)) as Hread.
  { intros sp. apply runs_bind.
    eapply runs_mono; [apply (SystemsReadingFacts.systems_reading_runs sp t w Ht)|].
    intros [] [t' w'] [Ht' Hw]. cbn [fst snd] in *. subst t'. apply runs_ret.
    cbn [fst snd]. split_and!; [done|done|by apply draw_Inv|done]. }
  assert (runs (list_all_cards;; mret false) (t, w)
            (fun stop s' => stop = false /\ s'.1 = t /\ Inv s'.1 /\ wrote w s'.2))
    as Hlist.
  { apply runs_bind.
    destruct (SystemsListingFacts.systems_list_all_cards_prints (G:=G)) as (out & Hp & _).
    eapply runs_mono; [exact (prints_runs _ _ (t, w) Hp)|].
    intros [] [t' w'] [Ht' Hw]. cbn [fst snd] in *. subst t'.
    apply runs_ret. by split_and!. }
  destruct (decide (choice = text "1")) as [->|H1].
  { eapply runs_mono; [apply Hread|]. intros stop s' (-> & Heq & ? & ?).
    split_and!; [done|exact Heq|done|done]. }
  rewrite (bool_decide_false _ H1).
  destruct (decide (choice = text "2")) as [->|H2].
  { eapply runs_mono; [apply Hread|]. intros stop s' (-> & Heq & ? & ?).
    split_and!; [done|exact Heq|done|done]. }
  rewrite (bool_decide_false _ H2).
  destruct (decide (choice = text "3")) as [->|H3].
  { eapply runs_mono; [apply Hread|]. intros stop s' (-> & Heq & ? & ?).
    split_and!; [done|exact Heq|done|done]. }
  rewrite (bool_decide_false _ H3).
  destruct (decide (choice = text "4")) as [->|H4].
  { eapply runs_mono; [apply Hread|]. intros stop s' (-> & Heq & ? & ?).
    split_and!; [done|exact Heq|done|done]. }
  rewrite (bool_decide_false _ H4).
  destruct (decide (choice = text "5")) as [->|H5].
  { eapply runs_mono; [apply Hread|]. intros stop s' (-> & Heq & ? & ?).
    split_and!; [done|exact Heq|done|done]. }
  rewrite (bool_decide_false _ H5).
  destruct (decide (choice = text "6")) as [->|H6].
  { eapply runs_mono; [apply Hlist|]. intros stop s' (-> & Heq & ? & ?).
    split_and!; [done|exact Heq|done|done]. }
  rewrite (bool_decide_false _ H6).
  destruct (decide (choice = text "7")) as [->|H7].
  { apply runs_bind, runs_print. intros w' Hw. by apply runs_ret. }
  rewrite (bool_decide_false _ H7).
  apply runs_bind, runs_print. intros w' Hw. apply runs_ret.
  unfold menu_request. rewrite !bool_decide_false by done. by split_and!.
Qed.

Lemma systems_main_loop_outcome (n : nat) :
  forall (inputs : list (list N)) (t : SystemsTarot G) (w w0 : GeneratePrompts.Console),
    (length inputs < n)%nat -> Inv t -> wrote w w0 ->
    session_outcome inputs w (main_loop inputs (t, w0)).
Proof.
  induction n as [|n IH]; intros inputs t w w0 Hn Ht Hw; [lia|].
  destruct inputs as [|line rest]; cbn [main_loop].
  { do 9 session_step. by split. }
  do 9 session_step. cbv zeta.
  set (choice := py_strip line).
  apply bind_run.
  eapply runs_mono; [apply (systems_choice_runs choice t _ Ht)|].
  intros stop [t' w'] (Hstop & _ & Ht' & Hw'). cbn [fst snd] in *.
  lazymatch goal with
  | Hx : wrote w ?wc |- _ =>
      pose proof (wrote_trans _ _ _ Hx Hw') as Hwrote; clear Hx Hw'
  end.
  destruct stop.
  { unfold session_outcome, mret, cmd_ret. cbn [exits]. fold choice.
    rewrite bool_decide_true by (by apply Hstop). by split_and!. }
  assert (choice <> text "7") as Hc by (intros E; by apply Hstop in E).
  session_step.
  destruct rest as [|x rest'].
  { unfold session_outcome, raise. cbn [exits]. fold choice.
    by rewrite bool_decide_false. }
  apply session_outcome_skip; [done|].
  apply (IH rest' t' w); [cbn in Hn; lia|done|done].
Qed.

Lemma systems_main_outcome (g : G) (inputs : list (list N)) (w : GeneratePrompts.Console) :
  session_outcome inputs w (main g inputs w).
Proof.
  unfold main. pose proof (wrote_refl w) as Hw. session_step.
  apply (systems_main_loop_outcome (S (length inputs))); [lia| |done].
  apply SystemsTarot_init_Inv.
Qed.

(** The oracle a session ends with is the one its requests leave. *)
Lemma systems_main_loop_oracle (n : nat) :
  forall (inputs : list (list N)) (t : SystemsTarot G) (w0 : GeneratePrompts.Console),
    (length inputs < n)%nat -> Inv t ->
    ends_with (draws t (requests inputs)).2 (main_loop inputs (t, w0)).
Proof.
  induction n as [|n IH]; intros inputs t w0 Hn Ht; [lia|].
  pose proof (wrote_refl w0) as Hw.
  destruct inputs as [|line rest]; cbn [main_loop].
  { do 9 session_step. done. }
  do 9 session_step. cbv zeta.
  set (choice := py_strip line).
  apply bind_run.
  eapply runs_mono; [apply (systems_choice_runs choice t _ Ht)|].
  intros stop [t' w'] (Hstop & Heq & Ht' & Hw'). cbn [fst snd] in *.
  destruct stop.
  { unfold ends_with, mret, cmd_ret. cbn [requests]. fold choice.
    rewrite bool_decide_true by (by apply Hstop). cbn [draws snd].
    rewrite Heq, (proj1 Hstop eq_refl). reflexivity. }
  assert (choice <> text "7") as Hc by (intros E; by apply Hstop in E).
  session_step.
  destruct rest as [|x rest']; [done|].
  cbn [requests]. fold choice. rewrite bool_decide_false by done.
  rewrite draws_cons_snd, <-Heq.
  apply (IH rest' t'); [cbn in Hn; lia|done].
Qed.

Lemma systems_main_oracle (g : G) (inputs : list (list N)) (w : GeneratePrompts.Console) :
  ends_with (draws (__init__ g) (requests inputs)).2 (main g inputs w).
Proof.
  unfold main. pose proof (wrote_refl w) as Hw. session_step.
  apply (systems_main_loop_oracle (S (length inputs))); [lia|].
  apply SystemsTarot_init_Inv.
Qed.

End Facts.
End SystemsSessionFacts.

(** X4: how a session of [main] ends. The lines typed at positions 0, 2, 4, ...
    are the menu choices. If one of them is 7, with nothing but the whitespace
    that [str.strip] removes around it (ASCII or not), before the lines run
    out, [main] returns; its oracle then satisfies the deck
    invariant, whatever readings and listings were asked for and whatever else
    was typed, and the console was only printed to. Otherwise [main] ends in
    the EOFError of [input]; no reading can make it end in an IndexError. In
    both programs. *)
Theorem sessions_end_well {G : Type} `{RandomSource G}
    (g : G) (inputs : list (list N)) (w : GeneratePrompts.Console) :
  (exits inputs = true ->
   (exists t' w', RiskTarotConsole.main g inputs w = Ok (tt, (t', w')) /\
                  Inv t' /\ wrote w w') /\
   (exists t' w', SystemsTarotConsole.main g inputs w = Ok (tt, (t', w')) /\
                  Inv t' /\ wrote w w')) /\
  (exits inputs = false ->
   RiskTarotConsole.main g inputs w = Raise EOFError /\
   SystemsTarotConsole.main g inputs w = Raise EOFError).
Proof.
  pose proof (RiskSessionFacts.risk_main_outcome g inputs w) as Hr.
  pose proof (SystemsSessionFacts.systems_main_outcome g inputs w) as Hs.
  unfold session_outcome in *.
  destruct (RiskTarotConsole.main g inputs w) as [[[] [tr wr]]|er];
    destruct (SystemsTarotConsole.main g inputs w) as [[[] [ts ws]]|es].
  - destruct Hr as (Hx & ? & ?), Hs as (_ & ? & ?).
    split; [|intros E; congruence]. intros _. split; by eexists _, _.
  - destruct Hr as (Hx & _), Hs as (Hy & _). congruence.
  - destruct Hr as (Hx & _), Hs as (Hy & _). congruence.
  - destruct Hr as (Hx & ->), Hs as (_ & ->).
    split; [intros E; congruence|done].
Qed.

Lemma sessions_end_well_witness :
  exits [text "1"; []; [160; 55; 8195]%N] = true /\
  exits [text "1"; []; text "2"] = false /\
  (exists t' w',
     RiskTarotConsole.main 42 [text "1"; []; [160; 55; 8195]%N]
       GeneratePrompts.empty_console
       = Ok (tt, (t', w')) /\
     Inv t' /\ wrote GeneratePrompts.empty_console w') /\
  SystemsTarotConsole.main 42 [text "1"; []; text "2"] GeneratePrompts.empty_console
    = Raise EOFError.
Proof.
  split; [reflexivity|]. split; [reflexivity|]. split.
  - apply (proj1 (sessions_end_well (G:=Z) 42 [text "1"; []; [160; 55; 8195]%N]
                    GeneratePrompts.empty_console)). reflexivity.
  - apply (proj2 (sessions_end_well (G:=Z) 42 [text "1"; []; text "2"]
                    GeneratePrompts.empty_console)). reflexivity.
Defined.

(** X5: the oracle a session ends with. When [main] returns, its oracle is the
    one that the constructor followed by one [draw] for each choice made before
    the 7 leaves, in the order of the choices: 1, 3, 4, 5 and 6 cards for the
    choices 1 to 5, and none for the listing and for a choice the menu does
    not know. Nothing else in a session touches the deck. In both programs. *)
Theorem session_deck_follows_the_choices {G : Type} `{RandomSource G}
    (g : G) (inputs : list (list N)) (w : GeneratePrompts.Console) :
  exits inputs = true ->
  (exists w',
     RiskTarotConsole.main g inputs w
     = Ok (tt, ((draws (RiskTarot.__init__ g) (requests inputs)).2, w'))) /\
  (exists w',
     SystemsTarotConsole.main g inputs w
     = Ok (tt, ((draws (SystemsTarot.__init__ g) (requests inputs)).2, w'))).
Proof.
  intros Hx.
  pose proof (RiskSessionFacts.risk_main_outcome g inputs w) as Hr.
  pose proof (SystemsSessionFacts.systems_main_outcome g inputs w) as Hs.
  pose proof (RiskSessionFacts.risk_main_oracle g inputs w) as Hro.
  pose proof (SystemsSessionFacts.systems_main_oracle g inputs w) as Hso.
  unfold session_outcome, ends_with in *.
  destruct (RiskTarotConsole.main g inputs w) as [[[] [tr wr]]|er];
    [|destruct Hr; congruence].
  destruct (SystemsTarotConsole.main g inputs w) as [[[] [ts ws]]|es];
    [|destruct Hs; congruence].
  subst tr ts. split; by eexists.
Qed.

Lemma session_deck_follows_the_choices_witness :
  exits [[160; 50]%N; []; text "x"; []; text "5"; []; text " 7 "] = true /\
  requests [[160; 50]%N; []; text "x"; []; text "5"; []; text " 7 "] = [3; 0; 6] /\
  exists w',
    RiskTarotConsole.main 42
      [[160; 50]%N; []; text "x"; []; text "5"; []; text " 7 "]
      GeneratePrompts.empty_console
    = Ok (tt, ((draws (RiskTarot.__init__ 42)
                  (requests [[160; 50]%N; []; text "x"; []; text "5"; [];
                             text " 7 "])).2, w')).
Proof.
  split; [reflexivity|]. split; [reflexivity|].
  apply (proj1 (session_deck_follows_the_choices (G:=Z) 42
                  [[160; 50]%N; []; text "x"; []; text "5"; []; text " 7 "]
                  GeneratePrompts.empty_console eq_refl)).
Defined.

(** ** Slugs *)

Module SlugFacts.
Import GeneratePrompts.

Local Abbreviation us := (fun c : ascii => bool_decide (c = "_"%char)).

Lemma slug_char_not_us c : is_slug_char c = true -> c <> "_"%char.
Proof. intros Hc ->. by vm_compute in Hc. Qed.

Lemma sub_runs_groups b s : slug_groups b (sub_runs b s) = true.
Proof.
  revert b. induction s as [|c s IH]; intros b; [done|].
  cbn [sub_runs]. destruct (is_slug_char c) eqn:Hc.
  - cbn [slug_groups]. by rewrite Hc.
  - destruct b; [apply IH|].
    cbn [slug_groups]. change (is_slug_char "_") with false.
    rewrite bool_decide_true by done. cbn. apply IH.
Qed.

Lemma slug_groups_weaken b s : slug_groups b s = true -> slug_groups false s = true.
Proof.
  destruct s as [|c s]; [done|]. cbn [slug_groups].
  destruct (is_slug_char c); [done|]. case_bool_decide; [|done].
  destruct b; [done|]. done.
Qed.

(** Leading underscores off: no underscore may come first. *)
Lemma lstrip_groups s :
  slug_groups false s = true -> slug_groups true (lstrip us s) = true.
Proof.
  induction s as [|c s IH]; [done|]. cbn [slug_groups lstrip].
  destruct (is_slug_char c) eqn:Hc.
  - intros Hs. rewrite bool_decide_false by by apply slug_char_not_us.
    cbn [slug_groups]. by rewrite Hc.
  - case_bool_decide as Hu; [|done]. cbn. intros Hs.
    apply IH. by eapply slug_groups_weaken.
Qed.

Lemma rstrip_groups b s :
  slug_groups b s = true -> slug_groups b (rstrip us s) = true.
Proof.
  revert b. induction s as [|c s IH]; intros b; [done|].
  cbn [slug_groups rstrip]. destruct (is_slug_char c) eqn:Hc.
  - intros Hs. specialize (IH false Hs).
    destruct (rstrip us s) as [|c' r] eqn:Hr.
    + rewrite bool_decide_false by by apply slug_char_not_us.
      cbn [slug_groups]. by rewrite Hc.
    + cbn [slug_groups] in IH |- *. by rewrite Hc.
  - case_bool_decide as Hu; [|done]. destruct b; [done|]. cbn. intros Hs.
    specialize (IH true Hs).
    destruct (rstrip us s) as [|c' r] eqn:Hr; [done|].
    cbn [slug_groups] in IH |- *. rewrite Hc, bool_decide_true by done. done.
Qed.

Lemma rstrip_last s : last_char (rstrip us s) <> Some "_"%char.
Proof.
  induction s as [|c s IH]; [done|]. cbn [rstrip].
  destruct (rstrip us s) as [|c' r] eqn:Hr.
  - case_bool_decide as Hu; [done|]. cbn. congruence.
  - exact IH.
Qed.

Lemma slugify_groups text : slug_groups true (slugify text) = true.
Proof.
  unfold slugify, strip. apply rstrip_groups, lstrip_groups.
  eapply slug_groups_weaken, sub_runs_groups.
Qed.

Lemma slugify_last text : last_char (slugify text) <> Some "_"%char.
Proof. unfold slugify, strip. apply rstrip_last. Qed.

(** What the grouping says in plain terms. *)
Lemma groups_chars b s :
  slug_groups b s = true ->
  all_chars (fun c => is_slug_char c || bool_decide (c = "_"%char)) s = true.
Proof.
  revert b. induction s as [|c s IH]; intros b; [done|].
  cbn [slug_groups all_chars]. destruct (is_slug_char c); [apply IH|].
  case_bool_decide; [|done]. intros [_ Hs]%andb_true_iff. cbn. by eapply IH.
Qed.

Lemma groups_no_first s :
  slug_groups true s = true -> String.prefix "_" s = false.
Proof.
  destruct s as [|c s]; [done|]. cbn [slug_groups String.prefix].
  destruct (is_slug_char c) eqn:Hc.
  - intros _. destruct (ascii_dec "_" c) as [<-|]; [by vm_compute in Hc|done].
  - case_bool_decide; done.
Qed.

Lemma groups_no_double b s :
  slug_groups b s = true -> infixb "__" s = false.
Proof.
  revert b. induction s as [|c s IH]; intros b; [done|].
  cbn [slug_groups]. intros Hs. cbn [infixb String.prefix].
  assert (infixb "__" s = false) as ->.
  { destruct (is_slug_char c); [by eapply IH|].
    case_bool_decide; [|done]. apply andb_true_iff in Hs as [_ Hs]. by eapply IH. }
  rewrite orb_false_r.
  destruct (ascii_dec "_" c) as [<-|]; [|done].
  change (is_slug_char "_") with false in Hs.
  rewrite bool_decide_true in Hs by done. apply andb_true_iff in Hs as [_ Hs].
  by apply groups_no_first.
Qed.

(** A text that already is a slug is left as it is. *)
Lemma lower_slug b s : slug_groups b s = true -> lower s = s.
Proof.
  revert b. induction s as [|c s IH]; intros b; [done|].
  cbn [slug_groups lower]. intros Hs.
  assert (lower_char c = c) as ->.
  { destruct (is_slug_char c) eqn:Hc.
    - unfold lower_char, is_slug_char in *. cbv zeta in *.
      destruct ((65 <=? N_of_ascii c)%N && (N_of_ascii c <=? 90)%N) eqn:E; [|done].
      apply andb_true_iff in E as [E1 E2]. apply N.leb_le in E1, E2.
      apply orb_true_iff in Hc as [Hc|Hc];
        apply andb_true_iff in Hc as [H1 H2]; apply N.leb_le in H1, H2; lia.
    - case_bool_decide as Hu; [|done]. by subst c. }
  f_equal. destruct (is_slug_char c); [by eapply IH|].
  case_bool_decide; [|done]. apply andb_true_iff in Hs as [_ Hs]. by eapply IH.
Qed.

Lemma sub_runs_slug b s : slug_groups b s = true -> sub_runs b s = s.
Proof.
  revert b. induction s as [|c s IH]; intros b; [done|].
  cbn [slug_groups sub_runs]. destruct (is_slug_char c); [intros Hs; f_equal; by apply IH|].
  case_bool_decide; [|done]. destruct b; [done|]. cbn. intros Hs.
  f_equal; [done|by apply IH].
Qed.

Lemma lstrip_slug s : slug_groups true s = true -> lstrip us s = s.
Proof.
  destruct s as [|c s]; [done|]. cbn [slug_groups lstrip].
  destruct (is_slug_char c) eqn:Hc; [|by case_bool_decide].
  intros _. by rewrite bool_decide_false by by apply slug_char_not_us.
Qed.

Lemma rstrip_slug s : last_char s <> Some "_"%char -> rstrip us s = s.
Proof.
  induction s as [|c s IH]; [done|]. cbn [rstrip last_char]. intros Hl.
  destruct s as [|c' s'].
  - cbn [rstrip]. case_bool_decide as Hu; [by subst c|done].
  - rewrite IH by done. done.
Qed.

End SlugFacts.

(** X6: a slug is safe as part of a file name. For an ASCII text, [slugify]
    returns only lower-case letters, digits and underscores; the result
    neither begins nor ends with an underscore and has no two underscores in a
    row (so a text without letters and digits gives the empty slug). *)
Theorem slugify_is_file_name_safe (text : string) :
  GeneratePrompts.is_ascii text = true ->
  all_chars (fun c => GeneratePrompts.is_slug_char c || bool_decide (c = "_"%char))
    (GeneratePrompts.slugify text) = true /\
  String.prefix "_" (GeneratePrompts.slugify text) = false /\
  last_char (GeneratePrompts.slugify text) <> Some "_"%char /\
  GeneratePrompts.infixb "__" (GeneratePrompts.slugify text) = false.
Proof.
  intros _. pose proof (SlugFacts.slugify_groups text) as Hg. split_and!.
  - by eapply SlugFacts.groups_chars.
  - by apply SlugFacts.groups_no_first.
  - apply SlugFacts.slugify_last.
  - by eapply SlugFacts.groups_no_double.
Qed.

Lemma slugify_is_file_name_safe_witness :
  GeneratePrompts.is_ascii "  The Unknown -- Unknown!  " = true /\
  GeneratePrompts.slugify "  The Unknown -- Unknown!  " = "the_unknown_unknown" /\
  all_chars (fun c => GeneratePrompts.is_slug_char c || bool_decide (c = "_"%char))
    (GeneratePrompts.slugify "  The Unknown -- Unknown!  ") = true /\
  String.prefix "_" (GeneratePrompts.slugify "  The Unknown -- Unknown!  ") = false /\
  last_char (GeneratePrompts.slugify "  The Unknown -- Unknown!  ") <> Some "_"%char /\
  GeneratePrompts.infixb "__" (GeneratePrompts.slugify "  The Unknown -- Unknown!  ")
    = false.
Proof.
  split; [reflexivity|]. split; [reflexivity|].
  apply (slugify_is_file_name_safe "  The Unknown -- Unknown!  "). reflexivity.
Defined.

(** X7: [slugify] is idempotent on ASCII texts: the slug of a slug is the slug
    itself, so a name that was generated once can be passed through again. *)
Theorem slugify_idempotent (text : string) :
  GeneratePrompts.is_ascii text = true ->
  GeneratePrompts.slugify (GeneratePrompts.slugify text) = GeneratePrompts.slugify text.
Proof.
  intros _. pose proof (SlugFacts.slugify_groups text) as Hg.
  pose proof (SlugFacts.slugify_last text) as Hl.
  set (x := GeneratePrompts.slugify text) in *.
  unfold GeneratePrompts.slugify at 1, GeneratePrompts.strip.
  rewrite (SlugFacts.lower_slug _ _ Hg).
  rewrite (SlugFacts.sub_runs_slug false x) by by eapply SlugFacts.slug_groups_weaken.
  rewrite (SlugFacts.lstrip_slug x Hg). by apply SlugFacts.rstrip_slug.
Qed.

Lemma slugify_idempotent_witness :
  GeneratePrompts.is_ascii "Queen of Agents" = true /\
  GeneratePrompts.slugify (GeneratePrompts.slugify "Queen of Agents")
    = GeneratePrompts.slugify "Queen of Agents".
Proof.
  split; [reflexivity|]. apply (slugify_idempotent "Queen of Agents"). reflexivity.
Defined.

(** ** Examples and prompts *)

Module VisualFacts.
Import GeneratePrompts.

Lemma snippet_cons_colon s : is_Some (snippet (String ":" s)).
Proof. unfold snippet. cbn. by eexists. Qed.

Lemma snippet_cons_other c s :
  c <> ":"%char -> is_Some (snippet (String c s)) <-> is_Some (snippet s).
Proof.
  intros Hc. unfold snippet. cbn [split_once].
  rewrite bool_decide_false by done.
  destruct (split_once ":" s) as [|p1 [|p2 [|p3 ps]]]; cbn;
    split; intros [x Hx]; try done; by eexists.
Qed.

Lemma snippet_colon ex : is_Some (snippet ex) <-> infixb ":" ex = true.
Proof.
  induction ex as [|c s IH].
  - split; [by intros [x Hx]|done].
  - cbn [infixb String.prefix]. destruct (ascii_dec ":" c) as [<-|Hne].
    + split; [|intros _; apply snippet_cons_colon].
      intros _. by destruct s.
    + rewrite snippet_cons_other by done. by rewrite IH.
Qed.

Lemma snippet_none ex : infixb ":" ex = false -> snippet ex = None.
Proof.
  intros Hf. destruct (snippet ex) as [x|] eqn:E; [|done].
  assert (is_Some (snippet ex)) as Hs by (by rewrite E).
  apply snippet_colon in Hs. congruence.
Qed.

Lemma omap_snippet_filter (examples : list string) :
  omap snippet (filter (fun ex => infixb ":" ex = true) examples)
  = omap snippet examples.
Proof.
  induction examples as [|ex exs IH]; [done|].
  rewrite filter_cons. destruct (decide (infixb ":" ex = true)) as [Hc|Hc].
  - cbn [omap list_omap]. by rewrite <-IH.
  - cbn [omap list_omap]. rewrite snippet_none by by destruct (infixb ":" ex).
    exact IH.
Qed.

Lemma omap_snippet_length (examples : list string) :
  length (omap snippet examples)
  = length (filter (fun ex => infixb ":" ex = true) examples).
Proof.
  induction examples as [|ex exs IH]; [done|].
  rewrite filter_cons. cbn [omap list_omap].
  destruct (decide (infixb ":" ex = true)) as [Hc|Hc].
  - apply snippet_colon in Hc as [x ->]. cbn. by rewrite <-IH.
  - rewrite snippet_none by by destruct (infixb ":" ex). exact IH.
Qed.

End VisualFacts.

(** X8: which examples reach the prompt. [examples_to_visuals] leaves out every
    example that has no colon, gives the empty text when no example has one,
    and looks at nothing beyond the third example that has one. *)
Theorem examples_to_visuals_first_three (examples extra : list string) :
  GeneratePrompts.examples_to_visuals
    (filter (fun ex => GeneratePrompts.infixb ":" ex = true) examples)
    = GeneratePrompts.examples_to_visuals examples /\
  ((forall ex, ex ∈ examples -> GeneratePrompts.infixb ":" ex = false) ->
   GeneratePrompts.examples_to_visuals examples = EmptyString) /\
  ((3 <= length (filter (fun ex => GeneratePrompts.infixb ":" ex = true) examples))%nat ->
   GeneratePrompts.examples_to_visuals (examples ++ extra)
     = GeneratePrompts.examples_to_visuals examples).
Proof.
  rewrite !PromptFacts.examples_to_visuals_snippets. split_and!.
  - by rewrite VisualFacts.omap_snippet_filter.
  - intros Hno.
    assert (omap GeneratePrompts.snippet examples = []) as ->; [|done].
    induction examples as [|ex exs IH]; [done|]. cbn [omap list_omap].
    rewrite VisualFacts.snippet_none by (apply Hno; by left).
    apply IH. intros ex' Hex'. apply Hno. by right.
  - intros Hlen. rewrite <-VisualFacts.omap_snippet_length in Hlen.
    rewrite omap_app. by rewrite take_app_le by done.
Qed.

Lemma examples_to_visuals_first_three_witness :
  (3 <= length (filter (fun ex => GeneratePrompts.infixb ":" ex = true)
                  ["a: One"; "no colon"; "b: Two"; "c: Three"]))%nat /\
  GeneratePrompts.examples_to_visuals
    (["a: One"; "no colon"; "b: Two"; "c: Three"] ++ ["d: Four"])
    = GeneratePrompts.examples_to_visuals ["a: One"; "no colon"; "b: Two"; "c: Three"] /\
  GeneratePrompts.examples_to_visuals ["a: One"; "no colon"; "b: Two"; "c: Three"]
    = "one; two; three".
Proof.
  assert (3 <= length (filter (fun ex => GeneratePrompts.infixb ":" ex = true)
                         ["a: One"; "no colon"; "b: Two"; "c: Three"]))%nat as Hlen.
  { vm_compute. lia. }
  split; [exact Hlen|]. split; [|reflexivity].
  exact (proj2 (proj2 (examples_to_visuals_first_three
                         ["a: One"; "no colon"; "b: Two"; "c: Three"] ["d: Four"]))
           Hlen).
Defined.

(** ** More on a run of the generator *)

Module RunFacts.
Import SystemsTarot GeneratePrompts PromptFacts.

Lemma rank_cue_outside (k : Z) : ~ (1 <= k <= 14) -> RANK_CUES !! k = None.
Proof.
  intros Hk. unfold RANK_CUES. apply not_elem_of_list_to_map_1.
  cbn [fmap list_fmap fst]. intros Hin.
  repeat (apply elem_of_cons in Hin as [->|Hin]; [lia|]).
  by apply elem_of_nil in Hin.
Qed.

Lemma networks_style_defined : is_Some (SUIT_STYLES !! "Networks").
Proof. apply (bool_decide_unpack _). vm_compute. reflexivity. Qed.

(** X9: what [build_minor_prompt] falls back on. For a card whose category has
    no style of its own the prompt opens with the style of Networks; for a
    card without rank, or with a rank outside 1 to 14, the line of the
    compositional anchor is there with an empty cue. Neither case raises. *)
Theorem minor_prompt_fallbacks (card : Card) :
  (SUIT_STYLES !! card_type card = None ->
   exists style rest,
     SUIT_STYLES !! "Networks" = Some style /\
     build_minor_prompt card = style +:+ "." +:+ nl +:+ rest) /\
  ((forall k, number card = Some k -> ~ (1 <= k <= 14)) ->
   infixb (nl +:+ "Compositional anchor: ." +:+ nl) (build_minor_prompt card) = true).
Proof.
  split.
  - intros Hnone. destruct networks_style_defined as [style Hs].
    exists style. eexists. split; [done|].
    unfold build_minor_prompt. cbv zeta. rewrite Hnone, Hs.
    cbn [default join]. rewrite app_assoc_s. reflexivity.
  - intros Hk. unfold build_minor_prompt. cbv zeta.
    assert (match number card with
            | Some k => default EmptyString (RANK_CUES !! k)
            | None => EmptyString
            end = EmptyString) as ->.
    { destruct (number card) as [k|] eqn:E; [|done].
      by rewrite rank_cue_outside by by apply Hk. }
    cbn [join].
    lazymatch goal with
    | |- infixb ?j (?l1 +:+ nl +:+ ?l2 +:+ nl +:+ ?l3 +:+ nl +:+ ?l4 +:+ nl +:+ ?rest)
         = true =>
        replace (l1 +:+ nl +:+ l2 +:+ nl +:+ l3 +:+ nl +:+ l4 +:+ nl +:+ rest)
          with ((l1 +:+ nl +:+ l2 +:+ nl +:+ l3) +:+ j +:+ rest);
        [apply infixb_app|]
    end.
    rewrite !app_assoc_s. reflexivity.
Qed.

Lemma minor_prompt_fallbacks_witness :
  SUIT_STYLES !! card_type unlisted_card = None /\
  (forall k, number unlisted_card = Some k -> ~ (1 <= k <= 14)) /\
  (exists style rest,
     SUIT_STYLES !! "Networks" = Some style /\
     build_minor_prompt unlisted_card = style +:+ "." +:+ nl +:+ rest) /\
  infixb (nl +:+ "Compositional anchor: ." +:+ nl) (build_minor_prompt unlisted_card)
    = true.
Proof.
  assert (SUIT_STYLES !! card_type unlisted_card = None) as Hs
    by (vm_compute; reflexivity).
  assert (forall k, number unlisted_card = Some k -> ~ (1 <= k <= 14)) as Hk
    by (intros k Hk; discriminate Hk).
  split; [exact Hs|]. split; [exact Hk|]. split.
  - exact (proj1 (minor_prompt_fallbacks unlisted_card) Hs).
  - exact (proj2 (minor_prompt_fallbacks unlisted_card) Hk).
Defined.

(** X10: the inner loop of [generate_all] ends in the TypeError of the format
    [02d] exactly when one of the cards it is given has no rank; every list of
    ranked cards is written to the end. *)
Theorem minor_loop_type_error (out suit_prefix : string) (cards : list Card)
    (st : Console * list (string * string)) :
  minor_loop out suit_prefix cards st = None
  <-> exists card, card ∈ cards /\ number card = None.
Proof.
  revert st. induction cards as [|card rest IH]; intros st; cbn [minor_loop].
  { split; [done|]. intros (c & Hin & _). by apply elem_of_nil in Hin. }
  destruct (number card) as [k|] eqn:E.
  - rewrite IH. split; intros (c & Hin & Hn).
    + exists c. split; [by right|done].
    + apply elem_of_cons in Hin as [->|Hin]; [congruence|]. by exists c.
  - split; [|done]. intros _. exists card. split; [by left|done].
Qed.

Lemma minor_loop_type_error_witness :
  (exists card, card ∈ [unlisted_card] /\ number card = None) /\
  minor_loop "out" "wands" [unlisted_card] (empty_console, []) = None.
Proof.
  assert (exists card, card ∈ [unlisted_card] /\ number card = None) as Hc.
  { exists unlisted_card. split; [by left|reflexivity]. }
  split; [exact Hc|].
  exact (proj2 (minor_loop_type_error "out" "wands" [unlisted_card]
                  (empty_console, [])) Hc).
Defined.

(** *** The files of a run and the files that were there *)

Lemma write_entries_union out es (m : gmap string string) :
  write_entries out es m = write_entries out es ∅ ∪ m.
Proof.
  revert m. induction es as [|[f c] es IH]; intros m.
  { cbn. by rewrite (left_id_L ∅ (∪)). }
  rewrite !write_entries_cons, (IH (<[_:=_]> m)), (IH (<[_:=_]> ∅)).
  rewrite <-(assoc_L (∪)). f_equal.
  rewrite insert_empty. apply insert_union_singleton_l.
Qed.

Lemma write_entries_dom out es (m : gmap string string) :
  dom (write_entries out es m) = list_to_set (path_join out <$> es.*1) ∪ dom m.
Proof.
  revert m. induction es as [|[f c] es IH]; intros m.
  { cbn. by rewrite (left_id_L ∅ (∪)). }
  rewrite write_entries_cons, IH, dom_insert_L.
  cbn [fmap list_fmap fst list_to_set].
  by rewrite (assoc_L (∪)), (comm_L (∪) (list_to_set _) {[_]}).
Qed.

Lemma write_entries_size out es :
  NoDup es.*1 -> Forall (fun e => starts_with_slash e.1 = false) es ->
  size (write_entries out es ∅) = length es.
Proof.
  intros Hnd Hrel. rewrite <-size_dom, write_entries_dom, dom_empty_L.
  rewrite (right_id_L ∅ (∪)), size_list_to_set.
  - by rewrite !length_fmap.
  - apply NoDup_fmap_2_strong; [|done].
    intros f1 f2 H1 H2. apply path_join_inj.
    + apply list_elem_of_fmap in H1 as (e & -> & He).
      by apply (proj1 (Forall_forall _ _) Hrel).
    + apply list_elem_of_fmap in H2 as (e & -> & He).
      by apply (proj1 (Forall_forall _ _) Hrel).
Qed.

Lemma entries_length es :
  mapM minor_entry minor_arcana = Some es ->
  length (major_entries 1 MAJOR_ARCANA ++ es) = 78%nat.
Proof.
  intros Hes. apply mapM_Some_1, Forall2_length in Hes.
  rewrite length_app, <-Hes. reflexivity.
Qed.

(** X11: the files after a run of [generate_all]. Started on an empty
    directory the run leaves exactly 78 files; started on any other, it leaves
    those 78 files, which replace files of the same paths, beside every other
    file that was there; and run again, it changes no file. *)
Theorem generate_all_overwrites (here : string) (w : Console) :
  exists w' fresh,
    generate_all here w = Some w' /\
    generate_all here empty_console = Some fresh /\
    size (files fresh) = 78%nat /\
    files w' = files fresh ∪ files w /\
    (exists w'', generate_all here w' = Some w'' /\ files w'' = files w').
Proof.
  destruct (generate_all_files here w) as (w' & es & Hrun & Hes & Hfiles).
  destruct (generate_all_files here empty_console)
    as (fresh & es0 & Hrun0 & Hes0 & Hfiles0).
  destruct (generate_all_files here w') as (w'' & es1 & Hrun1 & Hes1 & Hfiles1).
  assert (es0 = es) as -> by congruence. assert (es1 = es) as -> by congruence.
  pose proof file_names_distinct as Hnd.
  pose proof file_names_relative as Hrel.
  rewrite Hes in Hnd, Hrel. cbn [default] in Hnd, Hrel.
  cbn [files empty_console] in Hfiles0.
  exists w', fresh. split_and!; [done|done|..].
  - by rewrite Hfiles0, write_entries_size, entries_length.
  - by rewrite Hfiles, Hfiles0, <-write_entries_union.
  - exists w''. split; [done|].
    rewrite Hfiles1, Hfiles, write_entries_union.
    rewrite (write_entries_union _ _ (files w)).
    by rewrite (assoc_L (∪)), (idemp_L (∪)).
Qed.

(** *** What a run prints *)

Lemma major_loop_generated out i cards st :
  (major_loop out i cards st).2
  = st.2 ++ zip_with (fun e c => (e.1, name c)) (major_entries i cards) cards.
Proof.
  revert i st. induction cards as [|card rest IH]; intros i st.
  { cbn. by rewrite app_nil_r. }
  cbn [major_loop major_entries zip_with]. rewrite IH. cbn [snd fst].
  by rewrite <-(assoc_L (++)).
Qed.

Lemma minor_entries_length p cards es :
  minor_entries p cards = Some es -> length es = length cards.
Proof.
  revert es. induction cards as [|card rest IH]; intros es Hes.
  { by injection Hes as <-. }
  cbn [minor_entries] in Hes. destruct (number card) as [k|]; [|done].
  destruct (minor_entries p rest) as [es'|]; [|done].
  injection Hes as <-. cbn. by rewrite (IH es').
Qed.

Lemma minor_loop_generated out p cards st es st' :
  minor_entries p cards = Some es -> minor_loop out p cards st = Some st' ->
  st'.2 = st.2 ++ zip_with (fun e c => (e.1, name c)) es cards.
Proof.
  revert st es. induction cards as [|card rest IH]; intros st es Hes Hl.
  { injection Hes as <-. injection Hl as <-. cbn. by rewrite app_nil_r. }
  cbn [minor_entries] in Hes. cbn [minor_loop] in Hl.
  destruct (number card) as [k|]; [|done].
  destruct (minor_entries p rest) as [es'|] eqn:E; [|done].
  injection Hes as <-. rewrite (IH _ es' eq_refl Hl). cbn [snd fst zip_with].
  by rewrite <-(assoc_L (++)).
Qed.

Lemma suits_loop_generated out suits st es st' :
  suits_entries suits = Some es -> suits_loop out suits st = Some st' ->
  st'.2 = st.2 ++ zip_with (fun e c => (e.1, name c)) es (concat suits.*2).
Proof.
  revert st es. induction suits as [|[p cards] rest IH]; intros st es Hes Hl.
  { injection Hes as <-. injection Hl as <-. cbn. by rewrite app_nil_r. }
  cbn [suits_entries] in Hes. cbn [suits_loop] in Hl.
  destruct (minor_entries p cards) as [es1|] eqn:E1; [|done].
  destruct (suits_entries rest) as [es2|] eqn:E2; [|done].
  injection Hes as <-.
  destruct (minor_loop out p cards st) as [st1|] eqn:E; [|done].
  rewrite (IH st1 es2 eq_refl Hl), (minor_loop_generated _ _ _ _ _ _ E1 E).
  cbn [fmap list_fmap snd concat].
  rewrite zip_with_app by by eapply minor_entries_length.
  by rewrite <-(assoc_L (++)).
Qed.

Lemma major_loop_stdout out i cards st :
  stdout (major_loop out i cards st).1 = stdout st.1.
Proof.
  revert i st. induction cards as [|card rest IH]; intros i st; [done|].
  cbn [major_loop]. by rewrite IH.
Qed.

Lemma minor_loop_stdout out p cards st st' :
  minor_loop out p cards st = Some st' -> stdout st'.1 = stdout st.1.
Proof.
  revert st. induction cards as [|card rest IH]; intros st Hl.
  { by injection Hl as <-. }
  cbn [minor_loop] in Hl. destruct (number card) as [k|]; [|done].
  by rewrite (IH _ Hl).
Qed.

Lemma suits_loop_stdout out suits st st' :
  suits_loop out suits st = Some st' -> stdout st'.1 = stdout st.1.
Proof.
  revert st. induction suits as [|[p cards] rest IH]; intros st Hl.
  { by injection Hl as <-. }
  cbn [suits_loop] in Hl.
  destruct (minor_loop out p cards st) as [st1|] eqn:E; [|done].
  by rewrite (IH _ Hl), (minor_loop_stdout _ _ _ _ _ E).
Qed.

Lemma print_all_stdout (generated : list (string * string)) w :
  stdout (foldl (fun w fn => print ("  " +:+ fn.1 +:+ "  (" +:+ fn.2 +:+ ")") w)
                w generated)
  = stdout w +:+ foldr (fun l acc => l +:+ nl +:+ acc) EmptyString
                   ((fun fn => "  " +:+ fn.1 +:+ "  (" +:+ fn.2 +:+ ")")
                      <$> generated).
Proof.
  revert w. induction generated as [|fn rest IH]; intros w.
  { cbn. by rewrite app_nil_r_s. }
  cbn [foldl fmap list_fmap foldr]. rewrite IH. cbn [stdout print].
  by rewrite !app_assoc_s.
Qed.

Lemma fmap_zip_with {A B C D} (f : C -> D) (g : A -> B -> C) (l : list A)
    (k : list B) :
  f <$> zip_with g l k = zip_with (fun a b => f (g a b)) l k.
Proof.
  revert k. induction l as [|a l IH]; intros [|b k]; try done.
  cbn. by rewrite <-IH.
Qed.

(** X12: what [generate_all] prints. After the text that was there: one line
    with the count 78 and the output directory, an empty line, and then one
    line for each file written, in the order of the catalog, made of the file
    name and, in parentheses, the name of the card. *)
Theorem generate_all_summary (here : string) (w : Console) :
  exists w' es,
    generate_all here w = Some w' /\
    mapM minor_entry minor_arcana = Some es /\
    stdout w'
    = stdout w +:+ "Generated 78 prompt files → " +:+ OUT_DIR here +:+ "/"
        +:+ nl +:+ nl
        +:+ foldr (fun l acc => l +:+ nl +:+ acc) EmptyString
              (zip_with (fun e c => "  " +:+ e.1 +:+ "  (" +:+ name c +:+ ")")
                 (major_entries 1 MAJOR_ARCANA ++ es) catalog).
Proof.
  destruct minor_files_defined as [es Hes].
  pose proof minor_files_as_specified as Hs. rewrite Hes in Hs.
  unfold generate_all. cbv zeta.
  destruct (suits_loop (OUT_DIR here) _ _) as [[w1 generated]|] eqn:Hl.
  2: { destruct (suits_loop_files (OUT_DIR here) _
                   (major_loop (OUT_DIR here) 1 MAJOR_ARCANA (w, [])) es Hs)
         as (st' & Hst' & _). congruence. }
  pose proof (suits_loop_generated _ _ _ _ _ Hs Hl) as Hg.
  rewrite major_loop_generated in Hg. cbn [fst snd app] in Hg.
  assert (length (major_entries 1 MAJOR_ARCANA) = length MAJOR_ARCANA) as Hlen
    by reflexivity.
  rewrite <-zip_with_app in Hg by exact Hlen.
  change (MAJOR_ARCANA ++ concat _) with
    (MAJOR_ARCANA ++ concat [create_networks_suit; create_events_suit;
                             create_agents_suit; create_resources_suit]) in Hg.
  assert (MAJOR_ARCANA ++ concat [create_networks_suit; create_events_suit;
                                  create_agents_suit; create_resources_suit]
          = catalog) as Hcat.
  { unfold catalog. cbn [concat]. by rewrite app_nil_r. }
  rewrite Hcat in Hg.
  pose proof (suits_loop_stdout _ _ _ _ Hl) as Hout.
  rewrite major_loop_stdout in Hout. cbn [fst] in Hout.
  eexists _, es. split; [reflexivity|]. split; [done|].
  rewrite print_all_stdout. cbn [stdout print]. cbn [snd] in Hg.
  rewrite Hout, Hg, fmap_zip_with. unfold len.
  rewrite length_zip_with, (entries_length es Hes).
  change (str_int (Z.of_nat (78 `min` length catalog))) with "78".
  rewrite !app_assoc_s. reflexivity.
Qed.

End RunFacts.

(** ** More on the deck *)

Section DeckMore.
Context {A G : Type} `{RandomSource G}.
Implicit Types (t : Tarot A G) (n m : Z).

(** A request that leaves ten cards or more is served from the front and
    costs no shuffle. *)
Lemma draw_quiet t n :
  0 < n -> n + 10 <= len (deck t) ->
  draw t n = (take (Z.to_nat n) (deck t),
              {| full_deck := full_deck t;
                 deck := drop (Z.to_nat n) (deck t);
                 rng := rng t |}).
Proof.
  intros Hn Hfit. unfold len in Hfit. rewrite draw_pos by lia.
  unfold after_removal, before_removal, len.
  destruct (n >? Z.of_nat (length (deck t))) eqn:E; [lia|].
  cbn [deck full_deck rng]. rewrite slice_to_pos, slice_from_pos by lia.
  rewrite length_drop.
  destruct (Z.of_nat (length (deck t) - Z.to_nat n) <? 10) eqn:E'; [|done].
  apply Z.ltb_lt in E'. lia.
Qed.

(** X13: drawing in two steps is drawing at once. While ten cards or more are
    left afterwards, [draw(n)] followed by [draw(m)] hands out the cards of
    [draw(n + m)], in the same order, and leaves the same oracle: the same
    rest of the deck and a generator that was not stepped. *)
Theorem draw_in_two_steps t n m :
  0 <= n -> 0 <= m -> n + m + 10 <= len (deck t) ->
  (draw t n).1 ++ (draw (draw t n).2 m).1 = (draw t (n + m)).1 /\
  (draw (draw t n).2 m).2 = (draw t (n + m)).2 /\
  rng (draw t (n + m)).2 = rng t.
Proof.
  intros Hn Hm Hfit.
  destruct (decide (n = 0)) as [->|Hn0].
  { rewrite (draw_nonpos t 0) by lia. cbn [fst snd app]. rewrite Z.add_0_l.
    split_and!; [done..|].
    destruct (decide (m = 0)) as [->|Hm0]; [by rewrite draw_nonpos|].
    by rewrite draw_quiet by lia. }
  rewrite (draw_quiet t n) by lia. cbn [fst snd].
  destruct (decide (m = 0)) as [->|Hm0].
  { rewrite draw_nonpos by lia. rewrite Z.add_0_r, draw_quiet by lia.
    cbn [fst snd]. by rewrite app_nil_r. }
  unfold len in Hfit.
  rewrite draw_quiet; [|lia|cbn [deck]; unfold len; rewrite length_drop; lia].
  rewrite (draw_quiet t (n + m)) by (unfold len; lia).
  cbn [fst snd deck full_deck rng].
  rewrite Z2Nat.inj_add by lia. rewrite take_take_drop, drop_drop. done.
Qed.

(** X14: how many cards are left after a draw. With [k] the number the request
    is served from (the number left before, or 78 when the request exceeds
    it), a positive request [n] leaves [k - n] cards when that is ten or more
    and 78 otherwise; the number never depends on the shuffle. *)
Theorem cards_left_after_draw t n :
  Inv t -> 0 < n ->
  len (deck (draw t n).2)
  = (let k := if n >? len (deck t) then 78 else len (deck t) in
     if k - n <? 10 then 78 else k - n).
Proof.
  intros Ht Hn. pose proof (before_removal_Inv t n Ht) as Hb.
  assert (len (deck (before_removal t n))
          = if n >? len (deck t) then 78 else len (deck t)) as Hk.
  { unfold before_removal. destruct (n >? len (deck t)); [|done].
    unfold len. rewrite reset_deck_length. destruct Ht as [[_ ->] _]. done. }
  cbv zeta. rewrite <-Hk. rewrite draw_pos by lia. cbn [snd].
  assert (len (deck (after_removal t n))
          = Z.max 0 (len (deck (before_removal t n)) - n)) as Ha.
  { unfold after_removal. cbn [deck]. rewrite slice_from_pos by lia.
    unfold len. rewrite length_drop. lia. }
  assert (catalog_ok (after_removal t n)) as Hc.
  { destruct Ht as [Hc _]. unfold catalog_ok. by rewrite after_removal_full_deck. }
  destruct (len (deck (after_removal t n)) <? 10) eqn:E.
  - unfold len at 1. rewrite reset_deck_length, after_removal_full_deck.
    destruct Ht as [[_ ->] _].
    destruct (len (deck (before_removal t n)) - n <? 10) eqn:E'; [done|lia].
  - destruct (len (deck (before_removal t n)) - n <? 10) eqn:E'; lia.
Qed.

End DeckMore.

Lemma draw_in_two_steps_witness :
  0 <= 3 /\ 0 <= 4 /\ 3 + 4 + 10 <= len (deck example_session) /\
  (draw example_session 3).1 ++ (draw (draw example_session 3).2 4).1
    = (draw example_session (3 + 4)).1 /\
  (draw (draw example_session 3).2 4).2 = (draw example_session (3 + 4)).2 /\
  rng (draw example_session (3 + 4)).2 = rng example_session.
Proof.
  assert (3 + 4 + 10 <= len (deck example_session)) as Hfit.
  { vm_compute. discriminate. }
  split; [lia|]. split; [lia|]. split; [exact Hfit|].
  apply (draw_in_two_steps example_session 3 4); [lia|lia|exact Hfit].
Defined.

Lemma cards_left_after_draw_witness :
  Inv example_session /\ 0 < 70 /\
  len (deck (draw example_session 70).2) = 78.
Proof.
  split; [apply example_session_Inv|]. split; [lia|].
  rewrite (cards_left_after_draw example_session 70 example_session_Inv); [|lia].
  vm_compute. reflexivity.
Defined.

(** ** The lists of a call *)

Section Aliasing.
Context {A G : Type} `{RandomSource G}.
Implicit Types (p : Process A G) (self : TarotObj) (r : positive) (n : Z).

Lemma untouched_fresh p p' r :
  untouched p p' -> list_objs p' !! r = None -> list_objs p !! r = None.
Proof.
  intros (_ & Hsub & _) Hr. destruct (list_objs p !! r) as [x|] eqn:E; [|done].
  by rewrite (lookup_weaken _ _ _ _ E Hsub) in Hr.
Qed.

Lemma fresh_not_live p r r' :
  list_objs p !! r = None -> is_Some (list_objs p !! r') -> r <> r'.
Proof. intros Hr [x Hx] ->. congruence. Qed.

Lemma reset_obj_deck_fresh self p :
  list_objs p !! deck_ref (reset_and_shuffle_obj self p).1 = None.
Proof. apply (alloc_list_fresh (deref p (full_deck_ref self)) p). Qed.

(** X15: the lists of an oracle are never shared. The constructor makes two
    new list objects, one for the catalog and one for the deck. The list that
    [draw] returns is a new object as well: no list that existed before the
    call, not the deck and not the catalog, so that a caller who changes it
    changes no oracle. The deck and the catalog stay two objects, and a
    positive request leaves the attribute [deck] on a new list object, so that
    a reference to the former deck no longer follows the oracle. *)
Theorem lists_are_never_shared (catalog : list positive) self n p :
  (live (construct_obj catalog p).1 (construct_obj catalog p).2 /\
   deck_ref (construct_obj catalog p).1 <> full_deck_ref (construct_obj catalog p).1 /\
   list_objs p !! deck_ref (construct_obj catalog p).1 = None /\
   list_objs p !! full_deck_ref (construct_obj catalog p).1 = None /\
   deref (construct_obj catalog p).2 (full_deck_ref (construct_obj catalog p).1)
     = catalog) /\
  (live self p -> deck_ref self <> full_deck_ref self ->
   list_objs p !! (draw_obj self n p).1.1 = None /\
   is_Some (list_objs (draw_obj self n p).2 !! (draw_obj self n p).1.1) /\
   (draw_obj self n p).1.1 <> deck_ref (draw_obj self n p).1.2 /\
   (draw_obj self n p).1.1 <> full_deck_ref (draw_obj self n p).1.2 /\
   deck_ref (draw_obj self n p).1.2 <> full_deck_ref (draw_obj self n p).1.2 /\
   (0 < n -> list_objs p !! deck_ref (draw_obj self n p).1.2 = None)).
Proof.
  split.
  - unfold construct_obj.
    pose proof (alloc_list_fresh catalog p) as Hfresh.
    pose proof (alloc_list_new_live catalog p) as Hfd.
    pose proof (alloc_list_untouched catalog p) as Hun.
    pose proof (deref_alloc_new catalog p) as Hnew.
    destruct (alloc_list catalog p) as [fd p1]. cbn [fst snd] in *.
    set (self0 := {| full_deck_ref := fd; deck_ref := fd |}).
    destruct (reset_obj_view self0 p1 Hfd) as [_ Hlive].
    pose proof (reset_obj_deck_fresh self0 p1) as Hdk.
    pose proof (reset_obj_untouched self0 p1) as Hun1.
    split_and!.
    + exact Hlive.
    + by apply fresh_not_live with p1.
    + by eapply untouched_fresh.
    + exact Hfresh.
    + change (full_deck_ref (reset_and_shuffle_obj self0 p1).1) with fd.
      by rewrite (untouched_deref _ _ fd Hun1).
  - intros Hlive Hsep. pose proof Hlive as [Hfd Hdk].
    pose proof (draw_obj_full_deck_ref self n p) as Hfdr.
    destruct (Z_le_gt_dec n 0) as [Hn|Hn].
    { unfold draw_obj in *. destruct (n <=? 0) eqn:E; [|lia].
      pose proof (alloc_list_fresh [] p) as Hfresh.
      pose proof (alloc_list_new_live [] p) as Hnl.
      destruct (alloc_list [] p) as [r p']. cbn [fst snd] in *.
      split_and!; [done|done|by eapply fresh_not_live..|done|lia]. }
    rewrite Hfdr. rewrite draw_obj_pos by lia. cbn [fst snd].
    set (b1 := n >? len (deref p (deck_ref self))).
    destruct (maybe_reset_obj b1 self p Hlive) as (_ & [Hfd1 Hdk1] & Hun1 & Hr1).
    set (sp1 := if b1 then reset_and_shuffle_obj self p else (self, p)) in *.
    set (l2 := slice_to (deref sp1.2 (deck_ref sp1.1)) n).
    pose proof (alloc_list_untouched l2 sp1.2) as Hun2.
    pose proof (alloc_list_fresh l2 sp1.2) as Hf2.
    pose proof (alloc_list_new_live l2 sp1.2) as Hlive2.
    set (a2 := alloc_list l2 sp1.2) in *.
    set (l3 := slice_from (deref a2.2 (deck_ref sp1.1)) n).
    pose proof (alloc_list_untouched l3 a2.2) as Hun3.
    pose proof (alloc_list_fresh l3 a2.2) as Hf3.
    pose proof (alloc_list_new_live l3 a2.2) as Hlive3.
    set (a3 := alloc_list l3 a2.2) in *.
    set (self2 := {| full_deck_ref := full_deck_ref sp1.1; deck_ref := a3.1 |}).
    assert (live self2 a3.2) as Hl2.
    { split; cbn [full_deck_ref deck_ref]; [|done].
      eapply untouched_live; [exact Hun3|]. by eapply untouched_live. }
    set (b4 := len (deref a3.2 (deck_ref self2)) <? 10).
    destruct (maybe_reset_obj b4 self2 a3.2 Hl2) as (_ & [Hfd4 Hdk4] & Hun4 & Hr4).
    assert (list_objs a3.2
              !! deck_ref (if b4 then reset_and_shuffle_obj self2 a3.2
                           else (self2, a3.2)).1 = None
            \/ deck_ref (if b4 then reset_and_shuffle_obj self2 a3.2
                         else (self2, a3.2)).1 = a3.1) as Hnewdeck.
    { destruct b4; [left; apply reset_obj_deck_fresh|by right]. }
    set (sp4 := if b4 then reset_and_shuffle_obj self2 a3.2 else (self2, a3.2)) in *.
    assert (is_Some (list_objs a3.2 !! a2.1)) as Ha2 by by eapply untouched_live.
    assert (is_Some (list_objs a2.2 !! full_deck_ref self)) as Hfd2.
    { eapply untouched_live; [exact Hun2|]. by rewrite <-Hr1. }
    assert (list_objs a2.2 !! deck_ref sp4.1 = None) as Hdeck2.
    { destruct Hnewdeck as [Hd|Hd]; [|by rewrite Hd]. by eapply untouched_fresh. }
    split_and!.
    + by eapply untouched_fresh.
    + by eapply untouched_live.
    + intros E. rewrite <-E in Hdeck2. destruct Hlive2 as [x Hx]. congruence.
    + apply (fresh_not_live sp1.2); [exact Hf2|by rewrite <-Hr1].
    + apply (fresh_not_live a2.2); [exact Hdeck2|exact Hfd2].
    + intros _. eapply untouched_fresh; [exact Hun1|].
      eapply untouched_fresh; [exact Hun2|exact Hdeck2].
Qed.

End Aliasing.

Lemma example_object_separate :
  deck_ref example_object.1 <> full_deck_ref example_object.1.
Proof. vm_compute. discriminate. Defined.

Lemma lists_are_never_shared_witness :
  live example_object.1 example_object.2 /\
  deck_ref example_object.1 <> full_deck_ref example_object.1 /\
  list_objs example_object.2 !! (draw_obj example_object.1 3 example_object.2).1.1
    = None /\
  (draw_obj example_object.1 3 example_object.2).1.1
    <> deck_ref (draw_obj example_object.1 3 example_object.2).1.2.
Proof.
  split; [apply example_object_live|]. split; [apply example_object_separate|].
  pose proof (proj2 (lists_are_never_shared [] example_object.1 3 example_object.2)
                example_object_live example_object_separate)
    as (Hnew & _ & Hdeck & _).
  split; [exact Hnew|exact Hdeck].
Defined.

(** ** What a reading shows *)

Lemma in_order_app_r (parts : list string) (out x : string) :
  in_order parts out -> in_order parts (out +:+ x).
Proof.
  revert out. induction parts as [|part parts IH]; intros out; [done|].
  intros (pre & post & -> & Hpost). exists pre, (post +:+ x).
  split; [by rewrite !PromptFacts.app_assoc_s|by apply IH].
Qed.

Lemma in_order_snoc (parts : list string) (part out post : string) :
  in_order parts out -> in_order (parts ++ [part]) (out +:+ part +:+ post).
Proof.
  revert out. induction parts as [|q parts IH]; intros out.
  { intros _. by exists out, post. }
  intros (pre & post0 & -> & Hpost). exists pre, (post0 +:+ part +:+ post).
  split; [by rewrite !PromptFacts.app_assoc_s|by apply IH].
Qed.

Lemma showed_refl (w : GeneratePrompts.Console) : showed [] w w.
Proof.
  split; [done|]. exists EmptyString. by rewrite app_nil_r_s.
Qed.

Lemma showed_wrote (parts : list string) (w w1 w2 : GeneratePrompts.Console) :
  showed parts w w1 -> wrote w1 w2 -> showed parts w w2.
Proof.
  intros [Hf1 (o1 & Ho1 & Hin)] [Hf2 [o2 Ho2]]. split; [congruence|].
  exists (o1 +:+ o2). split; [by rewrite Ho2, Ho1, PromptFacts.app_assoc_s|].
  by apply in_order_app_r.
Qed.

Lemma showed_boxed (parts : list string) (header : string)
    (w w1 w2 : GeneratePrompts.Console) :
  showed parts w w1 -> boxed header w1 w2 -> showed (parts ++ [header]) w w2.
Proof.
  intros [Hf1 (o1 & Ho1 & Hin)] [Hf2 [rest Ho2]]. split; [congruence|].
  exists (o1 +:+ header +:+ rest).
  split; [by rewrite Ho2, Ho1, PromptFacts.app_assoc_s|].
  by apply in_order_snoc.
Qed.

(** One step of a method, with what has been shown kept up to date. *)
Ltac shows_console_step :=
  let w' := fresh "w" in
  let Hw' := fresh "Hw" in
  intros w' Hw'; cbn [fst snd] in Hw' |- *;
  lazymatch goal with
  | Hw : showed ?ps ?w0 ?w1, Hw2 : wrote ?w1 ?w2 |- _ =>
      let Hn := fresh "Hw" in
      pose proof (showed_wrote _ _ _ _ Hw Hw2) as Hn; clear Hw Hw2
  | Hw : showed ?ps ?w0 ?w1, Hw2 : boxed ?h ?w1 ?w2 |- _ =>
      let Hn := fresh "Hw" in
      pose proof (showed_boxed _ _ _ _ _ Hw Hw2) as Hn; clear Hw Hw2
  | _ => idtac
  end.

Ltac shows_step display_lemma :=
  lazymatch goal with
  | |- runs (mbind _ _) _ _ => apply runs_bind
  | |- runs (print _) _ _ => apply runs_print; shows_console_step
  | |- runs (prompt _) _ _ => apply runs_prompt; shows_console_step
  | |- runs (mret _) _ _ => apply runs_ret
  | |- runs (index _ _) _ _ => eapply runs_index; [reflexivity|]
  | |- runs (self_draw _) _ _ => apply runs_self_draw; cbn [fst snd]
  | |- runs _ _ _ => apply display_lemma; shows_console_step
  end.

Module RiskShowFacts.
Import RiskTarot RiskTarotConsole.

Section Facts.
Context {G : Type} `{RandomSource G}.
Local Abbreviation St := (@State Card G).

Lemma risk_display_shows (card : Card) (s : St) (Q : unit -> St -> Prop) :
  (forall w', boxed ("╔═══ " +:+ name card) s.2 w' -> Q tt (s.1, w')) ->
  runs (display card) s Q.
Proof.
  intros HQ. destruct (RiskConsoleFacts.risk_display_output (G:=G) card)
    as (rest & middle & _ & Hp).
  eexists tt, _. split; [apply Hp|]. apply HQ. split; [done|].
  eexists. cbn [GeneratePrompts.stdout].
  rewrite !PromptFacts.app_assoc_s. reflexivity.
Qed.

Lemma risk_reading_shows (spread_type : string) (t : TonysTarot G)
    (w : GeneratePrompts.Console) :
  Inv t ->
  runs (reading spread_type) (t, w)
    (fun _ s' =>
       s'.1 = (draw t (risk_spread_size spread_type)).2 /\
       showed ((fun c => "╔═══ " +:+ name c) <$> (draw t (risk_spread_size spread_type)).1)
         w s'.2).
Proof.
  intros Ht. pose proof (showed_refl w) as Hw.
  pose proof (fun n Hn => draw_length t n Ht Hn) as Hlen.
  unfold reading, risk_spread_size.
  do 6 shows_step risk_display_shows.
  repeat case_bool_decide.
  all: repeat (shows_step risk_display_shows; []).
  all: try lazymatch goal with
           | Hl : forall n, @?P n -> length (draw ?t0 n).1 = _
             |- context [(draw ?t0 ?n).1] =>
               let Hk := fresh "Hk" in
               pose proof (Hl n ltac:(lia)) as Hk;
               (let k := eval vm_compute in (Z.to_nat n) in
                change (Z.to_nat n) with k in Hk);
               destruct (draw t0 n) as [cards t'] eqn:E; cbn [fst snd] in Hk |- *;
               repeat (destruct cards as [|? cards]; [by (exfalso; cbn in Hk; lia)|]);
               destruct cards; [|by (exfalso; cbn in Hk; lia)]
           end.
  all: repeat (shows_step risk_display_shows; []).
  all: try lazymatch goal with
           | E : draw _ 0 = _ |- _ =>
               rewrite draw_nonpos in E by lia; injection E as <-
           end.
  all: by split.
Qed.

End Facts.
End RiskShowFacts.

Module SystemsShowFacts.
Import SystemsTarot SystemsTarotConsole.

Section Facts.
Context {G : Type} `{RandomSource G}.
Local Abbreviation St := (@State Card G).

Lemma systems_display_shows (card : Card) (s : St) (Q : unit -> St -> Prop) :
  (forall w', boxed ("╔═══ " +:+ name card) s.2 w' -> Q tt (s.1, w')) ->
  runs (display card) s Q.
Proof.
  intros HQ. destruct (SystemsConsoleFacts.systems_display_output (G:=G) card)
    as (rest & middle & _ & Hp).
  eexists tt, _. split; [apply Hp|]. apply HQ. split; [done|].
  eexists. cbn [GeneratePrompts.stdout].
  rewrite !PromptFacts.app_assoc_s. reflexivity.
Qed.

Lemma systems_reading_shows (spread_type : string) (t : SystemsTarot G)
    (w : GeneratePrompts.Console) :
  Inv t ->
  runs (reading spread_type) (t, w)
    (fun _ s' =>
       s'.1 = (draw t (systems_spread_size spread_type)).2 /\
       showed ((fun c => "╔═══ " +:+ name c) <$> (draw t (systems_spread_size spread_type)).1)
         w s'.2).
Proof.
  intros Ht. pose proof (showed_refl w) as Hw.
  pose proof (fun n Hn => draw_length t n Ht Hn) as Hlen.
  unfold reading, systems_spread_size.
  do 6 shows_step systems_display_shows.
  repeat case_bool_decide.
  all: repeat (shows_step systems_display_shows; []).
  all: try lazymatch goal with
           | Hl : forall n, @?P n -> length (draw ?t0 n).1 = _
             |- context [(draw ?t0 ?n).1] =>
               let Hk := fresh "Hk" in
               pose proof (Hl n ltac:(lia)) as Hk;
               (let k := eval vm_compute in (Z.to_nat n) in
                change (Z.to_nat n) with k in Hk);
               destruct (draw t0 n) as [cards t'] eqn:E; cbn [fst snd] in Hk |- *;
               repeat (destruct cards as [|? cards]; [by (exfalso; cbn in Hk; lia)|]);
               destruct cards; [|by (exfalso; cbn in Hk; lia)]
           end.
  all: repeat (shows_step systems_display_shows; []).
  all: try lazymatch goal with
           | E : draw _ 0 = _ |- _ =>
               rewrite draw_nonpos in E by lia; injection E as <-
           end.
  all: by split.
Qed.

End Facts.
End SystemsShowFacts.

(** X16: a reading shows the cards it draws. What [reading] prints holds the
    box headers [╔═══ name] of the cards that its [draw] returned, one for each
    card and in the order drawn; for a spread type it does not know no card is
    drawn and none is required to show. In both programs. *)
Theorem reading_shows_the_drawn_cards {G : Type} `{RandomSource G}
    (spread_type : string) (w : GeneratePrompts.Console) :
  (forall t : RiskTarot.TonysTarot G,
     Inv t ->
     exists w',
       RiskTarotConsole.reading spread_type (t, w)
         = Ok (tt, ((draw t (risk_spread_size spread_type)).2, w')) /\
       showed ((fun c => "╔═══ " +:+ RiskTarot.name c)
                 <$> (draw t (risk_spread_size spread_type)).1) w w') /\
  (forall t : SystemsTarot.SystemsTarot G,
     Inv t ->
     exists w',
       SystemsTarotConsole.reading spread_type (t, w)
         = Ok (tt, ((draw t (systems_spread_size spread_type)).2, w')) /\
       showed ((fun c => "╔═══ " +:+ SystemsTarot.name c)
                 <$> (draw t (systems_spread_size spread_type)).1) w w').
Proof.
  split; intros t Ht.
  - destruct (RiskShowFacts.risk_reading_shows spread_type t w Ht)
      as ([] & [t' w'] & Hrun & Ht' & Hw). cbn [fst snd] in *. subst t'.
    by exists w'.
  - destruct (SystemsShowFacts.systems_reading_shows spread_type t w Ht)
      as ([] & [t' w'] & Hrun & Ht' & Hw). cbn [fst snd] in *. subst t'.
    by exists w'.
Qed.

Lemma reading_shows_the_drawn_cards_witness :
  Inv example_session /\
  exists w',
    RiskTarotConsole.reading "three_card"
      (example_session, GeneratePrompts.empty_console)
      = Ok (tt, ((draw example_session (risk_spread_size "three_card")).2, w')) /\
    showed ((fun c => "╔═══ " +:+ RiskTarot.name c)
              <$> (draw example_session (risk_spread_size "three_card")).1)
      GeneratePrompts.empty_console w'.
Proof.
  split; [apply example_session_Inv|].
  apply (proj1 (reading_shows_the_drawn_cards (G:=Z) "three_card"
                  GeneratePrompts.empty_console) example_session).
  apply example_session_Inv.
Defined.
